(** * harvest-mcp: the relative-date resolver and the tool dispatcher

    A shallow embedding of [index.ts] and the properties of the
    specification that concern it. The sources hold two revisions of the
    server: the current one, built on [McpServer] with [registerTool],
    [getCredentials] and [parseRelativeDate], and an earlier one, built on
    [Server] with a single [CallToolRequest] handler and its [switch]
    (module [Legacy]).

    What lies outside the sources is modelled as follows.
    - Strings are sequences of code units in U+0000..U+00FF.
    - The numbers of the date arithmetic are integers or NaN. A [Date] is
      its time value, with the day and calendar functions of ECMA-262; the
      local zone is a constant offset from UTC, and the clock is a time
      value given to the resolver.
    - A tool invocation is a computation over the trace of the calls made
      to the Harvest API; the answers of the service and the rendering of
      their JSON are parameters (record [World]). *)

From Stdlib Require Import ZArith Lia Bool List Ascii String.
From Stdlib Require Import DecimalString DecimalPos DecimalN DecimalZ.
From stdpp Require Import base option strings gmap.

Local Open Scope string_scope.
Local Open Scope Z_scope.

(** ** JavaScript strings

    Strings are sequences of code units; the embedding covers the code
    units U+0000..U+00FF (one [ascii] each), which contain every character
    the regular expressions of the source name. *)

Definition code (c : ascii) : Z := Z.of_N (N_of_ascii c).

(** [\d] *)
Definition is_digit (c : ascii) : bool := (48 <=? code c) && (code c <=? 57).

(** [\s], and the characters [trim] removes: TAB, LF, VT, FF, CR, SP, NBSP. *)
Definition is_space (c : ascii) : bool :=
  ((9 <=? code c) && (code c <=? 13)) || (code c =? 32) || (code c =? 160).

Definition lower_char (c : ascii) : ascii :=
  let n := code c in
  if ((65 <=? n) && (n <=? 90)) ||
     ((192 <=? n) && (n <=? 222) && negb (n =? 215))
  then ascii_of_N (Z.to_N (n + 32)) else c.

Fixpoint toLowerCase (s : string) : string :=
  match s with
  | EmptyString => EmptyString
  | String c r => String (lower_char c) (toLowerCase r)
  end.

Fixpoint trimStart (s : string) : string :=
  match s with
  | EmptyString => EmptyString
  | String c r => if is_space c then trimStart r else s
  end.

Fixpoint trimEnd (s : string) : string :=
  match s with
  | EmptyString => EmptyString
  | String c r =>
      let r' := trimEnd r in
      if is_space c && String.eqb r' "" then "" else String c r'
  end.

Definition trim (s : string) : string := trimEnd (trimStart s).

Fixpoint repeat_char (c : ascii) (n : nat) : string :=
  match n with O => "" | S k => String c (repeat_char c k) end.

(** [s.padStart(n, c)] for a one-character filler. *)
Definition padStart (s : string) (n : nat) (c : ascii) : string :=
  repeat_char c (n - String.length s) ++ s.

(** ** JavaScript numbers

    The numbers of the resolver are integers or NaN: the fields of a
    [Date], the result of [parseInt] on a run of digits, and their sums
    and products. *)

Inductive Num : Type := NaN | Int (z : Z).

Definition num_add (a b : Num) : Num :=
  match a, b with Int x, Int y => Int (x + y) | _, _ => NaN end.

Definition num_mul (a b : Num) : Num :=
  match a, b with Int x, Int y => Int (x * y) | _, _ => NaN end.

Definition num_neg (a : Num) : Num :=
  match a with Int x => Int (- x) | NaN => NaN end.

Definition show_Z (z : Z) : string := NilEmpty.string_of_int (Z.to_int z).

(** [String(n)] and the interpolation [`${n}`]. *)
Definition String_ (n : Num) : string :=
  match n with NaN => "NaN" | Int z => show_Z z end.

(** [parseInt(s)] on a string made of decimal digits (the only strings
    the source passes, the capture of [(\d+)]); NaN otherwise. *)
Definition parseInt (s : string) : Num :=
  match NilEmpty.uint_of_string s with
  | Some d => if String.eqb s "" then NaN else Int (Z.of_N (N.of_uint d))
  | None => NaN
  end.

(** ** Regular expressions of the source

    Every repetition of the three expressions is followed by a character
    outside its class, so the greedy left-to-right reading below is the
    only way they can match. *)

Fixpoint span (p : ascii -> bool) (s : string) : string * string :=
  match s with
  | EmptyString => ("", "")
  | String c r =>
      if p c then let '(a, b) := span p r in (String c a, b) else ("", s)
  end.

(** [p+]: the longest non-empty run, and the rest. *)
Definition plus (p : ascii -> bool) (s : string) : option (string * string) :=
  let '(a, b) := span p s in
  if String.eqb a "" then None else Some (a, b).

(** A literal: the rest of [s] after the prefix [l]. *)
Fixpoint lit (l s : string) : option string :=
  match l, s with
  | EmptyString, _ => Some s
  | String a l', String b s' => if Ascii.eqb a b then lit l' s' else None
  | String _ _, EmptyString => None
  end.

(** An alternation of literals [(a|b|...)]: the first that matches. *)
Fixpoint alt (ls : list string) (s : string) : option (string * string) :=
  match ls with
  | [] => None
  | l :: ls' =>
      match lit l s with
      | Some r => Some (l, r)
      | None => alt ls' s
      end
  end.

(** A sequence of single-character classes, anchored at both ends. *)
Fixpoint matches (ps : list (ascii -> bool)) (s : string) : bool :=
  match ps, s with
  | [], EmptyString => true
  | p :: ps', String c s' => p c && matches ps' s'
  | _, _ => false
  end.

Definition is_dash (c : ascii) : bool := Ascii.eqb c "-".

(** [/^\d{4}-\d{2}-\d{2}$/.test(s)] *)
Definition isoDateRe (s : string) : bool :=
  matches [is_digit; is_digit; is_digit; is_digit; is_dash;
           is_digit; is_digit; is_dash; is_digit; is_digit] s.

(** [s.match(/^(\d+)\s+(day|week|month)s?\s+ago$/)]: the two captures. *)
Definition agoRe (s : string) : option (string * string) :=
  '(n, r1) ← plus is_digit s;
  '(_, r2) ← plus is_space r1;
  '(u, r3) ← alt ["day"; "week"; "month"] r2;
  let r4 := default r3 (lit "s" r3) in
  '(_, r5) ← plus is_space r4;
  r6 ← lit "ago" r5;
  if String.eqb r6 "" then Some (n, u) else None.

Definition weekdayNames : list string :=
  ["monday"; "tuesday"; "wednesday"; "thursday"; "friday"; "saturday"; "sunday"].

(** [s.match(/^(last|this)\s+(monday|...|sunday)$/)]: the two captures. *)
Definition weekdayRe (s : string) : option (string * string) :=
  '(m, r1) ← alt ["last"; "this"] s;
  '(_, r2) ← plus is_space r1;
  '(d, r3) ← alt weekdayNames r2;
  if String.eqb r3 "" then Some (m, d) else None.

(** [l.indexOf(x)] *)
Fixpoint indexOf (l : list string) (x : string) : Z :=
  match l with
  | [] => -1
  | y :: l' =>
      if String.eqb y x then 0
      else let i := indexOf l' x in if i <? 0 then -1 else i + 1
  end.

(** ** The [Date] object

    A [Date] holds a time value: NaN, or a number of milliseconds since
    the epoch of absolute value at most [maxTimeValue]. The day and
    calendar functions are those of ECMA-262 (section "Date objects"). *)

Definition msPerDay : Z := 86400000.
Definition maxTimeValue : Z := 8640000000000000.

Definition Date : Type := Num.

Definition TimeClip (t : Z) : Date :=
  if Z.abs t <=? maxTimeValue then Int t else NaN.

Definition Day (t : Z) : Z := t / msPerDay.
Definition TimeWithinDay (t : Z) : Z := t mod msPerDay.

Definition DaysInYear (y : Z) : Z :=
  if negb (y mod 4 =? 0) then 365
  else if negb (y mod 100 =? 0) then 366
  else if negb (y mod 400 =? 0) then 365
  else 366.

Definition DayFromYear (y : Z) : Z :=
  365 * (y - 1970) + (y - 1969) / 4 - (y - 1901) / 100 + (y - 1601) / 400.

(** The year of a day number: the largest [y] with [DayFromYear y <= d]
    (lemma [YearFromDay_spec]), computed over the 400-, 100- and 4-year
    cycles counted from 1 January 1601. *)
Definition YearFromDay (d : Z) : Z :=
  let n := d + 134774 in
  let c := Z.min (n mod 146097 / 36524) 3 in
  let r := n mod 146097 - c * 36524 in
  let y := Z.min (r mod 1461 / 365) 3 in
  1601 + 400 * (n / 146097) + 100 * c + 4 * (r / 1461) + y.

(** 1 in a leap year, 0 otherwise. *)
Definition LeapDay (y : Z) : Z := if DaysInYear y =? 366 then 1 else 0.

(** The day within the year at which month [m] (0..11) starts. *)
Definition MonthStart (m l : Z) : Z :=
  match m with
  | 0 => 0
  | 1 => 31
  | 2 => 59 + l
  | 3 => 90 + l
  | 4 => 120 + l
  | 5 => 151 + l
  | 6 => 181 + l
  | 7 => 212 + l
  | 8 => 243 + l
  | 9 => 273 + l
  | 10 => 304 + l
  | _ => 334 + l
  end.

Definition DayInYear (d : Z) : Z := d - DayFromYear (YearFromDay d).

Definition MonthFromDay (d : Z) : Z :=
  let k := DayInYear d in
  let l := LeapDay (YearFromDay d) in
  if k <? 31 then 0
  else if k <? 59 + l then 1
  else if k <? 90 + l then 2
  else if k <? 120 + l then 3
  else if k <? 151 + l then 4
  else if k <? 181 + l then 5
  else if k <? 212 + l then 6
  else if k <? 243 + l then 7
  else if k <? 273 + l then 8
  else if k <? 304 + l then 9
  else if k <? 334 + l then 10
  else 11.

Definition DateFromDay (d : Z) : Z :=
  DayInYear d - MonthStart (MonthFromDay d) (LeapDay (YearFromDay d)) + 1.

Definition YearFromTime (t : Z) : Z := YearFromDay (Day t).
Definition MonthFromTime (t : Z) : Z := MonthFromDay (Day t).
Definition DateFromTime (t : Z) : Z := DateFromDay (Day t).
Definition WeekDay (t : Z) : Z := (Day t + 4) mod 7.

(** [MakeDay]: the day number of day [date] of month [month] of [year];
    months and days outside their range carry over. *)
Definition MakeDay (year month date : Z) : Z :=
  let ym := year + month / 12 in
  let mn := month mod 12 in
  DayFromYear ym + MonthStart mn (LeapDay ym) + date - 1.

Definition MakeDate (day time : Z) : Z := day * msPerDay + time.

Section LocalZone.

(** The offset of local time from UTC, in milliseconds, taken constant. *)
Variable LocalTZA : Z.

Definition LocalTime (t : Z) : Z := t + LocalTZA.
Definition UTC (t : Z) : Z := t - LocalTZA.

Definition getFullYear (d : Date) : Num :=
  match d with Int t => Int (YearFromTime (LocalTime t)) | NaN => NaN end.
Definition getMonth (d : Date) : Num :=
  match d with Int t => Int (MonthFromTime (LocalTime t)) | NaN => NaN end.
Definition getDate (d : Date) : Num :=
  match d with Int t => Int (DateFromTime (LocalTime t)) | NaN => NaN end.
Definition getDay (d : Date) : Num :=
  match d with Int t => Int (WeekDay (LocalTime t)) | NaN => NaN end.

(** [d.setHours(0, 0, 0, 0)]: the new time value. *)
Definition setHours0 (d : Date) : Date :=
  match d with
  | Int u => let t := LocalTime u in TimeClip (UTC (MakeDate (Day t) 0))
  | NaN => NaN
  end.

(** [d.setDate(dt)]: the new time value. *)
Definition setDate (d : Date) (dt : Num) : Date :=
  match d, dt with
  | Int u, Int n =>
      let t := LocalTime u in
      TimeClip (UTC (MakeDate
        (MakeDay (YearFromTime t) (MonthFromTime t) n) (TimeWithinDay t)))
  | _, _ => NaN
  end.

(** [d.setMonth(m)]: the new time value. *)
Definition setMonth (d : Date) (m : Num) : Date :=
  match d, m with
  | Int u, Int n =>
      let t := LocalTime u in
      TimeClip (UTC (MakeDate
        (MakeDay (YearFromTime t) n (DateFromTime t)) (TimeWithinDay t)))
  | _, _ => NaN
  end.

(** ** [formatDate], [addDays], [addMonths] *)

Definition formatDate (date : Date) : string :=
  let year := getFullYear date in
  let month := padStart (String_ (num_add (getMonth date) (Int 1))) 2 "0" in
  let day := padStart (String_ (getDate date)) 2 "0" in
  String_ year ++ "-" ++ month ++ "-" ++ day.

Definition addDays (date : Date) (days : Num) : Date :=
  let result := date in
  setDate result (num_add (getDate result) days).

Definition addMonths (date : Date) (months : Num) : Date :=
  let result := date in
  setMonth result (num_add (getMonth result) months).

(** ** [parseRelativeDate]

    [now] is the time value of [new Date()]. *)

Definition parseRelativeDate (now : Z) (input : string) : string :=
  let normalized := trim (toLowerCase input) in
  let today := setHours0 (Int now) in
  let weekdays :=
    match weekdayRe normalized with
    | Some (modifier, targetDay) =>
        let targetDayIndex :=
          indexOf ["sunday"; "monday"; "tuesday"; "wednesday"; "thursday";
                   "friday"; "saturday"] targetDay in
        let currentDayIndex := getDay today in
        if String.eqb modifier "last" then
          let daysBack := num_add currentDayIndex (Int (- targetDayIndex)) in
          let daysBack :=
            match daysBack with
            | Int k => if k <=? 0 then Int (k + 7) else Int k
            | NaN => NaN
            end in
          formatDate (addDays today (num_neg daysBack))
        else
          let daysForward := num_add (Int targetDayIndex) (num_neg currentDayIndex) in
          let daysForward :=
            match daysForward with
            | Int k => if k <? 0 then Int (k + 7) else Int k
            | NaN => NaN
            end in
          formatDate (addDays today daysForward)
    | None => input
    end in
  if isoDateRe input then input
  else if String.eqb normalized "today" || String.eqb normalized "now"
  then formatDate today
  else if String.eqb normalized "yesterday"
  then formatDate (addDays today (Int (-1)))
  else if String.eqb normalized "tomorrow"
  then formatDate (addDays today (Int 1))
  else
    match agoRe normalized with
    | Some (g1, unit) =>
        let amount := parseInt g1 in
        if String.eqb unit "day"
        then formatDate (addDays today (num_neg amount))
        else if String.eqb unit "week"
        then formatDate (addDays today (num_mul (num_neg amount) (Int 7)))
        else if String.eqb unit "month"
        then formatDate (addMonths today (num_neg amount))
        else weekdays
    | None => weekdays
    end.

End LocalZone.


(** ** Tool arguments, credentials and the Harvest client

    An arguments object is a finite map from property names to JSON
    scalars, strings and numbers, the two kinds the declared schemas
    admit; a property that is absent reads as [undefined]. Numbers that
    reach the dispatcher are identifiers and amounts which it only tests
    for truthiness, interpolates and passes on; they are modelled by
    integers. *)

Inductive Value : Type := VStr (s : string) | VNum (n : Z).

#[global] Instance Value_eq_dec : EqDecision Value.
Proof. solve_decision. Defined.

Definition truthy (v : option Value) : bool :=
  match v with
  | Some (VStr s) => negb (String.eqb s "")
  | Some (VNum n) => negb (n =? 0)
  | None => false
  end.

(** [a || b] *)
Definition or_else (a b : option Value) : option Value :=
  if truthy a then a else b.

(** [`${v}`] *)
Definition show (v : option Value) : string :=
  match v with
  | Some (VStr s) => s
  | Some (VNum n) => show_Z n
  | None => "undefined"
  end.

(** [process.env]: the two variables the server reads. *)
Record Env : Type := {
  HARVEST_ACCESS_TOKEN : option string;
  HARVEST_ACCOUNT_ID : option string
}.

Definition env_value (o : option string) : option Value := VStr <$> o.

Inductive Method : Type := GET | POST | DELETE.

(** The client [createClient(token, accountId)] returns: an axios instance
    with a base URL and three headers. *)
Record Client : Type := {
  baseURL : string;
  Authorization : string;
  Harvest_Account_Id : string;
  User_Agent : string
}.

Definition createClient (token accountId : option Value) : Client :=
  {| baseURL := "https://api.harvestapp.com/v2";
     Authorization := "Bearer " ++ show token;
     Harvest_Account_Id := show accountId;
     User_Agent := "MCP-Harvest-PAT (your-email@example.com)" |}.

(** One call of the Harvest API: the client, the method, the path, the
    query parameters and the JSON body. An object property whose value is
    [undefined] is not sent, so it is left out of the map. *)
Record Request : Type := {
  client : Client;
  method : Method;
  path : string;
  params : gmap string Value;
  data : gmap string Value
}.

Definition set_prop (k : string) (v : option Value)
    (m : gmap string Value) : gmap string Value :=
  match v with Some x => <[k := x]> m | None => m end.

(** What is thrown: an [Error] with its message, or the error of a failed
    request, which may carry the message of the remote service
    ([error.response?.data?.message]). *)
Record Exn : Type := {
  response_message : option string;
  message : string
}.

Definition Error (msg : string) : Exn :=
  {| response_message := None; message := msg |}.

(** The result of a tool: [{ isError, content: [{ type: "text", text }] }]. *)
Record ToolResponse : Type := {
  isError : bool;
  text : string
}.

Definition ok (t : string) : ToolResponse := {| isError := false; text := t |}.
Definition failed (t : string) : ToolResponse := {| isError := true; text := t |}.

(** The world outside the server: the zone and the clock of the host, the
    environment of the process, the remote service, and the rendering of
    its JSON answers (a display concern, left abstract). *)
Record World (Json : Type) : Type := {
  zone : Z;
  clock : Z;
  environ : Env;
  remote : Request -> Exn + Json;
  interpolate : Json -> string -> string;
  stringify : Json -> string -> string;
  time_entries : Json -> option (list Json);
  total_hours : list Json -> string;
  stringify_entries : list Json -> string
}.

Arguments zone {Json}.
Arguments clock {Json}.
Arguments environ {Json}.
Arguments remote {Json}.
Arguments interpolate {Json}.
Arguments stringify {Json}.
Arguments time_entries {Json}.
Arguments total_hours {Json}.
Arguments stringify_entries {Json}.

(** ** Handlers: computations that may throw and that record their calls *)

Definition M (A : Type) : Type := list Request -> (Exn + A) * list Request.

Definition ret {A} (a : A) : M A := fun tr => (inr a, tr).
Definition throw {A} (e : Exn) : M A := fun tr => (inl e, tr).
Definition bind {A B} (m : M A) (k : A -> M B) : M B :=
  fun tr =>
    match m tr with
    | (inr a, tr') => k a tr'
    | (inl e, tr') => (inl e, tr')
    end.

Notation "x ⇐ m ;; k" := (bind m (fun x => k))
  (at level 100, m at next level, right associativity).

Definition missingCredentials : string :=
  "Missing required credentials: access_token and account_id must be provided either as arguments or via HARVEST_ACCESS_TOKEN and HARVEST_ACCOUNT_ID environment variables.".

Definition dateRange (fromDate toDate : string) : string :=
  if String.eqb fromDate toDate then fromDate
  else fromDate ++ " to " ++ toDate.

Definition plural (n : nat) : string :=
  if (n =? 1)%nat then "entry" else "entries".

Record Credentials : Type := {
  accessToken : option Value;
  accountId : option Value
}.

Inductive Kind : Type := KString | KNumber.

(** A registered tool: its description, its input schema (property,
    kind, optional or not) and its callback. *)
Record Tool : Type := {
  description : string;
  inputSchema : list (string * (Kind * bool));
  callback : gmap string Value -> M ToolResponse
}.

Definition optional (k : Kind) : Kind * bool := (k, true).
Definition required (k : Kind) : Kind * bool := (k, false).

Definition registerTool (name : string) (t : Tool)
    (tools : gmap string Tool) : gmap string Tool :=
  <[name := t]> tools.

Section Server.

Context {Json : Type} (W : World Json).

(** [await client.get/post/delete(...)]: the call is recorded, and its
    failure is thrown. *)
Definition request (c : Client) (m : Method) (p : string)
    (q d : gmap string Value) : M Json :=
  fun tr =>
    let r := {| client := c; method := m; path := p; params := q; data := d |} in
    (remote W r, (tr ++ [r])%list).

(** [new Date()] *)
Definition newDate : Date := Int (clock W).

Definition getCredentials (args : gmap string Value) : M Credentials :=
  let accessToken :=
    or_else (args !! "access_token")
            (env_value (HARVEST_ACCESS_TOKEN (environ W))) in
  let accountId :=
    or_else (args !! "account_id")
            (env_value (HARVEST_ACCOUNT_ID (environ W))) in
  if negb (truthy accessToken) || negb (truthy accountId)
  then throw (Error missingCredentials)
  else ret {| accessToken := accessToken; accountId := accountId |}.

(** [parseRelativeDate(v)] for a property of the arguments: a value that
    is not a string has no [toLowerCase]. *)
Definition resolveDate (v : option Value) : M string :=
  match v with
  | Some (VStr s) => ret (parseRelativeDate (zone W) (clock W) s)
  | _ => throw (Error "input.toLowerCase is not a function")
  end.

Definition entriesSummary (res : Json) (fromDate toDate : string) : ToolResponse :=
  match time_entries W res with
  | None | Some [] =>
      ok ("No time entries found for " ++ dateRange fromDate toDate ++ ".")
  | Some entries =>
      ok ("Found " ++ show_Z (Z.of_nat (length entries)) ++ " time " ++
          plural (length entries) ++ " for " ++ dateRange fromDate toDate ++
          ":

Total hours: " ++ total_hours W entries ++ "

" ++ stringify_entries W entries)
  end.

Definition get_my_profile (args : gmap string Value) : M ToolResponse :=
  c ⇐ getCredentials args ;;
  let client := createClient (accessToken c) (accountId c) in
  res ⇐ request client GET "/users/me" ∅ ∅ ;;
  ret (ok ("Authenticated as: " ++ interpolate W res "first_name" ++ " " ++
           interpolate W res "last_name")).

Definition list_active_projects (args : gmap string Value) : M ToolResponse :=
  c ⇐ getCredentials args ;;
  let client := createClient (accessToken c) (accountId c) in
  res ⇐ request client GET "/users/me/project_assignments" ∅ ∅ ;;
  ret (ok (stringify W res "project_assignments")).

Definition log_time (args : gmap string Value) : M ToolResponse :=
  c ⇐ getCredentials args ;;
  let client := createClient (accessToken c) (accountId c) in
  spentDate ⇐ (if truthy (args !! "spent_date")
               then resolveDate (args !! "spent_date")
               else ret (formatDate (zone W) newDate)) ;;
  let payload :=
    set_prop "project_id" (args !! "project_id")
      (set_prop "task_id" (args !! "task_id")
        (set_prop "spent_date" (Some (VStr spentDate))
          (set_prop "hours" (args !! "hours")
            (set_prop "notes" (args !! "notes") ∅)))) in
  res ⇐ request client POST "/time_entries" ∅ payload ;;
  ret (ok ("Success! Time entry created with ID: " ++ interpolate W res "id")).

Definition get_time_entries (args : gmap string Value) : M ToolResponse :=
  c ⇐ getCredentials args ;;
  let client := createClient (accessToken c) (accountId c) in
  let today := formatDate (zone W) newDate in
  fromDate ⇐ (if truthy (args !! "from")
              then resolveDate (args !! "from") else ret today) ;;
  toDate ⇐ (if truthy (args !! "to")
            then resolveDate (args !! "to") else ret fromDate) ;;
  let params : gmap string Value :=
    <["to" := VStr toDate]> (<["from" := VStr fromDate]> ∅) in
  let params :=
    if truthy (args !! "project_id")
    then set_prop "project_id" (args !! "project_id") params else params in
  let params :=
    if truthy (args !! "user_id")
    then set_prop "user_id" (args !! "user_id") params else params in
  res ⇐ request client GET "/time_entries" params ∅ ;;
  ret (entriesSummary res fromDate toDate).

Definition delete_time_entry (args : gmap string Value) : M ToolResponse :=
  c ⇐ getCredentials args ;;
  let client := createClient (accessToken c) (accountId c) in
  _ ⇐ request client DELETE ("/time_entries/" ++ show (args !! "time_entry_id")) ∅ ∅ ;;
  ret (ok ("Success! Time entry " ++ show (args !! "time_entry_id") ++
           " has been deleted.")).

Definition credentialSchema : list (string * (Kind * bool)) :=
  [("access_token", optional KString); ("account_id", optional KString)].

(** The calls of [server.registerTool], in the order of the source. *)
Definition registrations : list (string * Tool) :=
  [ ("get_my_profile",
     {| description := "Verify credentials and get details of the authenticated user";
        inputSchema := credentialSchema;
        callback := get_my_profile |});
    ("list_active_projects",
     {| description := "List all active projects and their associated tasks";
        inputSchema := credentialSchema;
        callback := list_active_projects |});
    ("log_time",
     {| description := "Log time for a specific project and task";
        inputSchema := (credentialSchema ++
          [("project_id", required KNumber); ("task_id", required KNumber);
           ("hours", required KNumber); ("spent_date", optional KString);
           ("notes", optional KString)])%list;
        callback := log_time |});
    ("get_time_entries",
     {| description := "Get time entries for a specific date or date range. Defaults to today if no dates specified.";
        inputSchema := (credentialSchema ++
          [("from", optional KString); ("to", optional KString);
           ("project_id", optional KNumber); ("user_id", optional KNumber)])%list;
        callback := get_time_entries |});
    ("delete_time_entry",
     {| description := "Delete a specific time entry";
        inputSchema :=
          (credentialSchema ++ [("time_entry_id", required KNumber)])%list;
        callback := delete_time_entry |}) ].

Definition server : gmap string Tool :=
  fold_left (fun tools r => registerTool (fst r) (snd r) tools) registrations ∅.

(** Modelled from the spec: the boundary of the [McpServer] class of the
    SDK, which is not part of the sources. It selects the registered tool
    by name (sections 4.2 and 7: a name outside the fixed set is a
    [ToolNotFound] error), enforces the declared schema (section 4.2,
    step 2), runs the callback, and turns whatever it throws into the
    envelope [{ isError: true, content: message }] (section 7). *)
Definition valid (schema : list (string * (Kind * bool)))
    (args : gmap string Value) : bool :=
  forallb (fun e =>
    match args !! fst e, fst (snd e) with
    | None, _ => snd (snd e)
    | Some (VStr _), KString => true
    | Some (VNum _), KNumber => true
    | Some _, _ => false
    end) schema.

Definition callTool (name : string) (args : gmap string Value)
    : ToolResponse * list Request :=
  match server !! name with
  | None => (failed ("Tool " ++ name ++ " not found"), [])
  | Some tool =>
      if valid (inputSchema tool) args then
        match callback tool args [] with
        | (inr r, tr) => (r, tr)
        | (inl e, tr) => (failed (message e), tr)
        end
      else (failed ("Invalid arguments for tool " ++ name), [])
  end.

End Server.

(** ** The earlier revision: a [Server] with one [CallToolRequest] handler *)

(** [new Date(t).toISOString().split('T')[0]]: the UTC date, the year on
    four digits, or signed on six outside 0..9999. *)
Definition toISODate (t : Z) : string :=
  let y := YearFromTime t in
  let year :=
    if (0 <=? y) && (y <=? 9999) then padStart (show_Z y) 4 "0"
    else (if y <? 0 then "-" else "+") ++ padStart (show_Z (Z.abs y)) 6 "0" in
  year ++ "-" ++ padStart (show_Z (MonthFromTime t + 1)) 2 "0" ++ "-" ++
  padStart (show_Z (DateFromTime t)) 2 "0".

Module Legacy.
Section Server.

Context {Json : Type} (W : World Json).

(** The names the [ListToolsRequest] handler announces. *)
Definition tools : list string :=
  ["get_my_profile"; "list_active_projects"; "log_time"; "get_time_entries"].

Definition dateRange (fromDate toDate : option Value) : string :=
  if decide (fromDate = toDate) then show fromDate
  else show fromDate ++ " to " ++ show toDate.

Definition entriesSummary (res : Json) (fromDate toDate : option Value)
    : ToolResponse :=
  match time_entries W res with
  | None | Some [] =>
      ok ("No time entries found for " ++ dateRange fromDate toDate ++ ".")
  | Some entries =>
      ok ("Found " ++ show_Z (Z.of_nat (length entries)) ++ " time " ++
          plural (length entries) ++ " for " ++ dateRange fromDate toDate ++
          ":

Total hours: " ++ total_hours W entries ++ "

" ++ stringify_entries W entries)
  end.

(** The [switch (name)] of the handler, inside its [try]. *)
Definition switch (client : Client) (name : string)
    (args : gmap string Value) : M ToolResponse :=
  if String.eqb name "get_my_profile" then
    res ⇐ request W client GET "/users/me" ∅ ∅ ;;
    ret (ok ("Authenticated as: " ++ interpolate W res "first_name" ++ " " ++
             interpolate W res "last_name"))
  else if String.eqb name "list_active_projects" then
    res ⇐ request W client GET "/users/me/project_assignments" ∅ ∅ ;;
    ret (ok (stringify W res "project_assignments"))
  else if String.eqb name "log_time" then
    let payload :=
      set_prop "project_id" (args !! "project_id")
        (set_prop "task_id" (args !! "task_id")
          (set_prop "spent_date"
             (or_else (args !! "spent_date")
                      (Some (VStr (toISODate (clock W)))))
            (set_prop "hours" (args !! "hours")
              (set_prop "notes" (args !! "notes") ∅)))) in
    res ⇐ request W client POST "/time_entries" ∅ payload ;;
    ret (ok ("Success! Time entry created with ID: " ++ interpolate W res "id"))
  else if String.eqb name "get_time_entries" then
    let today := toISODate (clock W) in
    let fromDate := or_else (args !! "from") (Some (VStr today)) in
    let toDate := or_else (args !! "to") fromDate in
    let params : gmap string Value :=
      set_prop "to" toDate (set_prop "from" fromDate ∅) in
    let params :=
      if truthy (args !! "project_id")
      then set_prop "project_id" (args !! "project_id") params else params in
    let params :=
      if truthy (args !! "user_id")
      then set_prop "user_id" (args !! "user_id") params else params in
    res ⇐ request W client GET "/time_entries" params ∅ ;;
    ret (entriesSummary res fromDate toDate)
  else throw (Error ("Tool not found: " ++ name)).

(** The [CallToolRequest] handler. *)
Definition callTool (name : string) (args : gmap string Value)
    : ToolResponse * list Request :=
  let accessToken :=
    or_else (args !! "access_token")
            (env_value (HARVEST_ACCESS_TOKEN (environ W))) in
  let accountId :=
    or_else (args !! "account_id")
            (env_value (HARVEST_ACCOUNT_ID (environ W))) in
  if negb (truthy accessToken) || negb (truthy accountId)
  then (failed missingCredentials, [])
  else
    let client := createClient accessToken accountId in
    match switch client name args [] with
    | (inr r, tr) => (r, tr)
    | (inl e, tr) =>
        let message :=
          match response_message e with
          | Some m => if String.eqb m "" then message e else m
          | None => message e
          end in
        (failed ("Harvest API Error: " ++ message), tr)
    end.

End Server.
End Legacy.

(** ** The vocabulary of the specification *)

(** The current local date, as a day number (day 0 is 1 January 1970). *)
Definition localToday (tz now : Z) : Z := Day (now + tz).

(** The canonical form of a calendar day: year, month and day of the
    month, the last two on two digits, joined by dashes. *)
Definition pad2 (n : Z) : string := padStart (show_Z n) 2 "0".

Definition canonical (d : Z) : string :=
  show_Z (YearFromDay d) ++ "-" ++ pad2 (MonthFromDay d + 1) ++ "-" ++
  pad2 (DateFromDay d).

Inductive Weekday : Type :=
  Sunday | Monday | Tuesday | Wednesday | Thursday | Friday | Saturday.

Definition weekdayName (w : Weekday) : string :=
  match w with
  | Sunday => "sunday" | Monday => "monday" | Tuesday => "tuesday"
  | Wednesday => "wednesday" | Thursday => "thursday" | Friday => "friday"
  | Saturday => "saturday"
  end.

(** The number [getDay] gives a weekday. *)
Definition weekdayIndex (w : Weekday) : Z :=
  match w with
  | Sunday => 0 | Monday => 1 | Tuesday => 2 | Wednesday => 3
  | Thursday => 4 | Friday => 5 | Saturday => 6
  end.

(** The weekday of a calendar day; 1 January 1970 was a Thursday. *)
Definition weekdayOf (d : Z) : Weekday :=
  match (d + 4) mod 7 with
  | 0 => Sunday | 1 => Monday | 2 => Tuesday | 3 => Wednesday
  | 4 => Thursday | 5 => Friday | _ => Saturday
  end.

(** The time values for which the week around the current day can be held
    in a [Date]. *)
Definition clock_in_range (now : Z) : Prop :=
  Z.abs now + 8 * msPerDay <= maxTimeValue.

(** The time values a [Date] can hold. *)
Definition representable (t : Z) : Prop := Z.abs t <= maxTimeValue.

(** Local midnight of the current day, as a time value. *)
Definition midnight (tz now : Z) : Z := localToday tz now * msPerDay - tz.

Fixpoint all (p : ascii -> bool) (s : string) : bool :=
  match s with
  | EmptyString => true
  | String c r => p c && all p r
  end.

(** The first character of [b], if any, is outside the class [p]. *)
Definition stops (p : ascii -> bool) (b : string) : bool :=
  match b with
  | EmptyString => true
  | String c _ => negb (p c)
  end.

(** The first character of [s] is a lower-case letter. *)
Definition starts_lower (s : string) : bool :=
  match s with
  | EmptyString => false
  | String c _ => (97 <=? code c) && (code c <=? 122)
  end.

(** The forms of section 4.1. A blank between the words of a form stands
    for a non-empty run of white space. *)
Definition IsoForm (s : string) : Prop :=
  exists y m d,
    s = y ++ "-" ++ m ++ "-" ++ d /\
    String.length y = 4%nat /\ String.length m = 2%nat /\
    String.length d = 2%nat /\
    all is_digit y = true /\ all is_digit m = true /\ all is_digit d = true.

Definition KeywordForm (n : string) : Prop :=
  In n ["today"; "now"; "yesterday"; "tomorrow"].

Definition blank (w : string) : Prop := w <> "" /\ all is_space w = true.

Definition AgoForm (n : string) : Prop :=
  exists ds w1 u pl w2,
    n = ds ++ w1 ++ u ++ pl ++ w2 ++ "ago" /\
    ds <> "" /\ all is_digit ds = true /\ blank w1 /\
    In u ["day"; "week"; "month"] /\ (pl = "" \/ pl = "s") /\ blank w2.

Definition WeekdayForm (n : string) : Prop :=
  exists m w1 d,
    n = m ++ w1 ++ d /\
    In m ["last"; "this"] /\ blank w1 /\ In d weekdayNames.

Definition Recognized (input : string) : Prop :=
  IsoForm input \/
  KeywordForm (trim (toLowerCase input)) \/
  AgoForm (trim (toLowerCase input)) \/
  WeekdayForm (trim (toLowerCase input)).

(** The decision the source takes on an input: it is already canonical,
    or its normal form is a keyword or matches one of the two
    expressions. *)
Definition recognizedb (input : string) : bool :=
  let n := trim (toLowerCase input) in
  isoDateRe input ||
  existsb (String.eqb n) ["today"; "now"; "yesterday"; "tomorrow"] ||
  bool_decide (is_Some (agoRe n)) || bool_decide (is_Some (weekdayRe n)).

(** [sub] occurs in [s]. *)
Fixpoint contains (sub s : string) : bool :=
  match lit sub s with
  | Some _ => true
  | None => match s with
            | EmptyString => false
            | String _ r => contains sub r
            end
  end.

(** A source of credentials supplies both fields when both are non-empty
    strings. *)
Definition suppliesBoth (token account : option Value) : bool :=
  truthy token && truthy account.

(** The rule of section 4.2, step 1, as the specification words it: the
    explicit pair when both of its fields are non-empty, the ambient pair
    otherwise. *)
Definition credentialRule (args : gmap string Value) (e : Env) : Credentials :=
  if suppliesBoth (args !! "access_token") (args !! "account_id")
  then {| accessToken := args !! "access_token";
          accountId := args !! "account_id" |}
  else {| accessToken := env_value (HARVEST_ACCESS_TOKEN e);
          accountId := env_value (HARVEST_ACCOUNT_ID e) |}.

(** The credentials an invocation ends up with, field by field. *)
Definition resolvedToken (e : Env) (args : gmap string Value) : option Value :=
  or_else (args !! "access_token") (env_value (HARVEST_ACCESS_TOKEN e)).

Definition resolvedAccount (e : Env) (args : gmap string Value) : option Value :=
  or_else (args !! "account_id") (env_value (HARVEST_ACCOUNT_ID e)).

Definition resolvedBoth (e : Env) (args : gmap string Value) : bool :=
  truthy (resolvedToken e args) && truthy (resolvedAccount e args).

(** The arguments satisfy the schema declared for the tool. *)
Definition validFor {Json : Type} (W : World Json) (name : string)
    (args : gmap string Value) : bool :=
  match server W !! name with
  | Some tool => valid (inputSchema tool) args
  | None => false
  end.

(** The external effect of each tool: the method and the path of its call. *)
Definition endpoint (name : string) (args : gmap string Value)
    : option (Method * string) :=
  if String.eqb name "get_my_profile" then Some (GET, "/users/me")
  else if String.eqb name "list_active_projects"
  then Some (GET, "/users/me/project_assignments")
  else if String.eqb name "log_time" then Some (POST, "/time_entries")
  else if String.eqb name "get_time_entries" then Some (GET, "/time_entries")
  else if String.eqb name "delete_time_entry"
  then Some (DELETE, "/time_entries/" ++ show (args !! "time_entry_id"))
  else None.

(** A date argument: resolved when it is a non-empty string, the default
    when it is absent or empty. *)
Definition dateArg {Json : Type} (W : World Json) (v : option Value)
    (dflt : string) : string :=
  match v with
  | Some (VStr s) =>
      if String.eqb s "" then dflt
      else parseRelativeDate (zone W) (clock W) s
  | _ => dflt
  end.

Definition fromDateOf {Json : Type} (W : World Json)
    (args : gmap string Value) : string :=
  dateArg W (args !! "from") (formatDate (zone W) (Int (clock W))).

Definition toDateOf {Json : Type} (W : World Json)
    (args : gmap string Value) : string :=
  dateArg W (args !! "to") (fromDateOf W args).

(** The call [get_time_entries] makes for valid arguments. *)
Definition timeEntriesQuery {Json : Type} (W : World Json)
    (args : gmap string Value) : Request :=
  let fromDate := fromDateOf W args in
  let toDate := toDateOf W args in
  let params : gmap string Value :=
    <["to" := VStr toDate]> (<["from" := VStr fromDate]> ∅) in
  let params :=
    if truthy (args !! "project_id")
    then set_prop "project_id" (args !! "project_id") params else params in
  let params :=
    if truthy (args !! "user_id")
    then set_prop "user_id" (args !! "user_id") params else params in
  {| client := createClient (resolvedToken (environ W) args)
                            (resolvedAccount (environ W) args);
     method := GET; path := "/time_entries"; params := params; data := ∅ |}.

(** The tool table of section 4.2. *)
Definition specTools : list string :=
  ["get_my_profile"; "list_active_projects"; "log_time"; "get_time_entries";
   "delete_time_entry"; "start_timer"; "stop_timer"; "restart_timer";
   "get_running_timer"].

(** The tools the server registers. *)
Definition registeredTools : list string :=
  ["get_my_profile"; "list_active_projects"; "log_time"; "get_time_entries";
   "delete_time_entry"].

(** A world for examples: one hour east of Greenwich, at 10:00 UTC on
    Wednesday 4 February 2026, with a remote service that answers every
    call with an empty body. *)
Definition sampleWorld (e : Env) : World unit :=
  {| zone := 3600000;
     clock := 1770199200000;
     environ := e;
     remote := fun _ => inr tt;
     interpolate := fun _ k => k;
     stringify := fun _ k => k;
     time_entries := fun _ => None;
     total_hours := fun _ => "0.00";
     stringify_entries := fun _ => "[]" |}.

(** An invocation of [log_time] that gives a token and no account id. *)
Definition logTimeArgs : gmap string Value :=
  {[ "project_id" := VNum 1; "task_id" := VNum 2; "hours" := VNum 3;
     "access_token" := VStr "A" ]}.

(** An invocation of [get_time_entries] from yesterday on. *)
Definition sinceYesterday : gmap string Value :=
  {[ "from" := VStr "yesterday" ]}.

Definition noEnv : Env :=
  {| HARVEST_ACCESS_TOKEN := None; HARVEST_ACCOUNT_ID := None |}.

Definition fullEnv : Env :=
  {| HARVEST_ACCESS_TOKEN := Some "env-token";
     HARVEST_ACCOUNT_ID := Some "env-account" |}.

(** ** Vocabulary for the further properties *)

(** The characters of a formatted date. *)
Definition digit_or_dash (c : ascii) : bool := is_digit c || is_dash c.

(** The months elapsed up to the month of a day, counted from year 0. *)
Definition monthCount (d : Z) : Z := 12 * YearFromDay d + MonthFromDay d.


(** An invocation of [delete_time_entry]. *)
Definition deleteArgs : gmap string Value := {[ "time_entry_id" := VNum 42 ]}.

(** A world whose remote service refuses every call, with a message of its
    own. *)
Definition failingWorld : World unit :=
  {| zone := 0;
     clock := 1770199200000;
     environ := fullEnv;
     remote := fun _ => inl {| response_message := Some "Invalid token";
                               message := "Request failed with status code 401" |};
     interpolate := fun _ k => k;
     stringify := fun _ k => k;
     time_entries := fun _ => None;
     total_hours := fun _ => "0.00";
     stringify_entries := fun _ => "[]" |}.

(** An invocation of [get_time_entries] with a date that cannot be
    resolved, and one with a range of canonical dates. *)
Definition bananaArgs : gmap string Value := {[ "from" := VStr "banana" ]}.

Definition rangeArgs : gmap string Value :=
  {[ "from" := VStr "2026-02-01"; "to" := VStr "2026-02-05";
     "project_id" := VNum 67890 ]}.

(** An invocation that carries its credentials. *)
Definition explicitArgs : gmap string Value :=
  {[ "access_token" := VStr "A"; "account_id" := VStr "I";
     "from" := VStr "today" ]}.

(** An invocation of [log_time] with a relative date. *)
Definition relativeLogArgs : gmap string Value :=
  {[ "project_id" := VNum 1; "task_id" := VNum 2; "hours" := VNum 3;
     "spent_date" := VStr "yesterday" ]}.

(** The character [0], as the leading zeros of a number. *)
Definition is_zero (c : ascii) : bool := Ascii.eqb c "0".

(** The integers a JavaScript number holds exactly and prints with all
    their digits (up to [Number.MAX_SAFE_INTEGER] in magnitude). *)
Definition safeInteger (n : Z) : Prop := Z.abs n <= 9007199254740991.

(** The canonical date of the spec, [YYYY-MM-DD]: the year padded to four
    digits, the month and the day to two. *)
Definition isoDate (d : Z) : string :=
  padStart (show_Z (YearFromDay d)) 4 "0" ++ "-" ++
  pad2 (MonthFromDay d + 1) ++ "-" ++ pad2 (DateFromDay d).

(** * Properties *)

(** ** The calendar *)

Lemma DayFromYear_succ y : DayFromYear (y + 1) = DayFromYear y + DaysInYear y.
Proof.
  unfold DayFromYear, DaysInYear.
  destruct (Z.eqb_spec (y mod 4) 0), (Z.eqb_spec (y mod 100) 0),
    (Z.eqb_spec (y mod 400) 0); simpl;
    Z.div_mod_to_equations; lia.
Qed.

(** [YearFromDay d] is the year that contains day [d]. *)
Lemma YearFromDay_spec d :
  DayFromYear (YearFromDay d) <= d < DayFromYear (YearFromDay d + 1).
Proof.
  unfold DayFromYear, YearFromDay.
  Z.div_mod_to_equations. lia.
Qed.

Lemma LeapDay_cases y :
  (LeapDay y = 0 /\ DaysInYear y = 365) \/ (LeapDay y = 1 /\ DaysInYear y = 366).
Proof.
  unfold LeapDay, DaysInYear.
  destruct (negb (y mod 4 =? 0)), (negb (y mod 100 =? 0)),
    (negb (y mod 400 =? 0)); simpl; auto.
Qed.

Lemma DayInYear_range d :
  0 <= DayInYear d < 365 + LeapDay (YearFromDay d).
Proof.
  unfold DayInYear.
  pose proof (YearFromDay_spec d) as H.
  rewrite DayFromYear_succ in H.
  destruct (LeapDay_cases (YearFromDay d)) as [[-> E]|[-> E]]; lia.
Qed.

Ltac month_cases :=
  unfold MonthFromDay;
  repeat match goal with
         | |- context [?a <? ?b] => destruct (Z.ltb_spec a b)
         end.

Lemma MonthFromDay_range d : 0 <= MonthFromDay d <= 11.
Proof. month_cases; lia. Qed.

Lemma DateFromDay_range d : 1 <= DateFromDay d <= 31.
Proof.
  unfold DateFromDay.
  pose proof (DayInYear_range d) as H.
  destruct (LeapDay_cases (YearFromDay d)) as [[E _]|[E _]];
    rewrite E in *; month_cases; simpl; lia.
Qed.

(** Day [n] of the month of day [d], counted as [MakeDay] does. *)
Lemma MakeDay_same_month d n :
  MakeDay (YearFromDay d) (MonthFromDay d) n = d - DateFromDay d + n.
Proof.
  unfold MakeDay.
  pose proof (MonthFromDay_range d) as H.
  rewrite Z.div_small, Z.mod_small, Z.add_0_r by lia.
  unfold DateFromDay, DayInYear. lia.
Qed.

(** A day is determined by its year, month and day of the month. *)
Lemma civil_inj d1 d2 :
  YearFromDay d1 = YearFromDay d2 ->
  MonthFromDay d1 = MonthFromDay d2 ->
  DateFromDay d1 = DateFromDay d2 ->
  d1 = d2.
Proof.
  intros Hy Hm Hd.
  pose proof (MakeDay_same_month d1 (DateFromDay d1)) as H1.
  pose proof (MakeDay_same_month d2 (DateFromDay d2)) as H2.
  rewrite Hy, Hm, Hd in H1. lia.
Qed.

Lemma Day_MakeDate d t : 0 <= t < msPerDay -> Day (MakeDate d t) = d.
Proof.
  intros H. unfold Day, MakeDate.
  rewrite Z.add_comm, Z.div_add by (unfold msPerDay; lia).
  rewrite Z.div_small by lia. lia.
Qed.

Lemma TimeWithinDay_range t : 0 <= TimeWithinDay t < msPerDay.
Proof. unfold TimeWithinDay. apply Z.mod_pos_bound. reflexivity. Qed.

Lemma Day_TimeWithinDay t : t = Day t * msPerDay + TimeWithinDay t.
Proof.
  unfold Day, TimeWithinDay.
  pose proof (Z.div_mod t msPerDay). unfold msPerDay in *. lia.
Qed.

(** ** [Date] methods *)

Section DateFacts.

Variable tz : Z.

Lemma TimeClip_in t : representable t -> TimeClip t = Int t.
Proof.
  unfold representable, TimeClip. intros H.
  destruct (Z.leb_spec (Z.abs t) maxTimeValue); [reflexivity | lia].
Qed.

Lemma TimeClip_out t : ~ representable t -> TimeClip t = NaN.
Proof.
  unfold representable, TimeClip. intros H.
  destruct (Z.leb_spec (Z.abs t) maxTimeValue); [lia | reflexivity].
Qed.

(** [addDays] moves a time value by whole days, and leaves the range of
    [Date] as an invalid date. *)
Lemma addDays_Int u k :
  addDays tz (Int u) (Int k) = TimeClip (u + k * msPerDay).
Proof.
  unfold addDays, setDate, getDate, num_add, YearFromTime, MonthFromTime,
    DateFromTime.
  rewrite MakeDay_same_month.
  f_equal. unfold UTC, MakeDate.
  pose proof (Day_TimeWithinDay (LocalTime tz u)) as H.
  unfold LocalTime in *. lia.
Qed.

Lemma addDays_NaN_r d : addDays tz d NaN = NaN.
Proof. destruct d; reflexivity. Qed.

Lemma addDays_NaN_l n : addDays tz NaN n = NaN.
Proof. reflexivity. Qed.

Lemma midnight_bounds now :
  now - msPerDay < midnight tz now <= now.
Proof.
  unfold midnight, localToday.
  pose proof (Day_TimeWithinDay (now + tz)) as H.
  pose proof (TimeWithinDay_range (now + tz)). lia.
Qed.

(** [today]: the current day at local midnight. *)
Lemma setHours0_now now :
  clock_in_range now -> setHours0 tz (Int now) = Int (midnight tz now).
Proof.
  intros H. unfold setHours0, UTC, MakeDate, LocalTime.
  rewrite Z.add_0_r. apply TimeClip_in.
  pose proof (midnight_bounds now) as B.
  unfold midnight, localToday, representable, clock_in_range in *.
  unfold msPerDay, maxTimeValue in *. lia.
Qed.

Lemma Day_midnight now k :
  Day (LocalTime tz (midnight tz now + k * msPerDay)) = localToday tz now + k.
Proof.
  unfold LocalTime, midnight, Day.
  replace (localToday tz now * msPerDay - tz + k * msPerDay + tz)
    with ((localToday tz now + k) * msPerDay) by lia.
  apply Z.div_mul. discriminate.
Qed.

Lemma formatDate_Int t :
  formatDate tz (Int t) = canonical (Day (LocalTime tz t)).
Proof. reflexivity. Qed.

Lemma formatDate_NaN : formatDate tz NaN = "NaN-NaN-NaN".
Proof. reflexivity. Qed.

End DateFacts.

(** ** Strings *)

Lemma append_cons c a b : String c a ++ b = String c (a ++ b).
Proof. reflexivity. Qed.

Lemma append_nil_l b : "" ++ b = b.
Proof. reflexivity. Qed.

Lemma append_nil_r a : a ++ "" = a.
Proof. induction a as [|c a IH]; [reflexivity|]. rewrite append_cons, IH. reflexivity. Qed.

Lemma append_assoc a b c : (a ++ b) ++ c = a ++ b ++ c.
Proof.
  induction a as [|x a IH]; [reflexivity|].
  rewrite !append_cons, IH. reflexivity.
Qed.

Lemma length_append a b :
  String.length (a ++ b) = (String.length a + String.length b)%nat.
Proof.
  induction a as [|x a IH]; [reflexivity|].
  rewrite append_cons. simpl. rewrite IH. reflexivity.
Qed.

(** Two concatenations with tails of equal length agree part by part. *)
Lemma append_inj a1 b1 a2 b2 :
  a1 ++ b1 = a2 ++ b2 -> String.length b1 = String.length b2 ->
  a1 = a2 /\ b1 = b2.
Proof.
  revert a2. induction a1 as [|x a1 IH]; intros [|y a2] H L.
  - auto.
  - exfalso. rewrite append_nil_l in H. subst b1.
    rewrite append_cons in L. simpl in L. rewrite length_append in L. lia.
  - exfalso. rewrite append_nil_l in H. subst b2.
    rewrite append_cons in L. simpl in L. rewrite length_append in L. lia.
  - rewrite !append_cons in H. injection H as -> H.
    destruct (IH _ H L) as [-> ->]. auto.
Qed.

Lemma show_Z_inj a b : show_Z a = show_Z b -> a = b.
Proof.
  unfold show_Z. intros H.
  apply DecimalZ.to_int_inj.
  pose proof (NilEmpty.isi (Z.to_int a)) as Ha.
  pose proof (NilEmpty.isi (Z.to_int b)) as Hb.
  rewrite H in Ha. congruence.
Qed.

(** A check over a finite range of integers. *)
Lemma range_check (P : Z -> bool) lo (n : nat) :
  forallb P (map (fun i => lo + Z.of_nat i) (seq 0 n)) = true ->
  forall z, lo <= z < lo + Z.of_nat n -> P z = true.
Proof.
  intros H z Hz. rewrite forallb_forall in H. apply H.
  apply in_map_iff. exists (Z.to_nat (z - lo)). split; [lia|].
  apply in_seq. lia.
Qed.

Lemma pad2_length n : 0 <= n < 100 -> String.length (pad2 n) = 2%nat.
Proof.
  intros H.
  apply (range_check (fun z => (String.length (pad2 z) =? 2)%nat) 0 100) in H;
    [ apply Nat.eqb_eq, H | vm_compute; reflexivity ].
Qed.

Lemma pad2_inj a b : 0 <= a < 100 -> 0 <= b < 100 -> pad2 a = pad2 b -> a = b.
Proof.
  intros Ha Hb H.
  assert (forall z, 0 <= z < 100 ->
            (match NilEmpty.int_of_string (pad2 z) with
             | Some d => Z.of_int d =? z
             | None => false
             end) = true) as R.
  { apply (range_check _ 0 100). vm_compute. reflexivity. }
  pose proof (R a Ha) as Ra. pose proof (R b Hb) as Rb.
  rewrite H in Ra.
  destruct (NilEmpty.int_of_string (pad2 b)); [|discriminate]. lia.
Qed.

Lemma length_month_day m d :
  0 <= m < 100 -> 0 <= d < 100 ->
  String.length ("-" ++ pad2 m ++ "-" ++ pad2 d) = 6%nat.
Proof. intros. rewrite !length_append, !pad2_length by lia. reflexivity. Qed.

Lemma canonical_inj d1 d2 : canonical d1 = canonical d2 -> d1 = d2.
Proof.
  unfold canonical.
  pose proof (MonthFromDay_range d1). pose proof (MonthFromDay_range d2).
  pose proof (DateFromDay_range d1). pose proof (DateFromDay_range d2).
  intros E.
  apply append_inj in E as [Hy E1];
    [| rewrite !length_month_day by lia; reflexivity ].
  rewrite !append_cons, !append_nil_l in E1. injection E1 as E1.
  apply append_inj in E1 as [Hm E2];
    [| simpl; rewrite !pad2_length by lia; reflexivity ].
  injection E2 as Hd.
  apply show_Z_inj in Hy. apply pad2_inj in Hm, Hd; try lia.
  apply civil_inj; lia.
Qed.

Lemma show_Z_readable z s : NilEmpty.int_of_string s = None -> show_Z z <> s.
Proof.
  unfold show_Z. intros N E.
  pose proof (NilEmpty.isi (Z.to_int z)) as R. rewrite E in R. congruence.
Qed.

Lemma canonical_not_NaN d : canonical d <> "NaN-NaN-NaN".
Proof.
  unfold canonical.
  pose proof (MonthFromDay_range d). pose proof (DateFromDay_range d).
  change "NaN-NaN-NaN" with ("NaN-N" ++ "aN-NaN").
  intros E. apply append_inj in E as [E _].
  - revert E. apply show_Z_readable. reflexivity.
  - rewrite length_month_day by lia. reflexivity.
Qed.

(** ** The matchers *)

Lemma all_append p a b : all p (a ++ b) = all p a && all p b.
Proof.
  induction a as [|c a IH]; [reflexivity|].
  rewrite append_cons. simpl. rewrite IH. apply andb_assoc.
Qed.

Lemma span_append p a b :
  all p a = true -> stops p b = true -> span p (a ++ b) = (a, b).
Proof.
  intros Ha Hb. induction a as [|c a IH].
  - rewrite append_nil_l. destruct b as [|c b]; [reflexivity|].
    simpl in *. destruct (p c); [discriminate | reflexivity].
  - rewrite append_cons. simpl in *.
    apply andb_true_iff in Ha as [-> Ha]. rewrite (IH Ha). reflexivity.
Qed.

Lemma span_spec p s a b :
  span p s = (a, b) -> s = a ++ b /\ all p a = true /\ stops p b = true.
Proof.
  revert a b. induction s as [|c s IH]; intros a b H; simpl in H.
  - injection H as <- <-. auto.
  - destruct (p c) eqn:E.
    + destruct (span p s) as [a' b'] eqn:S. injection H as <- <-.
      destruct (IH _ _ eq_refl) as (-> & Ha & Hb).
      rewrite append_cons. simpl. rewrite E, Ha. auto.
    + injection H as <- <-. simpl. rewrite E. auto.
Qed.

Lemma plus_append p a b :
  a <> "" -> all p a = true -> stops p b = true ->
  plus p (a ++ b) = Some (a, b).
Proof.
  intros Hn Ha Hb. unfold plus. rewrite span_append by assumption.
  destruct a; [contradiction | reflexivity].
Qed.

Lemma plus_spec p s a b :
  plus p s = Some (a, b) ->
  s = a ++ b /\ a <> "" /\ all p a = true /\ stops p b = true.
Proof.
  unfold plus. destruct (span p s) as [a' b'] eqn:S.
  destruct (String.eqb_spec a' ""); [discriminate|].
  intros H. injection H as <- <-.
  destruct (span_spec _ _ _ _ S) as (-> & ? & ?). auto.
Qed.

Lemma lit_append l r : lit l (l ++ r) = Some r.
Proof.
  induction l as [|c l IH]; [destruct r; reflexivity|].
  rewrite append_cons. simpl. rewrite Ascii.eqb_refl. exact IH.
Qed.

Lemma lit_cons a l b s :
  lit (String a l) (String b s) = if Ascii.eqb a b then lit l s else None.
Proof. reflexivity. Qed.

Lemma lit_spec l s r : lit l s = Some r -> s = l ++ r.
Proof.
  revert s. induction l as [|c l IH]; intros s H.
  - destruct s; simpl in H; injection H as <-; reflexivity.
  - destruct s as [|x s]; [discriminate|]. simpl in H.
    destruct (Ascii.eqb_spec c x) as [<-|]; [|discriminate].
    rewrite append_cons, (IH _ H). reflexivity.
Qed.

Lemma alt_spec ls s l r : alt ls s = Some (l, r) -> In l ls /\ s = l ++ r.
Proof.
  induction ls as [|x ls IH]; [discriminate|]. simpl.
  destruct (lit x s) as [r'|] eqn:E.
  - intros H. injection H as <- <-. split; [auto | exact (lit_spec _ _ _ E)].
  - intros H. destruct (IH H). auto.
Qed.

Lemma toLowerCase_append a b :
  toLowerCase (a ++ b) = toLowerCase a ++ toLowerCase b.
Proof.
  induction a as [|c a IH]; [reflexivity|].
  rewrite append_cons. simpl. rewrite IH. reflexivity.
Qed.

Lemma is_digit_code c : is_digit c = true -> 48 <= code c <= 57.
Proof. unfold is_digit. lia. Qed.

Lemma digit_not_space c : is_digit c = true -> is_space c = false.
Proof. intros H%is_digit_code. unfold is_space. lia. Qed.

Lemma space_not_digit c : is_space c = true -> is_digit c = false.
Proof.
  intros H. destruct (is_digit c) eqn:E; [|reflexivity].
  apply digit_not_space in E. congruence.
Qed.

Lemma lower_digit c : is_digit c = true -> lower_char c = c.
Proof.
  intros H%is_digit_code. unfold lower_char.
  destruct (_ || _) eqn:E; [lia | reflexivity].
Qed.

Lemma toLowerCase_digits s : all is_digit s = true -> toLowerCase s = s.
Proof.
  induction s as [|c s IH]; [reflexivity|]. simpl.
  intros [Hc Hs]%andb_true_iff. rewrite (lower_digit _ Hc), (IH Hs). reflexivity.
Qed.

Lemma trimEnd_append a b :
  trimEnd b <> "" -> trimEnd (a ++ b) = a ++ trimEnd b.
Proof.
  intros Hb. induction a as [|c a IH]; [reflexivity|].
  rewrite !append_cons. simpl. rewrite IH.
  destruct (String.eqb_spec (a ++ trimEnd b) "") as [E|_].
  - exfalso. destruct a; [|discriminate]. rewrite append_nil_l in E. auto.
  - rewrite andb_false_r. reflexivity.
Qed.

Lemma trimStart_stops s : stops is_space s = true -> trimStart s = s.
Proof. destruct s as [|c s]; [reflexivity|]. simpl. destruct (is_space c); [discriminate | reflexivity]. Qed.

(** ** Decimal numerals *)

Lemma string_of_uint_digits d : all is_digit (NilEmpty.string_of_uint d) = true.
Proof. induction d; simpl; auto. Qed.

Lemma show_Z_nonneg n :
  0 <= n -> show_Z n = NilEmpty.string_of_uint (N.to_uint (Z.to_N n)).
Proof. intros H. destruct n; [reflexivity | reflexivity | lia]. Qed.

Lemma to_uint_nonnil n : N.to_uint n <> Decimal.Nil.
Proof. destruct n; [discriminate | apply DecimalPos.Unsigned.to_uint_nonnil]. Qed.

Lemma show_Z_digits n : 0 <= n -> all is_digit (show_Z n) = true.
Proof. intros H. rewrite show_Z_nonneg by assumption. apply string_of_uint_digits. Qed.

Lemma string_of_uint_nonempty d :
  d <> Decimal.Nil -> NilEmpty.string_of_uint d <> "".
Proof. destruct d; simpl; congruence. Qed.

Lemma show_Z_nonempty n : show_Z n <> "".
Proof.
  destruct n as [|p|p]; unfold show_Z; simpl; try discriminate.
  apply string_of_uint_nonempty, DecimalPos.Unsigned.to_uint_nonnil.
Qed.

(** [parseInt] reads back the numeral of a non-negative integer. *)
Lemma parseInt_show_Z n : 0 <= n -> parseInt (show_Z n) = Int n.
Proof.
  intros H. unfold parseInt.
  destruct (String.eqb_spec (show_Z n) "") as [E|_];
    [ destruct (show_Z_nonempty _ E) |].
  rewrite show_Z_nonneg, NilEmpty.usu by assumption.
  rewrite DecimalN.Unsigned.of_to. f_equal. lia.
Qed.

(** ** The expressions against the forms of the specification *)

Ltac split_andb :=
  repeat match goal with
         | H : _ && _ = true |- _ => apply andb_true_iff in H as [? ?]
         end.

Lemma isoDateRe_sound s : isoDateRe s = true -> IsoForm s.
Proof.
  unfold isoDateRe.
  destruct s as [|c0 [|c1 [|c2 [|c3 [|c4 [|c5 [|c6 [|c7 [|c8 [|c9 [|c r]]]]]]]]]]];
    simpl; intros H; try discriminate; split_andb;
    try (rewrite ?andb_false_r in *; discriminate).
  unfold is_dash in *.
  repeat match goal with
         | H : Ascii.eqb _ _ = true |- _ => apply Ascii.eqb_eq in H; subst
         end.
  exists (String c0 (String c1 (String c2 (String c3 "")))),
         (String c5 (String c6 "")), (String c8 (String c9 "")).
  simpl.
  repeat match goal with H : is_digit _ = true |- _ => rewrite H; clear H end.
  repeat split; reflexivity.
Qed.

Lemma isoDateRe_complete s : IsoForm s -> isoDateRe s = true.
Proof.
  intros (y & m & d & -> & Ly & Lm & Ld & Hy & Hm & Hd).
  destruct y as [|c0 [|c1 [|c2 [|c3 [|c y]]]]]; try discriminate.
  destruct m as [|c5 [|c6 [|c m]]]; try discriminate.
  destruct d as [|c8 [|c9 [|c d]]]; try discriminate.
  simpl in Hy, Hm, Hd. split_andb.
  unfold isoDateRe. rewrite !append_cons, !append_nil_l. simpl.
  repeat match goal with H : is_digit _ = true |- _ => rewrite H; clear H end.
  reflexivity.
Qed.

Lemma stops_digit_blank w r :
  blank w -> stops is_digit (w ++ r) = true.
Proof.
  intros [Hn Hw]. destruct w as [|c w]; [contradiction|].
  simpl in *. apply andb_true_iff in Hw as [Hc _].
  rewrite (space_not_digit _ Hc). reflexivity.
Qed.

Lemma stops_space_letter s r :
  starts_lower s = true -> stops is_space (s ++ r) = true.
Proof.
  destruct s as [|c s]; [discriminate|]. simpl. unfold is_space. lia.
Qed.

Ltac bind_step H := cbv beta iota zeta in H.

Lemma agoRe_sound n g u :
  agoRe n = Some (g, u) ->
  AgoForm n /\ In u ["day"; "week"; "month"] /\ g <> "" /\ all is_digit g = true.
Proof.
  unfold agoRe, mbind, option_bind. intros H.
  destruct (plus is_digit n) as [[ds r1]|] eqn:E1; [|discriminate].
  bind_step H.
  destruct (plus is_space r1) as [[w1 r2]|] eqn:E2; [|discriminate].
  bind_step H.
  destruct (alt ["day"; "week"; "month"] r2) as [[u' r3]|] eqn:E3; [|discriminate].
  bind_step H.
  destruct (plus is_space (default r3 (lit "s" r3))) as [[w2 r5]|] eqn:E4;
    [|discriminate].
  bind_step H.
  destruct (lit "ago" r5) as [r6|] eqn:E5; [|discriminate].
  destruct (String.eqb_spec r6 ""); [|discriminate].
  injection H as <- <-. subst r6.
  apply plus_spec in E1 as (-> & Hds & Dds & _).
  apply plus_spec in E2 as (-> & Hw1 & Dw1 & _).
  apply alt_spec in E3 as (Hu & ->).
  apply lit_spec in E5 as ->.
  apply plus_spec in E4 as (E4 & Hw2 & Dw2 & _).
  repeat split; auto.
  destruct (lit "s" r3) as [r4|] eqn:E6; simpl in E4.
  - apply lit_spec in E6 as ->. subst r4.
    exists ds, w1, u', "s", w2. unfold blank. repeat split; auto.
  - subst r3. exists ds, w1, u', "", w2. unfold blank. repeat split; auto.
Qed.

Lemma agoRe_complete ds w1 u pl w2 :
  ds <> "" -> all is_digit ds = true -> blank w1 ->
  In u ["day"; "week"; "month"] -> pl = "" \/ pl = "s" -> blank w2 ->
  agoRe (ds ++ w1 ++ u ++ pl ++ w2 ++ "ago") = Some (ds, u).
Proof.
  intros Hds Dds Hw1 Hu Hpl Hw2. unfold agoRe, mbind, option_bind.
  rewrite plus_append by auto using stops_digit_blank.
  destruct Hw1 as [Hw1 Dw1]. pose proof Hw2 as [Hw2' Dw2].
  cbv beta iota zeta.
  rewrite plus_append; auto.
  2:{ apply stops_space_letter.
      simpl in Hu. destruct Hu as [<-|[<-|[<-|[]]]]; reflexivity. }
  assert (alt ["day"; "week"; "month"] (u ++ pl ++ w2 ++ "ago")
          = Some (u, pl ++ w2 ++ "ago")) as ->.
  { simpl in Hu. destruct Hu as [<-|[<-|[<-|[]]]]; reflexivity. }
  cbv beta iota zeta.
  assert (default (pl ++ w2 ++ "ago") (lit "s" (pl ++ w2 ++ "ago"))
          = w2 ++ "ago") as ->.
  { destruct Hpl as [-> | ->]; [|reflexivity].
    rewrite append_nil_l. destruct w2 as [|c w2]; [contradiction|].
    simpl in Dw2. apply andb_true_iff in Dw2 as [Hc _].
    rewrite append_cons, lit_cons.
    destruct (Ascii.eqb_spec "s" c) as [<-|]; [discriminate | reflexivity]. }
  rewrite plus_append by auto. reflexivity.
Qed.

Lemma weekdayRe_sound n m d :
  weekdayRe n = Some (m, d) ->
  WeekdayForm n /\ In m ["last"; "this"] /\ In d weekdayNames.
Proof.
  unfold weekdayRe, mbind, option_bind. intros H.
  destruct (alt ["last"; "this"] n) as [[m' r1]|] eqn:E1; [|discriminate].
  bind_step H.
  destruct (plus is_space r1) as [[w1 r2]|] eqn:E2; [|discriminate].
  bind_step H.
  destruct (alt weekdayNames r2) as [[d' r3]|] eqn:E3; [|discriminate].
  bind_step H.
  destruct (String.eqb_spec r3 ""); [|discriminate].
  injection H as <- <-. subst r3.
  apply alt_spec in E1 as (Hm & ->).
  apply plus_spec in E2 as (-> & Hw1 & Dw1 & _).
  apply alt_spec in E3 as (Hd & ->).
  repeat split; auto.
  exists m', w1, d'. rewrite append_nil_r. unfold blank. auto.
Qed.

Lemma weekdayRe_complete m w1 d :
  In m ["last"; "this"] -> blank w1 -> In d weekdayNames ->
  weekdayRe (m ++ w1 ++ d) = Some (m, d).
Proof.
  intros Hm [Hw1 Dw1] Hd. unfold weekdayRe, mbind, option_bind.
  assert (alt ["last"; "this"] (m ++ w1 ++ d) = Some (m, w1 ++ d)) as ->.
  { simpl in Hm. destruct Hm as [<-|[<-|[]]]; reflexivity. }
  cbv beta iota zeta. rewrite plus_append; auto.
  2:{ rewrite <- (append_nil_r d). apply stops_space_letter.
      simpl in Hd. decompose [or] Hd; subst; try reflexivity; contradiction. }
  assert (alt weekdayNames d = Some (d, "")) as ->.
  { simpl in Hd. decompose [or] Hd; subst; try reflexivity; contradiction. }
  reflexivity.
Qed.

(** ** The resolver, branch by branch *)

Section Resolver.

Variables tz now : Z.

Local Notation "'resolve'" := (parseRelativeDate tz now).
Local Notation "'today'" := (setHours0 tz (Int now)).
Local Notation "'normalize' s" := (trim (toLowerCase s)) (at level 10).

Lemma resolve_iso input : isoDateRe input = true -> resolve input = input.
Proof. intros H. unfold parseRelativeDate. rewrite H. reflexivity. Qed.

Lemma resolve_today input :
  isoDateRe input = false ->
  normalize input = "today" \/ normalize input = "now" ->
  resolve input = formatDate tz today.
Proof.
  intros H E. unfold parseRelativeDate. rewrite H.
  destruct E as [-> | ->]; reflexivity.
Qed.

Lemma resolve_ago input g u :
  isoDateRe input = false ->
  String.length (normalize input) <> 3%nat ->
  String.length (normalize input) <> 5%nat ->
  String.length (normalize input) <> 8%nat ->
  String.length (normalize input) <> 9%nat ->
  agoRe (normalize input) = Some (g, u) ->
  resolve input =
    if String.eqb u "day" then formatDate tz (addDays tz today (num_neg (parseInt g)))
    else if String.eqb u "week"
    then formatDate tz (addDays tz today (num_mul (num_neg (parseInt g)) (Int 7)))
    else formatDate tz (addMonths tz today (num_neg (parseInt g))).
Proof.
  intros H L3 L5 L8 L9 E. unfold parseRelativeDate. rewrite H, E.
  destruct (String.eqb_spec (normalize input) "today") as [K|_];
    [rewrite K in L5; contradiction|].
  destruct (String.eqb_spec (normalize input) "now") as [K|_];
    [rewrite K in L3; contradiction|].
  destruct (String.eqb_spec (normalize input) "yesterday") as [K|_];
    [rewrite K in L9; contradiction|].
  destruct (String.eqb_spec (normalize input) "tomorrow") as [K|_];
    [rewrite K in L8; contradiction|].
  cbv beta iota zeta.
  apply agoRe_sound in E as (_ & Hu & _).
  simpl in Hu. destruct Hu as [<-|[<-|[<-|[]]]]; reflexivity.
Qed.

Lemma resolve_weekday input m d :
  isoDateRe input = false ->
  weekdayRe (normalize input) = Some (m, d) ->
  resolve input =
    let targetDayIndex :=
      indexOf ["sunday"; "monday"; "tuesday"; "wednesday"; "thursday";
               "friday"; "saturday"] d in
    match getDay tz today with
    | Int cur =>
        if String.eqb m "last" then
          let k := cur - targetDayIndex in
          formatDate tz (addDays tz today (Int (- (if k <=? 0 then k + 7 else k))))
        else
          let k := targetDayIndex - cur in
          formatDate tz (addDays tz today (Int (if k <? 0 then k + 7 else k)))
    | NaN => "NaN-NaN-NaN"
    end.
Proof.
  intros H E. unfold parseRelativeDate. rewrite H, E.
  pose proof E as (F & Hm & Hd)%weekdayRe_sound.
  destruct F as (m' & w1 & d' & N & Hm' & [Hw Dw] & Hd').
  assert (String.eqb (normalize input) "today" = false) as ->.
  { rewrite N. simpl in Hm'. destruct Hm' as [<-|[<-|[]]]; reflexivity. }
  assert (String.eqb (normalize input) "now" = false) as ->.
  { rewrite N. simpl in Hm'. destruct Hm' as [<-|[<-|[]]]; reflexivity. }
  assert (String.eqb (normalize input) "yesterday" = false) as ->.
  { rewrite N. simpl in Hm'. destruct Hm' as [<-|[<-|[]]]; reflexivity. }
  assert (String.eqb (normalize input) "tomorrow" = false) as ->.
  { rewrite N. simpl in Hm'. destruct Hm' as [<-|[<-|[]]]; reflexivity. }
  assert (agoRe (normalize input) = None) as ->.
  { rewrite N. simpl in Hm'. destruct Hm' as [<-|[<-|[]]]; reflexivity. }
  cbv beta iota zeta. simpl orb. cbv iota.
  destruct (getDay tz today) as [|cur]; simpl num_add; cbv beta iota.
  - destruct (String.eqb m "last"); simpl num_neg;
      rewrite addDays_NaN_r; reflexivity.
  - destruct (String.eqb m "last"); simpl num_add; simpl num_neg.
    + rewrite Z.add_opp_r. destruct (_ <=? 0); reflexivity.
    + rewrite Z.add_opp_r. destruct (_ <? 0); reflexivity.
Qed.

Lemma resolve_unrecognized input :
  isoDateRe input = false ->
  ~ KeywordForm (normalize input) ->
  agoRe (normalize input) = None ->
  weekdayRe (normalize input) = None ->
  resolve input = input.
Proof.
  intros H K A D. unfold parseRelativeDate, KeywordForm in *. rewrite H, A, D.
  simpl in K.
  destruct (String.eqb_spec (normalize input) "today"); [intuition congruence|].
  destruct (String.eqb_spec (normalize input) "now"); [intuition congruence|].
  destruct (String.eqb_spec (normalize input) "yesterday"); [intuition congruence|].
  destruct (String.eqb_spec (normalize input) "tomorrow"); [intuition congruence|].
  reflexivity.
Qed.

End Resolver.

(** ** Recognized inputs *)

Lemma Recognized_iff input : Recognized input <-> recognizedb input = true.
Proof.
  unfold Recognized, recognizedb. cbv zeta.
  set (n := trim (toLowerCase input)).
  rewrite !orb_true_iff, !bool_decide_eq_true.
  split.
  - intros [H|[H|[H|H]]].
    + left; left; left. apply isoDateRe_complete, H.
    + left; left; right. unfold KeywordForm in H. simpl in H. simpl.
      decompose [or] H; subst; try contradiction;
        match goal with E : _ = n |- _ => rewrite <- E end; reflexivity.
    + left; right.
      destruct H as (ds & w1 & u & pl & w2 & -> & ? & ? & ? & ? & ? & ?).
      rewrite agoRe_complete by assumption. eauto.
    + right. destruct H as (m & w1 & d & -> & ? & ? & ?).
      rewrite weekdayRe_complete by assumption. eauto.
  - intros [[[H|H]|H]|H].
    + left. apply isoDateRe_sound, H.
    + right; left. unfold KeywordForm. simpl in *.
      rewrite !orb_true_iff in H.
      decompose [or] H; try discriminate;
        match goal with E : String.eqb _ _ = true |- _ =>
          apply String.eqb_eq in E; rewrite E end; auto.
    + right; right; left. destruct H as [[g u] H].
      apply agoRe_sound in H. tauto.
    + right; right; right. destruct H as [[m d] H].
      apply weekdayRe_sound in H. tauto.
Qed.

(** C8. Every string of the form [dddd-dd-dd] (four digits, a dash, two
    digits, a dash, two digits) is returned unchanged, whatever the clock
    and the zone: the month and the day are not inspected. *)
Theorem C8_canonical_passthrough (tz now : Z) (s : string) :
  IsoForm s -> parseRelativeDate tz now s = s.
Proof. intros H. apply resolve_iso, isoDateRe_complete, H. Qed.

Lemma C8_witness :
  IsoForm "2024-13-40" /\
  parseRelativeDate 3600000 1770199200000 "2024-13-40" = "2024-13-40".
Proof.
  assert (IsoForm "2024-13-40") as H.
  { exists "2024", "13", "40". repeat split; reflexivity. }
  split; [exact H | exact (C8_canonical_passthrough _ _ _ H)].
Defined.

(** ** [N days ago], [N weeks ago] *)

Lemma all_impl (p q : ascii -> bool) s :
  (forall c, p c = true -> q c = true) -> all p s = true -> all q s = true.
Proof.
  intros I. induction s as [|c s IH]; [reflexivity|]. simpl.
  intros [Hc Hs]%andb_true_iff. rewrite (I _ Hc), (IH Hs). reflexivity.
Qed.

(** A canonical date is made of digits and dashes. *)
Lemma IsoForm_chars s :
  IsoForm s -> all (fun c => is_digit c || is_dash c) s = true.
Proof.
  intros (y & m & d & -> & _ & _ & _ & Hy & Hm & Hd).
  assert (forall c, is_digit c = true -> is_digit c || is_dash c = true) as I
    by (intros c ->; reflexivity).
  rewrite !all_append, (all_impl _ _ _ I Hy), (all_impl _ _ _ I Hm),
    (all_impl _ _ _ I Hd). reflexivity.
Qed.

Lemma stops_space_digits a b :
  a <> "" -> all is_digit a = true -> stops is_space (a ++ b) = true.
Proof.
  intros Hn Ha. destruct a as [|c a]; [contradiction|]. simpl in *.
  apply andb_true_iff in Ha as [Hc _].
  rewrite (digit_not_space _ Hc). reflexivity.
Qed.

Section Ago.

Variables tz now : Z.

(** The phrase [N unit(s) ago], for a tail such as [" days ago"]. *)
Lemma ago_phrase (N : Z) (tail u : string) :
  0 <= N ->
  (9 <= String.length tail)%nat ->
  toLowerCase tail = tail -> trimEnd tail = tail ->
  all (fun c => is_digit c || is_dash c) tail = false ->
  (forall ds, ds <> "" -> all is_digit ds = true ->
     agoRe (ds ++ tail) = Some (ds, u)) ->
  parseRelativeDate tz now (show_Z N ++ tail) =
    if String.eqb u "day"
    then formatDate tz (addDays tz (setHours0 tz (Int now)) (Int (- N)))
    else if String.eqb u "week"
    then formatDate tz (addDays tz (setHours0 tz (Int now)) (Int (- N * 7)))
    else formatDate tz (addMonths tz (setHours0 tz (Int now)) (Int (- N))).
Proof.
  intros HN L Lo Tr Ch Re.
  pose proof (show_Z_digits N HN) as D.
  pose proof (show_Z_nonempty N) as NE.
  assert (trim (toLowerCase (show_Z N ++ tail)) = show_Z N ++ tail) as Nm.
  { rewrite toLowerCase_append, toLowerCase_digits, Lo by assumption.
    unfold trim. rewrite trimStart_stops by auto using stops_space_digits.
    rewrite trimEnd_append, Tr; [reflexivity|].
    rewrite Tr. intros ->. simpl in L. lia. }
  rewrite (resolve_ago tz now _ (show_Z N) u).
  - rewrite parseInt_show_Z by assumption. reflexivity.
  - destruct (isoDateRe (show_Z N ++ tail)) eqn:E; [|reflexivity].
    apply isoDateRe_sound, IsoForm_chars in E.
    rewrite all_append, Ch, andb_false_r in E. discriminate.
  - rewrite Nm, length_append. lia.
  - rewrite Nm, length_append. lia.
  - rewrite Nm, length_append.
    destruct (show_Z N); [contradiction | simpl; lia].
  - rewrite Nm, length_append.
    destruct (show_Z N); [contradiction | simpl; lia].
  - rewrite Nm. apply Re; assumption.
Qed.

Lemma setHours0_Int : setHours0 tz (Int now) = TimeClip (midnight tz now).
Proof.
  unfold setHours0, UTC, MakeDate, LocalTime, midnight, localToday.
  rewrite Z.add_0_r. reflexivity.
Qed.

(** Moving local midnight by [k] days, inside the range of [Date]. *)
Lemma formatDate_addDays k :
  representable (midnight tz now) ->
  representable (midnight tz now + k * msPerDay) ->
  formatDate tz (addDays tz (setHours0 tz (Int now)) (Int k))
  = canonical (localToday tz now + k).
Proof.
  intros R0 Rk.
  rewrite setHours0_Int, (TimeClip_in _ R0), addDays_Int, (TimeClip_in _ Rk).
  rewrite formatDate_Int, Day_midnight. reflexivity.
Qed.

(** Outside the range the result is an invalid date. *)
Lemma formatDate_addDays_out k :
  ~ representable (midnight tz now + k * msPerDay) ->
  formatDate tz (addDays tz (setHours0 tz (Int now)) (Int k)) = "NaN-NaN-NaN".
Proof.
  intros Rk. rewrite setHours0_Int. unfold TimeClip at 1.
  destruct (Z.abs (midnight tz now) <=? maxTimeValue).
  - rewrite addDays_Int, (TimeClip_out _ Rk). reflexivity.
  - reflexivity.
Qed.

Lemma midnight_representable (back : Z) :
  0 <= back ->
  representable now -> representable (midnight tz now - back) ->
  representable (midnight tz now).
Proof.
  unfold representable. intros Hb Rn Rb.
  pose proof (midnight_bounds tz now). lia.
Qed.

End Ago.

(** ** [last <weekday>], [this <weekday>] *)

Lemma weekdayOf_index d w : weekdayOf d = w <-> (d + 4) mod 7 = weekdayIndex w.
Proof.
  unfold weekdayOf.
  pose proof (Z.mod_pos_bound (d + 4) 7 eq_refl) as B.
  set (r := (d + 4) mod 7) in *.
  assert (r = 0 \/ r = 1 \/ r = 2 \/ r = 3 \/ r = 4 \/ r = 5 \/ r = 6)
    as H by lia.
  decompose [or] H; subst r;
    match goal with E : _ = _ |- _ => rewrite E end;
    destruct w; simpl; split; intros; congruence.
Qed.

Lemma indexOf_weekday w :
  indexOf ["sunday"; "monday"; "tuesday"; "wednesday"; "thursday";
           "friday"; "saturday"] (weekdayName w) = weekdayIndex w.
Proof. destruct w; reflexivity. Qed.

Lemma weekdayIndex_range w : 0 <= weekdayIndex w <= 6.
Proof. destruct w; simpl; lia. Qed.

Section Weekdays.

Variables tz now : Z.
Hypothesis clock : clock_in_range now.

Lemma getDay_today :
  getDay tz (setHours0 tz (Int now)) = Int ((localToday tz now + 4) mod 7).
Proof.
  rewrite setHours0_now by assumption. unfold getDay, WeekDay.
  pose proof (Day_midnight tz now 0) as D.
  rewrite Z.mul_0_l, !Z.add_0_r in D. rewrite D. reflexivity.
Qed.

Lemma near_today k :
  -7 <= k <= 7 ->
  formatDate tz (addDays tz (setHours0 tz (Int now)) (Int k))
  = canonical (localToday tz now + k).
Proof.
  intros Hk. pose proof (midnight_bounds tz now) as B.
  unfold clock_in_range in clock.
  apply formatDate_addDays; unfold representable;
    unfold msPerDay, maxTimeValue in *; lia.
Qed.

(** The phrase [modifier weekday], the weekday in any letter case. *)
Lemma weekday_phrase (m W : string) (w : Weekday) :
  In m ["last"; "this"] ->
  toLowerCase W = weekdayName w ->
  let cur := (localToday tz now + 4) mod 7 in
  parseRelativeDate tz now (m ++ " " ++ W) =
    if String.eqb m "last" then
      let k := cur - weekdayIndex w in
      canonical (localToday tz now - (if k <=? 0 then k + 7 else k))
    else
      let k := weekdayIndex w - cur in
      canonical (localToday tz now + (if k <? 0 then k + 7 else k)).
Proof.
  intros Hm HW cur.
  pose proof (Z.mod_pos_bound (localToday tz now + 4) 7 eq_refl) as Bc.
  pose proof (weekdayIndex_range w) as Bw.
  assert (trim (toLowerCase (m ++ " " ++ W)) = m ++ " " ++ weekdayName w) as Nm.
  { rewrite !toLowerCase_append, HW.
    simpl in Hm. destruct Hm as [<-|[<-|[]]]; destruct w; reflexivity. }
  rewrite (resolve_weekday tz now _ m (weekdayName w)).
  - cbv zeta. rewrite getDay_today, indexOf_weekday. fold cur.
    destruct (String.eqb m "last").
    + rewrite near_today by (destruct (_ <=? 0) eqn:E; lia).
      reflexivity.
    + rewrite near_today by (destruct (_ <? 0) eqn:E; lia).
      reflexivity.
  - simpl in Hm. destruct Hm as [<-|[<-|[]]]; reflexivity.
  - rewrite Nm. apply weekdayRe_complete.
    + assumption.
    + split; [discriminate | reflexivity].
    + destruct w; simpl; auto 10.
Qed.

End Weekdays.

(** C5. For every weekday and every current local date, [last W] (W in any
    letter case) resolves to the canonical date of the most recent day
    strictly before today that falls on W: k days back with 1 <= k <= 7,
    no day between it and today falls on W, k is 7 when today falls on W,
    and the result is never the canonical date of today. *)
Theorem C5_last_weekday (tz now : Z) (w : Weekday) (W : string) :
  clock_in_range now ->
  toLowerCase W = weekdayName w ->
  exists k,
    1 <= k <= 7 /\
    parseRelativeDate tz now ("last " ++ W) = canonical (localToday tz now - k) /\
    weekdayOf (localToday tz now - k) = w /\
    (forall j, 1 <= j < k -> weekdayOf (localToday tz now - j) <> w) /\
    (weekdayOf (localToday tz now) = w -> k = 7) /\
    parseRelativeDate tz now ("last " ++ W) <> canonical (localToday tz now).
Proof.
  intros Hc HW.
  pose proof (weekday_phrase tz now Hc "last" W w ltac:(simpl; auto) HW) as E.
  cbv zeta in E. change (String.eqb "last" "last") with true in E.
  cbv iota in E. change ("last" ++ " " ++ W) with ("last " ++ W) in E.
  pose proof (Z.mod_pos_bound (localToday tz now + 4) 7 eq_refl) as Bc.
  pose proof (weekdayIndex_range w) as Bw.
  set (L := localToday tz now) in *.
  set (k := (L + 4) mod 7 - weekdayIndex w) in *.
  exists (if k <=? 0 then k + 7 else k).
  assert (1 <= (if k <=? 0 then k + 7 else k) <= 7) as Hk
    by (destruct (Z.leb_spec k 0); lia).
  split; [exact Hk|]. split; [exact E|].
  rewrite !weekdayOf_index. repeat split.
  - subst k. destruct (Z.leb_spec ((L + 4) mod 7 - weekdayIndex w) 0);
      Z.div_mod_to_equations; lia.
  - intros j Hj. rewrite weekdayOf_index. subst k.
    destruct (Z.leb_spec ((L + 4) mod 7 - weekdayIndex w) 0);
      Z.div_mod_to_equations; lia.
  - intros Ht. subst k. rewrite Ht, Z.sub_diag. reflexivity.
  - rewrite E. intros Q. apply canonical_inj in Q. lia.
Qed.

(** C6. For every weekday and every current local date, [this W] (W in any
    letter case) resolves to the canonical date of the first day on or
    after today that falls on W: k days ahead with 0 <= k <= 6, no earlier
    day from today on falls on W, and the result is the canonical date of
    today when today falls on W. *)
Theorem C6_this_weekday (tz now : Z) (w : Weekday) (W : string) :
  clock_in_range now ->
  toLowerCase W = weekdayName w ->
  exists k,
    0 <= k <= 6 /\
    parseRelativeDate tz now ("this " ++ W) = canonical (localToday tz now + k) /\
    weekdayOf (localToday tz now + k) = w /\
    (forall j, 0 <= j < k -> weekdayOf (localToday tz now + j) <> w) /\
    (weekdayOf (localToday tz now) = w ->
       parseRelativeDate tz now ("this " ++ W) = canonical (localToday tz now)).
Proof.
  intros Hc HW.
  pose proof (weekday_phrase tz now Hc "this" W w ltac:(simpl; auto) HW) as E.
  cbv zeta in E. change (String.eqb "this" "last") with false in E.
  cbv iota in E. change ("this" ++ " " ++ W) with ("this " ++ W) in E.
  pose proof (Z.mod_pos_bound (localToday tz now + 4) 7 eq_refl) as Bc.
  pose proof (weekdayIndex_range w) as Bw.
  set (L := localToday tz now) in *.
  set (k := weekdayIndex w - (L + 4) mod 7) in *.
  exists (if k <? 0 then k + 7 else k).
  assert (0 <= (if k <? 0 then k + 7 else k) <= 6) as Hk
    by (destruct (Z.ltb_spec k 0); lia).
  split; [exact Hk|]. split; [exact E|].
  rewrite !weekdayOf_index. repeat split.
  - subst k. destruct (Z.ltb_spec (weekdayIndex w - (L + 4) mod 7) 0);
      Z.div_mod_to_equations; lia.
  - intros j Hj. rewrite weekdayOf_index. subst k.
    destruct (Z.ltb_spec (weekdayIndex w - (L + 4) mod 7) 0);
      Z.div_mod_to_equations; lia.
  - intros Ht. rewrite E. subst k. rewrite Ht, Z.sub_diag.
    rewrite Z.add_0_r. reflexivity.
Qed.

Lemma C5_witness :
  parseRelativeDate 3600000 1770199200000 "last Wednesday" <> "2026-02-04".
Proof.
  destruct (C5_last_weekday 3600000 1770199200000 Wednesday "Wednesday")
    as (k & _ & _ & _ & _ & _ & H).
  - unfold clock_in_range. vm_compute. discriminate.
  - reflexivity.
  - exact H.
Defined.

Lemma C6_witness :
  parseRelativeDate 3600000 1770199200000 "this WEDNESDAY" = "2026-02-04".
Proof.
  destruct (C6_this_weekday 3600000 1770199200000 Wednesday "WEDNESDAY")
    as (k & _ & _ & _ & _ & H).
  - unfold clock_in_range. vm_compute. discriminate.
  - reflexivity.
  - apply H. reflexivity.
Defined.

(** The scenario of section 8, on Wednesday 4 February 2026. *)
Example scenario_2026_02_04 :
  let resolve := parseRelativeDate 3600000 1770199200000 in
  resolve "last monday" = "2026-02-02" /\
  resolve "this friday" = "2026-02-06" /\
  resolve "2 weeks ago" = "2026-01-21" /\
  resolve "today" = "2026-02-04" /\ resolve "now" = "2026-02-04" /\
  resolve "banana" = "banana".
Proof. vm_compute. repeat split. Qed.

(** Beyond the range of [Date] the result is the text of an invalid date. *)
Example ago_out_of_range :
  parseRelativeDate 3600000 1770199200000 "1000000000 days ago" = "NaN-NaN-NaN".
Proof. vm_compute. reflexivity. Qed.

(** ** The dispatcher *)

(** Decide the comparisons of constant strings in the goal. *)
Ltac eval_eqb :=
  repeat match goal with
         | |- context [String.eqb ?a ?b] =>
             let v := eval vm_compute in (String.eqb a b) in
             match v with
             | true => change (String.eqb a b) with true
             | false => change (String.eqb a b) with false
             end
         end;
  cbv iota.

Section Dispatch.

Context {Json : Type} (W : World Json).

Lemma server_lookup name :
  server W !! name =
    if String.eqb name "delete_time_entry" then
      Some {| description := "Delete a specific time entry";
              inputSchema :=
                (credentialSchema ++ [("time_entry_id", required KNumber)])%list;
              callback := delete_time_entry W |}
    else if String.eqb name "get_time_entries" then
      Some {| description := "Get time entries for a specific date or date range. Defaults to today if no dates specified.";
              inputSchema := (credentialSchema ++
                [("from", optional KString); ("to", optional KString);
                 ("project_id", optional KNumber); ("user_id", optional KNumber)])%list;
              callback := get_time_entries W |}
    else if String.eqb name "log_time" then
      Some {| description := "Log time for a specific project and task";
              inputSchema := (credentialSchema ++
                [("project_id", required KNumber); ("task_id", required KNumber);
                 ("hours", required KNumber); ("spent_date", optional KString);
                 ("notes", optional KString)])%list;
              callback := log_time W |}
    else if String.eqb name "list_active_projects" then
      Some {| description := "List all active projects and their associated tasks";
              inputSchema := credentialSchema;
              callback := list_active_projects W |}
    else if String.eqb name "get_my_profile" then
      Some {| description := "Verify credentials and get details of the authenticated user";
              inputSchema := credentialSchema;
              callback := get_my_profile W |}
    else None.
Proof.
  unfold server, registrations, registerTool. cbn [fold_left fst snd].
  repeat match goal with
         | |- context [String.eqb name ?k] =>
             destruct (String.eqb_spec name k) as [->|?];
             [ rewrite ?lookup_insert_eq; try reflexivity;
               rewrite !lookup_insert_ne by discriminate;
               rewrite ?lookup_insert_eq; reflexivity
             | rewrite (lookup_insert_ne _ k name) by congruence ]
         end.
  apply lookup_empty.
Qed.

Lemma registered_iff name :
  In name registeredTools <-> is_Some (server W !! name).
Proof.
  split.
  - intros H. simpl in H.
    decompose [or] H; subst; try contradiction;
      rewrite server_lookup; simpl; eauto.
  - intros [t H]. rewrite server_lookup in H. unfold registeredTools.
    repeat match type of H with
           | context [String.eqb name ?k] =>
               destruct (String.eqb_spec name k) as [->|?]
           end; simpl; auto 10; discriminate.
Qed.

Lemma getCredentials_ok args tr :
  resolvedBoth (environ W) args = true ->
  getCredentials W args tr =
    (inr {| accessToken := resolvedToken (environ W) args;
            accountId := resolvedAccount (environ W) args |}, tr).
Proof.
  unfold resolvedBoth, getCredentials.
  fold (resolvedToken (environ W) args) (resolvedAccount (environ W) args).
  intros [-> ->]%andb_true_iff. reflexivity.
Qed.

Lemma getCredentials_missing args tr :
  resolvedBoth (environ W) args = false ->
  getCredentials W args tr = (inl (Error missingCredentials), tr).
Proof.
  unfold resolvedBoth, getCredentials.
  fold (resolvedToken (environ W) args) (resolvedAccount (environ W) args).
  intros H. rewrite <- negb_andb, H. reflexivity.
Qed.

Lemma valid_string args k schema :
  valid schema args = true -> In (k, optional KString) schema ->
  args !! k = None \/ exists s, args !! k = Some (VStr s).
Proof.
  unfold valid. rewrite forallb_forall. intros H I.
  specialize (H _ I). simpl in H.
  destruct (args !! k) as [[s|n]|]; eauto; discriminate.
Qed.

Lemma resolveDate_run v dflt tr :
  (v = None \/ exists s, v = Some (VStr s)) ->
  (if truthy v then resolveDate W v else ret dflt) tr
  = (inr (dateArg W v dflt), tr).
Proof.
  intros [-> | [s ->]]; [reflexivity|]. simpl.
  destruct (String.eqb s ""); reflexivity.
Qed.

Lemma callTool_get_time_entries args :
  callTool W "get_time_entries" args =
    if validFor W "get_time_entries" args then
      if resolvedBoth (environ W) args then
        let r := timeEntriesQuery W args in
        (match remote W r with
         | inl e => failed (message e)
         | inr res => entriesSummary W res (fromDateOf W args) (toDateOf W args)
         end, [r])
      else (failed missingCredentials, [])
    else (failed "Invalid arguments for tool get_time_entries", []).
Proof.
  unfold callTool, validFor. rewrite server_lookup. eval_eqb.
  cbn [inputSchema callback].
  destruct (valid _ args) eqn:V; [|reflexivity].
  pose proof (valid_string args "from" _ V ltac:(simpl; auto 10)) as Vf.
  pose proof (valid_string args "to" _ V ltac:(simpl; auto 10)) as Vt.
  unfold get_time_entries, bind.
  destruct (resolvedBoth (environ W) args) eqn:C.
  - rewrite getCredentials_ok by assumption.
    rewrite (resolveDate_run _ _ _ Vf), (resolveDate_run _ _ _ Vt).
    unfold request, ret, newDate. cbn [accessToken accountId].
    fold (fromDateOf W args). fold (toDateOf W args).
    rewrite app_nil_l. fold (timeEntriesQuery W args).
    destruct (remote W _); reflexivity.
  - rewrite getCredentials_missing by assumption. reflexivity.
Qed.

Ltac by_tool name :=
  unfold callTool, validFor; rewrite server_lookup;
  repeat match goal with
         | |- context [String.eqb name ?k] =>
             destruct (String.eqb_spec name k) as [->|?]
         end;
  cbn [inputSchema callback].

Lemma callTool_unknown name args :
  ~ In name registeredTools ->
  callTool W name args = (failed ("Tool " ++ name ++ " not found"), []).
Proof.
  intros H. unfold callTool.
  destruct (server W !! name) eqn:E; [|reflexivity].
  destruct H. apply registered_iff. eauto.
Qed.

Lemma callTool_invalid name args :
  In name registeredTools -> validFor W name args = false ->
  callTool W name args = (failed ("Invalid arguments for tool " ++ name), []).
Proof.
  intros [t H]%registered_iff. unfold callTool, validFor. rewrite H.
  intros ->. reflexivity.
Qed.

Lemma callTool_missing name args :
  validFor W name args = true -> resolvedBoth (environ W) args = false ->
  callTool W name args = (failed missingCredentials, []).
Proof.
  intros V C. revert V. by_tool name; intros V; try discriminate; rewrite V;
    unfold get_my_profile, list_active_projects, log_time, get_time_entries,
      delete_time_entry, bind;
    rewrite getCredentials_missing by assumption; reflexivity.
Qed.

(** With credentials and valid arguments, every registered tool makes
    exactly one call, to its endpoint, with the resolved credentials. *)
Lemma callTool_ok name args :
  validFor W name args = true -> resolvedBoth (environ W) args = true ->
  exists r,
    snd (callTool W name args) = [r] /\
    client r = createClient (resolvedToken (environ W) args)
                            (resolvedAccount (environ W) args) /\
    endpoint name args = Some (method r, path r) /\
    isError (fst (callTool W name args))
      = match remote W r with inl _ => true | inr _ => false end.
Proof.
  intros V C. revert V. by_tool name; intros V; try discriminate; rewrite V.
  - unfold delete_time_entry, bind, request, ret.
    rewrite getCredentials_ok by assumption. cbn [accessToken accountId].
    eexists. rewrite app_nil_l.
    destruct (remote W _) eqn:R; cbn [snd fst];
      (split; [reflexivity|]); cbn [client method path]; rewrite ?R;
      repeat split.
  - pose proof (valid_string args "from" _ V ltac:(simpl; auto 10)) as Vf.
    pose proof (valid_string args "to" _ V ltac:(simpl; auto 10)) as Vt.
    unfold get_time_entries, bind.
    rewrite getCredentials_ok by assumption. cbn [accessToken accountId].
    rewrite (resolveDate_run _ _ _ Vf), (resolveDate_run _ _ _ Vt).
    unfold request, ret. eexists. rewrite app_nil_l.
    destruct (remote W _) eqn:R; cbn [snd fst];
      (split; [reflexivity|]); cbn [client method path]; rewrite ?R;
      repeat split.
    unfold entriesSummary. destruct (time_entries W j) as [[|]|]; reflexivity.
  - pose proof (valid_string args "spent_date" _ V ltac:(simpl; auto 10)) as Vs.
    unfold log_time, bind.
    rewrite getCredentials_ok by assumption. cbn [accessToken accountId].
    rewrite (resolveDate_run _ _ _ Vs).
    unfold request, ret. eexists. rewrite app_nil_l.
    destruct (remote W _) eqn:R; cbn [snd fst];
      (split; [reflexivity|]); cbn [client method path]; rewrite ?R;
      repeat split.
  - unfold list_active_projects, bind, request, ret.
    rewrite getCredentials_ok by assumption. cbn [accessToken accountId].
    eexists. rewrite app_nil_l.
    destruct (remote W _) eqn:R; cbn [snd fst];
      (split; [reflexivity|]); cbn [client method path]; rewrite ?R;
      repeat split.
  - unfold get_my_profile, bind, request, ret.
    rewrite getCredentials_ok by assumption. cbn [accessToken accountId].
    eexists. rewrite app_nil_l.
    destruct (remote W _) eqn:R; cbn [snd fst];
      (split; [reflexivity|]); cbn [client method path]; rewrite ?R;
      repeat split.
Qed.

End Dispatch.

Section Claims.

Context {Json : Type} (W : World Json).

(** Every call a tool makes carries the credentials resolved field by
    field. *)
Lemma callTool_requests name args r :
  In r (snd (callTool W name args)) ->
  client r = createClient (resolvedToken (environ W) args)
                          (resolvedAccount (environ W) args).
Proof.
  destruct (in_dec String.eq_dec name registeredTools) as [I|I].
  - destruct (validFor W name args) eqn:V.
    + destruct (resolvedBoth (environ W) args) eqn:C.
      * destruct (callTool_ok W name args V C) as (r' & -> & E & _).
        intros [<-|[]]. exact E.
      * rewrite callTool_missing by assumption. intros [].
    + rewrite callTool_invalid by assumption. intros [].
  - rewrite callTool_unknown by assumption. intros [].
Qed.

Lemma Legacy_missing name args :
  resolvedBoth (environ W) args = false ->
  Legacy.callTool W name args = (failed missingCredentials, []).
Proof.
  unfold resolvedBoth, Legacy.callTool.
  fold (resolvedToken (environ W) args) (resolvedAccount (environ W) args).
  intros H. rewrite <- negb_andb, H. reflexivity.
Qed.

(** The earlier revision resolves the credentials in the same way. *)
Lemma Legacy_requests name args r :
  In r (snd (Legacy.callTool W name args)) ->
  client r = createClient (resolvedToken (environ W) args)
                          (resolvedAccount (environ W) args).
Proof.
  unfold Legacy.callTool.
  fold (resolvedToken (environ W) args) (resolvedAccount (environ W) args).
  destruct (negb _ || negb _); [intros []|].
  unfold Legacy.switch, bind, request, ret, throw.
  repeat match goal with
         | |- context [String.eqb name ?k] => destruct (String.eqb name k)
         end;
    rewrite ?app_nil_l;
    try (destruct (remote W _); intros [<-|[]]; reflexivity).
  intros [].
Qed.

(** In the earlier revision a name outside its four tools is reported by
    the [default] case of the [switch], after the credentials check. *)
Lemma Legacy_unknown name args :
  resolvedBoth (environ W) args = true ->
  ~ In name Legacy.tools ->
  Legacy.callTool W name args
  = (failed ("Harvest API Error: Tool not found: " ++ name), []).
Proof.
  unfold resolvedBoth, Legacy.callTool, Legacy.tools.
  fold (resolvedToken (environ W) args) (resolvedAccount (environ W) args).
  intros H N. rewrite <- negb_andb, H. cbn [negb]. unfold Legacy.switch.
  repeat match goal with
         | |- context [String.eqb name ?k] =>
             destruct (String.eqb_spec name k) as [->|?];
             [ destruct N; simpl; auto 10 |]
         end.
  reflexivity.
Qed.

End Claims.

(** ** The claims on the dispatcher *)

(** C1, as stated, fails: [start_timer] is in the table of section 4.2,
    yet with credentials and arguments at hand its invocation reaches no
    handler; it makes no call and is reported as a tool that is not found. *)
Lemma C1_counterexample :
  In "start_timer" specTools /\
  callTool (sampleWorld fullEnv) "start_timer"
    {[ "project_id" := VNum 1; "task_id" := VNum 2 ]}
  = (failed "Tool start_timer not found", []).
Proof. split; [simpl; auto 10 | vm_compute; reflexivity]. Qed.

(** C1, amended. The fixed tool set is exactly the five registered tools
    (get_my_profile, list_active_projects, log_time, get_time_entries,
    delete_time_entry): invoking one of them with valid arguments and
    credentials makes exactly one call, to the endpoint of the tool, and an
    invocation naming any other tool makes no call and is a tool-not-found
    error. *)
Theorem C1_registered_tools {Json : Type} (W : World Json)
    (name : string) (args : gmap string Value) :
  (In name registeredTools <-> is_Some (server W !! name)) /\
  (In name registeredTools ->
   validFor W name args = true -> resolvedBoth (environ W) args = true ->
   exists r, snd (callTool W name args) = [r] /\
             endpoint name args = Some (method r, path r)) /\
  (~ In name registeredTools ->
   callTool W name args = (failed ("Tool " ++ name ++ " not found"), [])).
Proof.
  split; [apply registered_iff|]. split.
  - intros _ V C. destruct (callTool_ok W name args V C) as (r & ? & _ & ? & _).
    eauto.
  - apply callTool_unknown.
Qed.

Lemma C1_witness :
  exists r,
    snd (callTool (sampleWorld fullEnv) "delete_time_entry"
           {[ "time_entry_id" := VNum 42 ]}) = [r] /\
    endpoint "delete_time_entry" {[ "time_entry_id" := VNum 42 ]}
      = Some (method r, path r).
Proof.
  apply (proj1 (proj2 (C1_registered_tools (sampleWorld fullEnv)
           "delete_time_entry" {[ "time_entry_id" := VNum 42 ]}))).
  - simpl. auto 10.
  - vm_compute. reflexivity.
  - vm_compute. reflexivity.
Defined.

(** C2, as stated, fails: with only [access_token] given and both ambient
    values set, the rule of the claim falls back to the ambient pair, but
    the code keeps the explicit token and takes the ambient account id. *)
Lemma C2_counterexample :
  fst (getCredentials (sampleWorld fullEnv) {[ "access_token" := VStr "A" ]} [])
    = inr {| accessToken := Some (VStr "A");
             accountId := Some (VStr "env-account") |} /\
  credentialRule {[ "access_token" := VStr "A" ]} fullEnv
    = {| accessToken := Some (VStr "env-token");
         accountId := Some (VStr "env-account") |}.
Proof. split; vm_compute; reflexivity. Qed.

(** C2, amended. Credentials are resolved field by field: the token is
    [args.access_token] when that is non-empty and the ambient token
    otherwise, and likewise the account id; resolution succeeds exactly
    when both resolved fields are non-empty. So an invocation with both
    explicit fields non-empty ignores the ambient values, one with a single
    explicit field combines it with the ambient value of the other field,
    and every call a tool makes, in either revision, carries the
    credentials so resolved. *)
Theorem C2_credentials_per_field {Json : Type} (W : World Json)
    (args : gmap string Value) (tr : list Request) :
  let e := environ W in
  getCredentials W args tr =
    (if resolvedBoth e args
     then inr {| accessToken := resolvedToken e args;
                 accountId := resolvedAccount e args |}
     else inl (Error missingCredentials), tr) /\
  resolvedToken e args =
    (if truthy (args !! "access_token") then args !! "access_token"
     else env_value (HARVEST_ACCESS_TOKEN e)) /\
  resolvedAccount e args =
    (if truthy (args !! "account_id") then args !! "account_id"
     else env_value (HARVEST_ACCOUNT_ID e)) /\
  (suppliesBoth (args !! "access_token") (args !! "account_id") = true ->
   getCredentials W args tr =
     (inr {| accessToken := args !! "access_token";
             accountId := args !! "account_id" |}, tr)) /\
  (forall name r,
     In r (snd (callTool W name args)) \/
     In r (snd (Legacy.callTool W name args)) ->
     client r = createClient (resolvedToken e args) (resolvedAccount e args)).
Proof.
  cbv zeta. repeat split.
  - destruct (resolvedBoth (environ W) args) eqn:C.
    + apply getCredentials_ok, C.
    + apply getCredentials_missing, C.
  - unfold suppliesBoth. intros [Ht Ha]%andb_true_iff.
    rewrite getCredentials_ok.
    + unfold resolvedToken, resolvedAccount, or_else. rewrite Ht, Ha. reflexivity.
    + unfold resolvedBoth, resolvedToken, resolvedAccount, or_else.
      rewrite Ht, Ha, Ht, Ha. reflexivity.
  - intros name r [H|H];
      [exact (callTool_requests W name args r H)
      | exact (Legacy_requests W name args r H)].
Qed.

Lemma C2_witness :
  getCredentials (sampleWorld fullEnv)
    {[ "access_token" := VStr "A"; "account_id" := VStr "I" ]} []
  = (inr {| accessToken := Some (VStr "A"); accountId := Some (VStr "I") |}, []).
Proof.
  destruct (C2_credentials_per_field (sampleWorld fullEnv)
           {[ "access_token" := VStr "A"; "account_id" := VStr "I" ]} [])
    as (_ & _ & _ & H & _).
  exact (H eq_refl).
Defined.

(** C3, as stated, fails: when the arguments give only the token and the
    environment only the account id, neither source supplies both fields,
    yet the invocation is no error and the call is made. *)
Lemma C3_counterexample :
  let e := {| HARVEST_ACCESS_TOKEN := None; HARVEST_ACCOUNT_ID := Some "I" |} in
  let args : gmap string Value := {[ "access_token" := VStr "A" ]} in
  suppliesBoth (args !! "access_token") (args !! "account_id") = false /\
  suppliesBoth (env_value (HARVEST_ACCESS_TOKEN e))
               (env_value (HARVEST_ACCOUNT_ID e)) = false /\
  isError (fst (callTool (sampleWorld e) "get_my_profile" args)) = false /\
  length (snd (callTool (sampleWorld e) "get_my_profile" args)) = 1%nat.
Proof. vm_compute. repeat split. Qed.

(** C3, amended. For every invocation where, for the token or for the
    account id, neither the explicit argument nor the ambient environment
    gives a non-empty value, no external call is made and the response is
    an error envelope; for a registered tool with valid arguments its
    message is the missing-credentials message, which names both
    [access_token] and [account_id]. The earlier revision answers every
    such invocation with that message. *)
Theorem C3_missing_credentials {Json : Type} (W : World Json)
    (name : string) (args : gmap string Value) :
  resolvedBoth (environ W) args = false ->
  snd (callTool W name args) = [] /\
  isError (fst (callTool W name args)) = true /\
  (validFor W name args = true ->
   text (fst (callTool W name args)) = missingCredentials) /\
  contains "access_token" missingCredentials = true /\
  contains "account_id" missingCredentials = true /\
  Legacy.callTool W name args = (failed missingCredentials, []).
Proof.
  intros C.
  assert (exists t, callTool W name args = (failed t, []) /\
            (validFor W name args = true -> t = missingCredentials)) as (t & E & T).
  { destruct (in_dec String.eq_dec name registeredTools) as [I|I].
    - destruct (validFor W name args) eqn:V.
      + rewrite callTool_missing by assumption. eauto.
      + rewrite callTool_invalid by assumption.
        eexists. split; [reflexivity | discriminate].
    - rewrite callTool_unknown by assumption.
      eexists. split; [reflexivity|].
      unfold validFor. intros V.
      destruct (server W !! name) eqn:S; [|discriminate].
      destruct I. apply (registered_iff W name). eauto. }
  rewrite E. repeat split; auto using Legacy_missing.
Qed.

Lemma C3_witness :
  callTool (sampleWorld noEnv) "log_time" logTimeArgs
  = (failed missingCredentials, []).
Proof.
  assert (resolvedBoth (environ (sampleWorld noEnv)) logTimeArgs = false) as C
    by (vm_compute; reflexivity).
  assert (validFor (sampleWorld noEnv) "log_time" logTimeArgs = true) as V
    by (vm_compute; reflexivity).
  destruct (C3_missing_credentials (sampleWorld noEnv) "log_time" logTimeArgs C)
    as (Hs & He & Ht & _).
  specialize (Ht V).
  destruct (callTool _ _ _) as [[e t] tr]. simpl in *. subst. reflexivity.
Defined.

Section TimeEntries.

Context {Json : Type} (W : World Json).

Lemma query_params_dates args :
  params (timeEntriesQuery W args) !! "from" = Some (VStr (fromDateOf W args)) /\
  params (timeEntriesQuery W args) !! "to" = Some (VStr (toDateOf W args)).
Proof.
  unfold timeEntriesQuery. cbn [params].
  destruct (truthy (args !! "project_id")), (truthy (args !! "user_id"));
    unfold set_prop;
    destruct (args !! "project_id"), (args !! "user_id");
    split;
    rewrite ?(lookup_insert_ne _ "user_id"), ?(lookup_insert_ne _ "project_id")
      by discriminate;
    rewrite ?(lookup_insert_ne _ "to" "from") by discriminate;
    apply lookup_insert_eq.
Qed.

Lemma query_params_filter args k :
  k = "project_id" \/ k = "user_id" ->
  params (timeEntriesQuery W args) !! k =
    if truthy (args !! k) then args !! k else None.
Proof.
  unfold timeEntriesQuery. cbn [params].
  intros [-> | ->];
    destruct (truthy (args !! "project_id")) eqn:P,
             (truthy (args !! "user_id")) eqn:U;
    unfold set_prop;
    destruct (args !! "project_id") eqn:Ep, (args !! "user_id") eqn:Eu;
    try discriminate;
    rewrite ?lookup_insert_eq; try reflexivity;
    rewrite ?(lookup_insert_ne _ "user_id" "project_id") by discriminate;
    rewrite ?lookup_insert_eq; try reflexivity;
    rewrite !lookup_insert_ne by discriminate; apply lookup_empty.
Qed.

(** A filter whose value is 0 is read like a filter that is absent. *)
Lemma falsy_filter_same args k :
  k = "project_id" \/ k = "user_id" ->
  callTool W "get_time_entries" (<[k := VNum 0]> args)
  = callTool W "get_time_entries" (delete k args).
Proof.
  intros Hk.
  assert (forall j, j <> k ->
            (<[k := VNum 0]> args) !! j = (delete k args) !! j) as Other
    by (intros j Hj; rewrite lookup_insert_ne, lookup_delete_ne by congruence;
        reflexivity).
  assert (truthy ((<[k := VNum 0]> args) !! k) = false) as Tk
    by (rewrite lookup_insert_eq; reflexivity).
  assert (truthy ((delete k args) !! k) = false) as Tk'
    by (rewrite lookup_delete_eq; reflexivity).
  assert ((delete k args) !! k = None) as Dk by apply lookup_delete_eq.
  assert ((<[k := VNum 0]> args) !! k = Some (VNum 0)) as Ik
    by apply lookup_insert_eq.
  rewrite !callTool_get_time_entries.
  assert (validFor W "get_time_entries" (<[k := VNum 0]> args)
          = validFor W "get_time_entries" (delete k args)) as ->.
  { unfold validFor. rewrite server_lookup. eval_eqb.
    unfold valid, credentialSchema, optional.
    cbn [inputSchema app forallb fst snd].
    destruct Hk as [-> | ->]; rewrite Ik, Dk, !Other by discriminate;
      reflexivity. }
  assert (resolvedBoth (environ W) (<[k := VNum 0]> args)
          = resolvedBoth (environ W) (delete k args)) as ->.
  { unfold resolvedBoth, resolvedToken, resolvedAccount.
    destruct Hk as [-> | ->]; rewrite !Other by discriminate; reflexivity. }
  assert (fromDateOf W (<[k := VNum 0]> args) = fromDateOf W (delete k args)) as F.
  { unfold fromDateOf.
    destruct Hk as [-> | ->]; rewrite !Other by discriminate; reflexivity. }
  assert (toDateOf W (<[k := VNum 0]> args) = toDateOf W (delete k args)) as T.
  { unfold toDateOf. rewrite F.
    destruct Hk as [-> | ->]; rewrite !Other by discriminate; reflexivity. }
  assert (timeEntriesQuery W (<[k := VNum 0]> args)
          = timeEntriesQuery W (delete k args)) as ->.
  { unfold timeEntriesQuery, resolvedToken, resolvedAccount. rewrite F, T.
    destruct Hk as [-> | ->]; rewrite Tk, Tk', !Other by discriminate;
      reflexivity. }
  rewrite F, T. reflexivity.
Qed.

Lemma Legacy_falsy_filter_same args k :
  k = "project_id" \/ k = "user_id" ->
  Legacy.callTool W "get_time_entries" (<[k := VNum 0]> args)
  = Legacy.callTool W "get_time_entries" (delete k args).
Proof.
  intros Hk.
  assert (forall j, j <> k ->
            (<[k := VNum 0]> args) !! j = (delete k args) !! j) as Other
    by (intros j Hj; rewrite lookup_insert_ne, lookup_delete_ne by congruence;
        reflexivity).
  assert (truthy ((<[k := VNum 0]> args) !! k) = false) as Tk
    by (rewrite lookup_insert_eq; reflexivity).
  assert (truthy ((delete k args) !! k) = false) as Tk'
    by (rewrite lookup_delete_eq; reflexivity).
  unfold Legacy.callTool, Legacy.switch. eval_eqb.
  destruct Hk as [-> | ->]; rewrite Tk, Tk', !Other by discriminate;
    reflexivity.
Qed.

(** In the earlier revision the dates are not resolved: [to] defaults to
    the value of [from] as given. *)
Lemma Legacy_to_defaults_to_from args r :
  args !! "to" = None ->
  In r (snd (Legacy.callTool W "get_time_entries" args)) ->
  params r !! "to" = params r !! "from" /\
  params r !! "from" =
    (if truthy (args !! "from") then args !! "from"
     else Some (VStr (toISODate (clock W)))).
Proof.
  intros Ht. unfold Legacy.callTool, Legacy.switch. eval_eqb.
  destruct (negb _ || negb _); [intros []|].
  unfold bind, request, ret. rewrite app_nil_l.
  set (q := {| client := _ |}).
  assert (params q !! "to" = params q !! "from" /\
          params q !! "from" =
            (if truthy (args !! "from") then args !! "from"
             else Some (VStr (toISODate (clock W))))) as Q.
  { subst q. cbn [params]. rewrite Ht. unfold or_else at 1. cbn [truthy].
    unfold or_else.
    destruct (truthy (args !! "from")) eqn:F;
      [ destruct (args !! "from") as [v|] eqn:Ef; [|discriminate] |];
      destruct (truthy (args !! "project_id")), (truthy (args !! "user_id"));
      unfold set_prop;
      destruct (args !! "project_id"), (args !! "user_id");
      change (truthy None) with false; cbv beta iota; split;
      rewrite ?(lookup_insert_ne _ "user_id"), ?(lookup_insert_ne _ "project_id")
        by discriminate;
      rewrite ?(lookup_insert_ne _ "to" "from") by discriminate;
      rewrite !lookup_insert_eq; reflexivity. }
  destruct (remote W q); intros [<-|[]]; exact Q.
Qed.

End TimeEntries.

(** C4. For every [get_time_entries] invocation (valid arguments,
    credentials at hand) that omits [to], the one call made sends a [to]
    parameter equal to its [from] parameter: the resolved value of the
    [from] argument when one is given, and the canonical date of the
    current local day, for both, when [from] is omitted too. In the
    earlier revision, which does not resolve dates, [to] likewise takes the
    value of [from]. *)
Theorem C4_to_defaults_to_from {Json : Type} (W : World Json)
    (args : gmap string Value) :
  validFor W "get_time_entries" args = true ->
  resolvedBoth (environ W) args = true ->
  args !! "to" = None ->
  exists r,
    snd (callTool W "get_time_entries" args) = [r] /\
    method r = GET /\ path r = "/time_entries" /\
    params r !! "to" = params r !! "from" /\
    (forall f, args !! "from" = Some (VStr f) -> f <> "" ->
       params r !! "from"
       = Some (VStr (parseRelativeDate (zone W) (clock W) f))) /\
    (args !! "from" = None ->
       params r !! "from"
       = Some (VStr (canonical (localToday (zone W) (clock W))))) /\
    (forall r', In r' (snd (Legacy.callTool W "get_time_entries" args)) ->
       params r' !! "to" = params r' !! "from").
Proof.
  intros V C Ht. exists (timeEntriesQuery W args).
  rewrite callTool_get_time_entries, V, C. cbv zeta.
  destruct (query_params_dates W args) as [Ef Et].
  split; [reflexivity|]. split; [reflexivity|]. split; [reflexivity|].
  rewrite Ef, Et. unfold toDateOf, fromDateOf. rewrite Ht. cbn [dateArg].
  split; [reflexivity|]. split; [|split].
  - intros f -> Hf. cbn [dateArg].
    destruct (String.eqb_spec f ""); [contradiction | reflexivity].
  - intros ->. reflexivity.
  - intros r' Hr'. exact (proj1 (Legacy_to_defaults_to_from W args r' Ht Hr')).
Qed.

Lemma C4_witness :
  exists r,
    snd (callTool (sampleWorld fullEnv) "get_time_entries" sinceYesterday) = [r] /\
    params r !! "from" = Some (VStr "2026-02-03") /\
    params r !! "to" = Some (VStr "2026-02-03").
Proof.
  destruct (C4_to_defaults_to_from (sampleWorld fullEnv) sinceYesterday)
    as (r & Hr & _ & _ & Ht & Hf & _ & _); try (vm_compute; reflexivity).
  exists r. split; [exact Hr|].
  specialize (Hf "yesterday" eq_refl ltac:(discriminate)).
  rewrite Ht. split; exact Hf.
Defined.

(** The scenario of section 8: [from: "yesterday"] and no [to], on
    4 February 2026, with a filter of 0 that is not sent. *)
Example scenario_yesterday :
  map (fun r => map_to_list (params r))
      (snd (callTool (sampleWorld fullEnv) "get_time_entries"
              (<["project_id" := VNum 0]> sinceYesterday)))
  = [[("from", VStr "2026-02-03"); ("to", VStr "2026-02-03")]].
Proof. vm_compute. reflexivity. Qed.

(** * Further properties of the code *)

(** ** The calendar, from fields back to days *)

Lemma DayFromYear_mono y1 y2 : y1 <= y2 -> DayFromYear y1 <= DayFromYear y2.
Proof. unfold DayFromYear. intros H. Z.div_mod_to_equations. lia. Qed.

(** The year of a day is the only year whose days contain it. *)
Lemma YearFromDay_unique y n :
  DayFromYear y <= n < DayFromYear (y + 1) -> YearFromDay n = y.
Proof.
  intros H. pose proof (YearFromDay_spec n) as S.
  destruct (Z.lt_trichotomy (YearFromDay n) y) as [L|[E|G]]; [|exact E|].
  - pose proof (DayFromYear_mono (YearFromDay n + 1) y ltac:(lia)). lia.
  - pose proof (DayFromYear_mono (y + 1) (YearFromDay n) ltac:(lia)). lia.
Qed.

(** Day [d] (1..28) of month [m] (0..11) of year [y] reads back as such. *)
Lemma civil_of_MakeDay y m d :
  0 <= m <= 11 -> 1 <= d <= 28 ->
  let n := MakeDay y m d in
  YearFromDay n = y /\ MonthFromDay n = m /\ DateFromDay n = d.
Proof.
  intros Hm Hd n.
  assert (n = DayFromYear y + MonthStart m (LeapDay y) + d - 1) as En.
  { subst n. unfold MakeDay. rewrite Z.div_small, Z.mod_small, Z.add_0_r by lia.
    reflexivity. }
  assert (0 <= MonthStart m (LeapDay y) + d - 1 < 365 + LeapDay y /\
          (forall l, MonthStart m l <= MonthStart m l + d - 1) ) as [B _].
  { split; [|intros; lia].
    destruct (LeapDay_cases y) as [[-> _]|[-> _]];
      assert (m = 0 \/ m = 1 \/ m = 2 \/ m = 3 \/ m = 4 \/ m = 5 \/ m = 6 \/
              m = 7 \/ m = 8 \/ m = 9 \/ m = 10 \/ m = 11) as C by lia;
      decompose [or] C; subst m; simpl; lia. }
  assert (YearFromDay n = y) as Ey.
  { apply YearFromDay_unique. rewrite DayFromYear_succ.
    destruct (LeapDay_cases y) as [[E1 E2]|[E1 E2]]; rewrite E1 in B, En; lia. }
  assert (MonthFromDay n = m) as Em.
  { unfold MonthFromDay, DayInYear. rewrite Ey.
    replace (n - DayFromYear y) with (MonthStart m (LeapDay y) + d - 1) by lia.
    destruct (LeapDay_cases y) as [[-> _]|[-> _]];
      assert (m = 0 \/ m = 1 \/ m = 2 \/ m = 3 \/ m = 4 \/ m = 5 \/ m = 6 \/
              m = 7 \/ m = 8 \/ m = 9 \/ m = 10 \/ m = 11) as C by lia;
      decompose [or] C; subst m; simpl MonthStart;
      repeat match goal with
             | |- context [?a <? ?b] => destruct (Z.ltb_spec a b); try lia
             end. }
  split; [exact Ey|]. split; [exact Em|].
  unfold DateFromDay, DayInYear. rewrite Em, Ey. lia.
Qed.

(** ** [addDays], [addMonths] and [formatDate] on their own *)

(** X1. Inside the range of [Date], [addDays] moves the local calendar
    date by exactly [k] days, [k] of either sign: the result is a valid
    date on the local day [k] days after that of the date given, and
    formatted it is the canonical date of that day. *)
Theorem addDays_shifts_days (tz u k : Z) :
  representable (u + k * msPerDay) ->
  exists u',
    addDays tz (Int u) (Int k) = Int u' /\
    Day (LocalTime tz u') = Day (LocalTime tz u) + k /\
    formatDate tz (addDays tz (Int u) (Int k))
      = canonical (Day (LocalTime tz u) + k).
Proof.
  intros R. rewrite addDays_Int, (TimeClip_in _ R).
  assert (Day (LocalTime tz (u + k * msPerDay)) = Day (LocalTime tz u) + k) as D.
  { replace (LocalTime tz (u + k * msPerDay))
      with (LocalTime tz u + k * msPerDay) by (unfold LocalTime; lia).
    unfold Day. apply Z.div_add. discriminate. }
  exists (u + k * msPerDay). repeat split.
  - exact D.
  - rewrite formatDate_Int, D. reflexivity.
Qed.

Lemma addDays_shifts_days_witness :
  formatDate 3600000 (addDays 3600000 (Int 1770199200000) (Int 400))
  = "2027-03-11".
Proof.
  destruct (addDays_shifts_days 3600000 1770199200000 400) as (u' & _ & _ & E).
  - unfold representable. vm_compute. discriminate.
  - rewrite E. vm_compute. reflexivity.
Defined.

(** X2. [addDays] gives an invalid date exactly when the date it is
    given is invalid, the number of days is NaN, or the moved time value
    leaves the range a [Date] can hold. *)
Theorem addDays_invalid_iff (tz : Z) (d : Date) (days : Num) :
  addDays tz d days = NaN <->
  d = NaN \/ days = NaN \/
  exists u k, d = Int u /\ days = Int k /\ ~ representable (u + k * msPerDay).
Proof.
  destruct d as [|u], days as [|k].
  - split; auto.
  - split; auto.
  - rewrite addDays_NaN_r. split; auto.
  - rewrite addDays_Int. unfold TimeClip, representable.
    destruct (Z.leb_spec (Z.abs (u + k * msPerDay)) maxTimeValue) as [L|L];
      split.
    + discriminate.
    + intros [H|[H|(u' & k' & Eu & Ek & H)]]; try discriminate.
      injection Eu as <-. injection Ek as <-. lia.
    + intros _. right; right. exists u, k. repeat split; lia.
    + reflexivity.
Qed.

(** X3. Two moves by [addDays] add up in the calendar: as long as the
    date in between is one a [Date] can hold, moving by [a] days and then
    by [b] days gives the same formatted date as moving by [a + b] days;
    in particular moving back undoes moving forth. *)
Theorem addDays_compose (tz u a b : Z) :
  representable (u + a * msPerDay) ->
  formatDate tz (addDays tz (addDays tz (Int u) (Int a)) (Int b))
  = formatDate tz (addDays tz (Int u) (Int (a + b))).
Proof.
  intros R. rewrite (addDays_Int tz u a), (TimeClip_in _ R), !addDays_Int.
  do 2 f_equal. lia.
Qed.

Lemma addDays_compose_witness :
  formatDate 3600000
    (addDays 3600000 (addDays 3600000 (Int 1770199200000) (Int 30)) (Int (-30)))
  = "2026-02-04".
Proof.
  rewrite (addDays_compose 3600000 1770199200000 30 (-30)).
  - vm_compute. reflexivity.
  - unfold representable. vm_compute. discriminate.
Defined.

(** X4. [formatDate] gives the text [NaN-NaN-NaN] for an invalid date and
    for no other date. *)
Theorem formatDate_invalid_iff (tz : Z) (d : Date) :
  formatDate tz d = "NaN-NaN-NaN" <-> d = NaN.
Proof.
  destruct d as [|t]; split; intros H; try reflexivity; try discriminate.
  rewrite formatDate_Int in H. destruct (canonical_not_NaN _ H).
Qed.

(** X5. Two valid dates are formatted alike exactly when they fall on the
    same local calendar day. *)
Theorem formatDate_same_day (tz t1 t2 : Z) :
  formatDate tz (Int t1) = formatDate tz (Int t2) <->
  Day (LocalTime tz t1) = Day (LocalTime tz t2).
Proof.
  rewrite !formatDate_Int. split.
  - apply canonical_inj.
  - intros ->. reflexivity.
Qed.

Lemma show_Z_four_digits y :
  1000 <= y <= 9999 ->
  String.length (show_Z y) = 4%nat /\ all is_digit (show_Z y) = true.
Proof.
  intros H.
  assert ((String.length (show_Z y) =? 4)%nat && all is_digit (show_Z y) = true)
    as E.
  { apply (range_check
             (fun z => (String.length (show_Z z) =? 4)%nat &&
                       all is_digit (show_Z z)) 1000 (Z.to_nat 9000));
      [vm_compute; reflexivity | rewrite Z2Nat.id; lia]. }
  apply andb_true_iff in E as [L D]. apply Nat.eqb_eq in L. auto.
Qed.

Lemma pad2_digits n : 0 <= n < 100 -> all is_digit (pad2 n) = true.
Proof.
  intros H.
  apply (range_check (fun z => all is_digit (pad2 z)) 0 100);
    [vm_compute; reflexivity | lia].
Qed.

Lemma canonical_IsoForm d :
  1000 <= YearFromDay d <= 9999 -> IsoForm (canonical d).
Proof.
  intros H. unfold canonical.
  pose proof (MonthFromDay_range d). pose proof (DateFromDay_range d).
  destruct (show_Z_four_digits _ H) as [L D].
  exists (show_Z (YearFromDay d)), (pad2 (MonthFromDay d + 1)),
         (pad2 (DateFromDay d)).
  repeat split; auto; (apply pad2_length || apply pad2_digits); lia.
Qed.

(** X6. For a date in the years 1000 to 9999 [formatDate] gives a string
    matching [^\d{4}-\d{2}-\d{2}$], so the resolver, whatever its clock and
    zone, returns a formatted date as it is. *)
Theorem formatDate_is_canonical (tz t tz' now : Z) :
  1000 <= YearFromTime (LocalTime tz t) <= 9999 ->
  isoDateRe (formatDate tz (Int t)) = true /\
  parseRelativeDate tz' now (formatDate tz (Int t)) = formatDate tz (Int t).
Proof.
  intros H. rewrite formatDate_Int.
  assert (isoDateRe (canonical (Day (LocalTime tz t))) = true) as E
    by (apply isoDateRe_complete, canonical_IsoForm, H).
  split; [exact E | apply resolve_iso, E].
Qed.

Lemma formatDate_is_canonical_witness :
  isoDateRe (formatDate 3600000 (Int 1770199200000)) = true /\
  parseRelativeDate 0 0 (formatDate 3600000 (Int 1770199200000))
  = formatDate 3600000 (Int 1770199200000).
Proof.
  apply (formatDate_is_canonical 3600000 1770199200000 0 0).
  vm_compute. split; discriminate.
Defined.

Lemma MakeDay_normal y m d :
  MakeDay y m d = MakeDay (y + m / 12) (m mod 12) d.
Proof.
  unfold MakeDay.
  pose proof (Z.mod_pos_bound m 12 eq_refl).
  rewrite (Z.div_small (m mod 12)), Z.mod_mod, Z.add_0_r by lia.
  reflexivity.
Qed.

(** X7. [addMonths] applied to a date on day 1 to 28 of its month moves
    its local calendar date by exactly [k] calendar months and keeps the
    day of the month, as long as the result is a date a [Date] can hold. *)
Theorem addMonths_keeps_day (tz u k : Z) :
  let t := LocalTime tz u in
  let t' := MakeDate (MakeDay (YearFromTime t) (MonthFromTime t + k)
                        (DateFromTime t)) (TimeWithinDay t) in
  DateFromTime t <= 28 ->
  representable (UTC tz t') ->
  exists u',
    addMonths tz (Int u) (Int k) = Int u' /\
    DateFromTime (LocalTime tz u') = DateFromTime t /\
    monthCount (Day (LocalTime tz u')) = monthCount (Day t) + k.
Proof.
  intros t t' Hd R.
  pose proof (DateFromDay_range (Day t)) as Bd.
  pose proof (TimeWithinDay_range t) as Bt.
  assert (Day t' = MakeDay (YearFromTime t) (MonthFromTime t + k)
                     (DateFromTime t)) as D
    by (apply Day_MakeDate, Bt).
  exists (UTC tz t').
  assert (LocalTime tz (UTC tz t') = t') as ->
    by (unfold LocalTime, UTC; lia).
  split.
  - unfold addMonths, setMonth, getMonth, num_add. fold t. fold t'.
    apply TimeClip_in, R.
  - rewrite MakeDay_normal in D.
    pose proof (Z.mod_pos_bound (MonthFromTime t + k) 12 eq_refl) as Bm.
    destruct (civil_of_MakeDay (YearFromTime t + (MonthFromTime t + k) / 12)
                ((MonthFromTime t + k) mod 12) (DateFromTime t))
      as (Ey & Em & Ed); [lia | unfold DateFromTime in *; lia |].
    rewrite <- D in Ey, Em, Ed.
    split.
    + exact Ed.
    + unfold monthCount. rewrite Ey, Em.
      unfold YearFromTime, MonthFromTime.
      pose proof (Z.div_mod (MonthFromDay (Day t) + k) 12 ltac:(lia)).
      unfold MonthFromTime in *. lia.
Qed.

Lemma addMonths_keeps_day_witness :
  exists u',
    addMonths 3600000 (Int 1770199200000) (Int (-14)) = Int u' /\
    DateFromTime (LocalTime 3600000 u') = 4.
Proof.
  destruct (addMonths_keeps_day 3600000 1770199200000 (-14))
    as (u' & E & Hd & _).
  - vm_compute. discriminate.
  - unfold representable. vm_compute. discriminate.
  - exists u'. split; [exact E|]. rewrite Hd. vm_compute. reflexivity.
Defined.

(** X8. Adding no month keeps the local calendar date of a valid date,
    whatever its day of the month. *)
Theorem addMonths_zero (tz u : Z) :
  representable u ->
  exists u',
    addMonths tz (Int u) (Int 0) = Int u' /\
    Day (LocalTime tz u') = Day (LocalTime tz u) /\
    formatDate tz (addMonths tz (Int u) (Int 0)) = formatDate tz (Int u).
Proof.
  intros R.
  assert (addMonths tz (Int u) (Int 0) = Int u) as E.
  { unfold addMonths, setMonth, getMonth, num_add.
    rewrite Z.add_0_r. unfold YearFromTime, MonthFromTime, DateFromTime.
    rewrite MakeDay_same_month.
    replace (UTC tz (MakeDate (Day (LocalTime tz u)
                                 - DateFromDay (Day (LocalTime tz u))
                                 + DateFromDay (Day (LocalTime tz u)))
                       (TimeWithinDay (LocalTime tz u)))) with u.
    - apply TimeClip_in, R.
    - unfold UTC, MakeDate.
      pose proof (Day_TimeWithinDay (LocalTime tz u)) as E.
      unfold LocalTime in *. lia. }
  exists u. rewrite E. repeat split.
Qed.

Lemma addMonths_zero_witness :
  formatDate 3600000 (addMonths 3600000 (Int 1774915200000) (Int 0))
  = formatDate 3600000 (Int 1774915200000).
Proof.
  destruct (addMonths_zero 3600000 1774915200000) as (u' & _ & _ & E).
  - unfold representable. vm_compute. discriminate.
  - exact E.
Defined.

(** ** The resolver beyond the claims *)

Lemma digit_or_dash_not_space c : digit_or_dash c = true -> is_space c = false.
Proof.
  unfold digit_or_dash. intros [H|H]%orb_true_iff.
  - apply digit_not_space, H.
  - unfold is_dash in H. apply Ascii.eqb_eq in H. subst c. reflexivity.
Qed.

Lemma lower_digit_or_dash c : digit_or_dash c = true -> lower_char c = c.
Proof.
  unfold digit_or_dash. intros [H|H]%orb_true_iff.
  - apply lower_digit, H.
  - unfold is_dash in H. apply Ascii.eqb_eq in H. subst c. reflexivity.
Qed.

Lemma trimEnd_fix s : all (fun c => negb (is_space c)) s = true -> trimEnd s = s.
Proof.
  induction s as [|c s IH]; [reflexivity|]. simpl.
  intros [Hc Hs]%andb_true_iff. rewrite (IH Hs).
  destruct (is_space c); [discriminate | reflexivity].
Qed.

(** A string of digits and dashes is its own normal form. *)
Lemma normalize_fix s :
  all digit_or_dash s = true -> trim (toLowerCase s) = s.
Proof.
  intros H.
  assert (toLowerCase s = s) as ->.
  { induction s as [|c s IH]; [reflexivity|]. simpl in *.
    apply andb_true_iff in H as [Hc Hs].
    rewrite (lower_digit_or_dash _ Hc), (IH Hs). reflexivity. }
  assert (all (fun c => negb (is_space c)) s = true) as N.
  { apply (all_impl digit_or_dash); [|exact H].
    intros c Hc. rewrite (digit_or_dash_not_space _ Hc). reflexivity. }
  unfold trim. rewrite trimStart_stops.
  - apply trimEnd_fix, N.
  - destruct s as [|c s]; [reflexivity|]. simpl in *.
    apply andb_true_iff in N as [-> _]. reflexivity.
Qed.

Lemma blank_not_digit_or_dash w : blank w -> all digit_or_dash w = false.
Proof.
  intros [Hn Hw]. destruct w as [|c w]; [contradiction|]. simpl in *.
  apply andb_true_iff in Hw as [Hc _].
  destruct (digit_or_dash c) eqn:E; [|reflexivity].
  apply digit_or_dash_not_space in E. congruence.
Qed.

(** A string of digits and dashes is no keyword and no phrase. *)
Lemma digits_dashes_no_phrase s :
  all digit_or_dash s = true ->
  ~ KeywordForm s /\ agoRe s = None /\ weekdayRe s = None.
Proof.
  intros H. repeat split.
  - unfold KeywordForm. simpl. intros K.
    decompose [or] K; subst; try contradiction; discriminate.
  - destruct (agoRe s) as [[g u]|] eqn:E; [|reflexivity].
    apply agoRe_sound in E as ((ds & w1 & u' & pl & w2 & -> & _ & _ & B & _) & _).
    rewrite !all_append, (blank_not_digit_or_dash _ B) in H.
    rewrite andb_false_r in H. discriminate.
  - destruct (weekdayRe s) as [[m d]|] eqn:E; [|reflexivity].
    apply weekdayRe_sound in E as ((m' & w1 & d' & -> & _ & B & _) & _).
    rewrite !all_append, (blank_not_digit_or_dash _ B) in H.
    rewrite andb_false_r in H. discriminate.
Qed.

Lemma resolve_digits_dashes tz now s :
  all digit_or_dash s = true -> parseRelativeDate tz now s = s.
Proof.
  intros H. destruct (isoDateRe s) eqn:I; [apply resolve_iso, I|].
  destruct (digits_dashes_no_phrase s H) as (K & A & D).
  apply resolve_unrecognized; rewrite ?normalize_fix by assumption; assumption.
Qed.

Lemma show_Z_chars z : all digit_or_dash (show_Z z) = true.
Proof.
  assert (forall c, is_digit c = true -> digit_or_dash c = true) as I
    by (intros c Hc; unfold digit_or_dash; rewrite Hc; reflexivity).
  destruct z as [|p|p].
  - reflexivity.
  - apply (all_impl is_digit); [exact I|]. apply show_Z_digits. lia.
  - unfold show_Z. simpl.
    apply (all_impl is_digit); [exact I|]. apply string_of_uint_digits.
Qed.

Lemma canonical_chars d : all digit_or_dash (canonical d) = true.
Proof.
  unfold canonical.
  pose proof (MonthFromDay_range d). pose proof (DateFromDay_range d).
  assert (forall n, 0 <= n < 100 -> all digit_or_dash (pad2 n) = true) as P.
  { intros n Hn. apply (all_impl is_digit); [|apply pad2_digits, Hn].
    intros c Hc. unfold digit_or_dash. rewrite Hc. reflexivity. }
  rewrite !all_append, show_Z_chars, !P by lia. reflexivity.
Qed.

(** The result is the input, on a path that no clock changes, or a
    formatted date. *)
Lemma resolve_cases tz now s :
  (forall tz' now', parseRelativeDate tz' now' s = s) \/
  (exists d, parseRelativeDate tz now s = formatDate tz d).
Proof.
  destruct (isoDateRe s) eqn:I; [left; intros; apply resolve_iso, I|].
  destruct (String.eqb_spec (trim (toLowerCase s)) "today") as [K|K1];
    [right; eexists; apply resolve_today; auto|].
  destruct (String.eqb_spec (trim (toLowerCase s)) "now") as [K|K2];
    [right; eexists; apply resolve_today; auto|].
  destruct (String.eqb_spec (trim (toLowerCase s)) "yesterday") as [K|K3].
  { right. eexists. unfold parseRelativeDate. rewrite I, K. reflexivity. }
  destruct (String.eqb_spec (trim (toLowerCase s)) "tomorrow") as [K|K4].
  { right. eexists. unfold parseRelativeDate. rewrite I, K. reflexivity. }
  destruct (agoRe (trim (toLowerCase s))) as [[g u]|] eqn:A.
  { right. pose proof A as (_ & Hu & _)%agoRe_sound.
    unfold parseRelativeDate. rewrite I, A.
    destruct (String.eqb_spec (trim (toLowerCase s)) "today"); [contradiction|].
    destruct (String.eqb_spec (trim (toLowerCase s)) "now"); [contradiction|].
    destruct (String.eqb_spec (trim (toLowerCase s)) "yesterday"); [contradiction|].
    destruct (String.eqb_spec (trim (toLowerCase s)) "tomorrow"); [contradiction|].
    cbv beta iota zeta.
    simpl in Hu. destruct Hu as [<-|[<-|[<-|[]]]]; eexists; reflexivity. }
  destruct (weekdayRe (trim (toLowerCase s))) as [[m d]|] eqn:D.
  { right. rewrite (resolve_weekday tz now s m d I D). cbv zeta.
    destruct (getDay tz _) as [|cur].
    - exists NaN. reflexivity.
    - destruct (String.eqb m "last"); eexists; reflexivity. }
  left. intros tz' now'. apply resolve_unrecognized; auto.
  unfold KeywordForm. simpl. intros K.
  decompose [or] K; try contradiction; congruence.
Qed.

(** X9. Whatever the input, the clock and the zone, the result is the
    input itself, the canonical date of some calendar day, or the text of
    an invalid date. *)
Theorem resolve_result_shape (tz now : Z) (s : string) :
  parseRelativeDate tz now s = s \/
  parseRelativeDate tz now s = "NaN-NaN-NaN" \/
  exists d, parseRelativeDate tz now s = canonical d.
Proof.
  destruct (resolve_cases tz now s) as [H|[[|t] H]].
  - left. apply H.
  - right; left. exact H.
  - right; right. exists (Day (LocalTime tz t)). exact H.
Qed.

(** X10. Resolving is idempotent, also across clocks and zones: a result
    of the resolver is returned unchanged by any later resolution. *)
Theorem resolve_idempotent (tz now tz' now' : Z) (s : string) :
  parseRelativeDate tz' now' (parseRelativeDate tz now s)
  = parseRelativeDate tz now s.
Proof.
  destruct (resolve_cases tz now s) as [H|[[|t] H]].
  - rewrite !H. reflexivity.
  - rewrite H. reflexivity.
  - rewrite H, formatDate_Int. apply resolve_digits_dashes, canonical_chars.
Qed.

(** X11. The canonical test is made on the input as given, before it is
    trimmed: an input that is a canonical date only once normalized (one
    with white space around it) is returned as it is, white space
    included. *)
Theorem resolve_untrimmed (tz now : Z) (s : string) :
  IsoForm (trim (toLowerCase s)) -> parseRelativeDate tz now s = s.
Proof.
  intros F. destruct (isoDateRe s) eqn:I; [apply resolve_iso, I|].
  destruct (digits_dashes_no_phrase _ (IsoForm_chars _ F)) as (K & A & D).
  apply resolve_unrecognized; assumption.
Qed.

Lemma resolve_untrimmed_witness :
  parseRelativeDate 3600000 1770199200000 " 2026-02-04 " = " 2026-02-04 ".
Proof.
  apply resolve_untrimmed.
  exists "2026", "02", "04". repeat split; reflexivity.
Defined.

(** An input that is canonical as given is its own normal form, so its
    normal form is no keyword and no phrase. *)
Lemma iso_no_phrase s :
  isoDateRe s = true ->
  ~ KeywordForm (trim (toLowerCase s)) /\
  agoRe (trim (toLowerCase s)) = None /\
  weekdayRe (trim (toLowerCase s)) = None.
Proof.
  intros I. apply isoDateRe_sound, IsoForm_chars in I.
  rewrite (normalize_fix _ I). apply digits_dashes_no_phrase, I.
Qed.

Lemma keyword_not_iso s k :
  In k ["today"; "now"; "yesterday"; "tomorrow"] ->
  trim (toLowerCase s) = k -> isoDateRe s = false.
Proof.
  intros Hk E. destruct (isoDateRe s) eqn:I; [|reflexivity].
  destruct (iso_no_phrase s I) as (K & _). destruct K.
  unfold KeywordForm. rewrite E. exact Hk.
Qed.

(** X12. The keywords, in any letter case and with white space around:
    [today] and [now] give the canonical date of the current local day,
    [yesterday] that of the day before, [tomorrow] that of the day after. *)
Theorem resolve_keywords (tz now : Z) (input : string) :
  clock_in_range now ->
  let n := trim (toLowerCase input) in
  (n = "today" \/ n = "now" ->
     parseRelativeDate tz now input = canonical (localToday tz now)) /\
  (n = "yesterday" ->
     parseRelativeDate tz now input = canonical (localToday tz now - 1)) /\
  (n = "tomorrow" ->
     parseRelativeDate tz now input = canonical (localToday tz now + 1)).
Proof.
  intros C n. subst n. repeat split.
  - intros E.
    assert (isoDateRe input = false) as I
      by (destruct E as [E|E]; (eapply keyword_not_iso; [|exact E]);
          simpl; auto 10).
    rewrite (resolve_today tz now input I E).
    rewrite <- (Z.add_0_r (localToday tz now)).
    rewrite <- (near_today tz now C 0 ltac:(lia)).
    rewrite setHours0_now by assumption.
    rewrite addDays_Int, Z.mul_0_l, Z.add_0_r, TimeClip_in; [reflexivity|].
    pose proof (midnight_bounds tz now).
    unfold representable, clock_in_range, msPerDay, maxTimeValue in *. lia.
  - intros E.
    assert (isoDateRe input = false) as I
      by ((eapply keyword_not_iso; [|exact E]); simpl; auto 10).
    unfold parseRelativeDate. rewrite I, E. cbn [String.eqb orb].
    change (String.eqb "yesterday" "today") with false.
    change (String.eqb "yesterday" "now") with false.
    change (String.eqb "yesterday" "yesterday") with true.
    cbv iota. simpl orb. cbv iota.
    apply (near_today tz now C (-1)). lia.
  - intros E.
    assert (isoDateRe input = false) as I
      by ((eapply keyword_not_iso; [|exact E]); simpl; auto 10).
    unfold parseRelativeDate. rewrite I, E.
    change (String.eqb "tomorrow" "today") with false.
    change (String.eqb "tomorrow" "now") with false.
    change (String.eqb "tomorrow" "yesterday") with false.
    change (String.eqb "tomorrow" "tomorrow") with true.
    cbv iota. simpl orb. cbv iota.
    apply (near_today tz now C 1). lia.
Qed.

Lemma resolve_keywords_witness :
  parseRelativeDate 3600000 1770199200000 "  YesterDay " = "2026-02-03".
Proof.
  destruct (resolve_keywords 3600000 1770199200000 "  YesterDay ")
    as (_ & H & _).
  - unfold clock_in_range. vm_compute. discriminate.
  - apply H. reflexivity.
Defined.

(** X13. Letter case and surrounding white space do not matter for a
    keyword or a phrase: two inputs with the same normal form, that being
    a keyword, an [ago] phrase or a weekday phrase, resolve alike. *)
Theorem resolve_normal_form (tz now : Z) (a b : string) :
  trim (toLowerCase a) = trim (toLowerCase b) ->
  KeywordForm (trim (toLowerCase a)) \/ AgoForm (trim (toLowerCase a)) \/
  WeekdayForm (trim (toLowerCase a)) ->
  parseRelativeDate tz now a = parseRelativeDate tz now b.
Proof.
  intros E F.
  assert (forall s, trim (toLowerCase s) = trim (toLowerCase a) ->
            isoDateRe s = false) as NI.
  { intros s Es. destruct (isoDateRe s) eqn:I; [|reflexivity].
    destruct (iso_no_phrase s I) as (K & A & D). rewrite Es in *.
    destruct F as [F|[F|F]].
    - contradiction.
    - destruct F as (ds & w1 & u & pl & w2 & Fe & ? & ? & ? & ? & ? & ?).
      rewrite Fe, agoRe_complete in A by assumption. discriminate.
    - destruct F as (m & w1 & d & Fe & ? & ? & ?).
      rewrite Fe, weekdayRe_complete in D by assumption. discriminate. }
  pose proof (NI a eq_refl) as Ia. pose proof (NI b (eq_sym E)) as Ib.
  unfold parseRelativeDate. rewrite Ia, Ib, <- E.
  set (n := trim (toLowerCase a)) in *.
  destruct (String.eqb n "today" || String.eqb n "now") eqn:K1; [reflexivity|].
  destruct (String.eqb n "yesterday") eqn:K2; [reflexivity|].
  destruct (String.eqb n "tomorrow") eqn:K3; [reflexivity|].
  apply orb_false_iff in K1 as [K0 K1].
  assert (~ KeywordForm n) as NK.
  { apply String.eqb_neq in K0, K1, K2, K3.
    unfold KeywordForm. simpl. intuition congruence. }
  destruct (agoRe n) as [[g u]|] eqn:A.
  { pose proof A as (_ & Hu & _)%agoRe_sound. cbv beta iota zeta.
    simpl in Hu. destruct Hu as [<-|[<-|[<-|[]]]]; reflexivity. }
  destruct (weekdayRe n) as [[m d]|] eqn:D; [reflexivity|].
  exfalso. destruct F as [F|[F|F]].
  - contradiction.
  - destruct F as (ds & w1 & u & pl & w2 & F & ? & ? & ? & ? & ? & ?).
    rewrite F, agoRe_complete in A by assumption. discriminate.
  - destruct F as (m & w1 & d & F & ? & ? & ?).
    rewrite F, weekdayRe_complete in D by assumption. discriminate.
Qed.

Lemma resolve_normal_form_witness :
  parseRelativeDate 3600000 1770199200000 " LAST Monday"
  = parseRelativeDate 3600000 1770199200000 "last monday  ".
Proof.
  apply resolve_normal_form; [reflexivity|].
  right; right. exists "last", " ", "monday".
  repeat split; simpl; auto 10; discriminate.
Defined.

(** X14. A week is seven days: [N weeks ago] resolves as [7N days ago]. *)
Theorem resolve_weeks_as_days (tz now N : Z) :
  0 <= N ->
  parseRelativeDate tz now (show_Z N ++ " weeks ago")
  = parseRelativeDate tz now (show_Z (7 * N) ++ " days ago").
Proof.
  intros HN.
  rewrite (ago_phrase tz now N " weeks ago" "week");
    [ | assumption | simpl; lia | reflexivity | reflexivity | reflexivity | ].
  - rewrite (ago_phrase tz now (7 * N) " days ago" "day");
      [ | lia | simpl; lia | reflexivity | reflexivity | reflexivity | ].
    + simpl. do 3 f_equal. lia.
    + intros ds ? ?.
      exact (agoRe_complete ds " " "day" "s" " " ltac:(assumption)
               ltac:(assumption) ltac:(split; [discriminate | reflexivity])
               ltac:(simpl; auto) ltac:(auto)
               ltac:(split; [discriminate | reflexivity])).
  - intros ds ? ?.
    exact (agoRe_complete ds " " "week" "s" " " ltac:(assumption)
             ltac:(assumption) ltac:(split; [discriminate | reflexivity])
             ltac:(simpl; auto) ltac:(auto)
             ltac:(split; [discriminate | reflexivity])).
Qed.

Lemma resolve_weeks_as_days_witness :
  parseRelativeDate 3600000 1770199200000 "2 weeks ago"
  = parseRelativeDate 3600000 1770199200000 "14 days ago".
Proof. apply (resolve_weeks_as_days 3600000 1770199200000 2). lia. Defined.

Lemma digit_cases c :
  is_digit c = true ->
  exists d, forall o, uint_of_char c (Some o) = Some (d o).
Proof.
  destruct c as [[] [] [] [] [] [] [] []]; try discriminate; intros _;
    eexists; intros o; reflexivity.
Qed.

Lemma uint_of_string_digits s :
  all is_digit s = true -> exists d, NilEmpty.uint_of_string s = Some d.
Proof.
  induction s as [|c s IH]; [eexists; reflexivity|]. simpl.
  intros [Hc Hs]%andb_true_iff.
  destruct (IH Hs) as [d ->]. destruct (digit_cases c Hc) as [f Hf].
  rewrite Hf. eauto.
Qed.

(** [parseInt] of a non-empty run of digits is a non-negative integer. *)
Lemma parseInt_digits ds :
  ds <> "" -> all is_digit ds = true -> exists n, 0 <= n /\ parseInt ds = Int n.
Proof.
  intros Hn Hd. destruct (uint_of_string_digits ds Hd) as [d E].
  unfold parseInt. rewrite E.
  destruct (String.eqb_spec ds ""); [contradiction|].
  eexists. split; [|reflexivity]. lia.
Qed.

Lemma starts_digit_not_keyword ds r k :
  ds <> "" -> all is_digit ds = true ->
  In k ["today"; "now"; "yesterday"; "tomorrow"] ->
  String.eqb (ds ++ r) k = false.
Proof.
  intros Hn Hd Hk. apply String.eqb_neq. intros E.
  destruct ds as [|c ds]; [contradiction|]. simpl in Hd.
  apply andb_true_iff in Hd as [Hc _]. rewrite append_cons in E.
  simpl in Hk. decompose [or] Hk; try contradiction;
    match goal with Q : _ = k |- _ => rewrite <- Q in E end;
    injection E as -> _; discriminate.
Qed.

Lemma resolve_ago_general tz now input g u :
  isoDateRe input = false ->
  agoRe (trim (toLowerCase input)) = Some (g, u) ->
  parseRelativeDate tz now input =
    if String.eqb u "day"
    then formatDate tz (addDays tz (setHours0 tz (Int now)) (num_neg (parseInt g)))
    else if String.eqb u "week"
    then formatDate tz (addDays tz (setHours0 tz (Int now))
                          (num_mul (num_neg (parseInt g)) (Int 7)))
    else formatDate tz (addMonths tz (setHours0 tz (Int now)) (num_neg (parseInt g))).
Proof.
  intros I A. unfold parseRelativeDate. rewrite I, A.
  pose proof A as ((ds & w1 & u' & pl & w2 & E & Hn & Hd & _) & Hu & _)%agoRe_sound.
  rewrite E.
  rewrite !(starts_digit_not_keyword ds _ _ Hn Hd) by (simpl; auto 10).
  cbv beta iota zeta. simpl orb. cbv iota.
  simpl in Hu. destruct Hu as [<-|[<-|[<-|[]]]]; reflexivity.
Qed.

Lemma lower_space c : is_space c = true -> lower_char c = c.
Proof.
  unfold is_space, lower_char. intros H. cbv zeta.
  rewrite !orb_true_iff, !andb_true_iff, !Z.leb_le, !Z.eqb_eq in H.
  destruct (_ || _) eqn:E; [|reflexivity].
  rewrite !orb_true_iff, !andb_true_iff, !Z.leb_le in E. lia.
Qed.

Lemma toLowerCase_blank w : all is_space w = true -> toLowerCase w = w.
Proof.
  induction w as [|c w IH]; [reflexivity|]. simpl.
  intros [Hc Hw]%andb_true_iff. rewrite (lower_space _ Hc), (IH Hw). reflexivity.
Qed.

Lemma ago_variants tz now (ds w1 u pl w2 : string) :
  ds <> "" -> all is_digit ds = true -> blank w1 ->
  In u ["day"; "week"; "month"] -> pl = "" \/ pl = "s" -> blank w2 ->
  exists n,
    0 <= n /\ parseInt ds = Int n /\
    parseRelativeDate tz now (ds ++ w1 ++ u ++ pl ++ w2 ++ "ago")
    = parseRelativeDate tz now (show_Z n ++ " " ++ u ++ "s ago").
Proof.
  intros Hn Hd B1 Hu Hpl B2.
  destruct (parseInt_digits ds Hn Hd) as (n & Pn & En).
  exists n. split; [exact Pn|]. split; [exact En|].
  pose proof (agoRe_complete ds w1 u pl w2 Hn Hd B1 Hu Hpl B2) as A.
  assert (toLowerCase (ds ++ w1 ++ u ++ pl ++ w2 ++ "ago")
          = ds ++ w1 ++ u ++ pl ++ w2 ++ "ago") as Lo.
  { rewrite !toLowerCase_append, toLowerCase_digits by assumption.
    rewrite (toLowerCase_blank w1), (toLowerCase_blank w2)
      by (apply B1 || apply B2).
    simpl in Hu. destruct Hu as [<-|[<-|[<-|[]]]];
      destruct Hpl as [-> | ->]; reflexivity. }
  assert (trim (ds ++ w1 ++ u ++ pl ++ w2 ++ "ago")
          = ds ++ w1 ++ u ++ pl ++ w2 ++ "ago") as Tr.
  { unfold trim. rewrite trimStart_stops by auto using stops_space_digits.
    rewrite <- !append_assoc. rewrite trimEnd_append; [reflexivity|].
    discriminate. }
  assert (isoDateRe (ds ++ w1 ++ u ++ pl ++ w2 ++ "ago") = false) as I.
  { destruct (isoDateRe _) eqn:I; [|reflexivity].
    apply isoDateRe_sound, IsoForm_chars in I.
    rewrite !all_append in I.
    change (fun c => is_digit c || is_dash c) with digit_or_dash in I.
    rewrite (blank_not_digit_or_dash _ B1), andb_false_r in I. discriminate. }
  rewrite (resolve_ago_general tz now _ ds u I) by (rewrite Lo, Tr; exact A).
  rewrite (ago_phrase tz now n (" " ++ u ++ "s ago") u).
  - rewrite En. simpl num_neg. simpl num_mul. reflexivity.
  - exact Pn.
  - simpl in Hu. destruct Hu as [<-|[<-|[<-|[]]]]; simpl; lia.
  - simpl in Hu. destruct Hu as [<-|[<-|[<-|[]]]]; reflexivity.
  - simpl in Hu. destruct Hu as [<-|[<-|[<-|[]]]]; reflexivity.
  - simpl in Hu. destruct Hu as [<-|[<-|[<-|[]]]]; reflexivity.
  - intros ds' ? ?.
    exact (agoRe_complete ds' " " u "s" " " ltac:(assumption)
             ltac:(assumption) ltac:(split; [discriminate | reflexivity])
             Hu ltac:(auto) ltac:(split; [discriminate | reflexivity])).
Qed.

Lemma parseInt_zeros zs n :
  all is_zero zs = true -> 0 <= n -> parseInt (zs ++ show_Z n) = Int n.
Proof.
  intros Hz Hn. induction zs as [|c zs IH].
  - rewrite append_nil_l. apply parseInt_show_Z, Hn.
  - simpl in Hz. apply andb_true_iff in Hz as [Hc Hz].
    apply Ascii.eqb_eq in Hc. subst c. specialize (IH Hz).
    rewrite append_cons. unfold parseInt in *. cbn [NilEmpty.uint_of_string].
    destruct (NilEmpty.uint_of_string (zs ++ show_Z n)) as [d|] eqn:U.
    + assert (String.eqb (zs ++ show_Z n) "" = false) as Ne.
      { apply String.eqb_neq. intros E.
        destruct zs; [|discriminate].
        rewrite append_nil_l in E. exact (show_Z_nonempty n E). }
      rewrite Ne in IH. cbn. exact IH.
    + discriminate.
Qed.

Lemma all_zero_digit zs : all is_zero zs = true -> all is_digit zs = true.
Proof.
  apply all_impl. intros c Hc. apply Ascii.eqb_eq in Hc. subst c. reflexivity.
Qed.

(** X15. In an [ago] phrase the width of the white space, the plural [s]
    and leading zeros of the number do not matter: the phrase with the
    number N resolves as [N units ago] written plainly. *)
Theorem resolve_ago_variants (tz now N : Z) (zs w1 u pl w2 : string) :
  0 <= N -> all is_zero zs = true -> blank w1 ->
  In u ["day"; "week"; "month"] -> pl = "" \/ pl = "s" -> blank w2 ->
  parseRelativeDate tz now (zs ++ show_Z N ++ w1 ++ u ++ pl ++ w2 ++ "ago")
  = parseRelativeDate tz now (show_Z N ++ " " ++ u ++ "s ago").
Proof.
  intros HN Hz B1 Hu Hpl B2.
  assert (zs ++ show_Z N <> "") as Hn.
  { intros E. destruct zs; [|discriminate].
    rewrite append_nil_l in E. exact (show_Z_nonempty N E). }
  assert (all is_digit (zs ++ show_Z N) = true) as Hd
    by (rewrite all_append, (all_zero_digit _ Hz), (show_Z_digits N HN);
        reflexivity).
  destruct (ago_variants tz now (zs ++ show_Z N) w1 u pl w2 Hn Hd B1 Hu Hpl B2)
    as (n & _ & En & E).
  rewrite (parseInt_zeros zs N Hz HN) in En. injection En as <-.
  rewrite <- append_assoc. exact E.
Qed.

Lemma resolve_ago_variants_witness :
  parseRelativeDate 3600000 1770199200000
    ("00" ++ show_Z 7 ++ "   " ++ "day" ++ "" ++ " " ++ "ago")
  = parseRelativeDate 3600000 1770199200000 (show_Z 7 ++ " " ++ "day" ++ "s ago").
Proof.
  apply (resolve_ago_variants 3600000 1770199200000 7 "00" "   " "day" "" " ");
    try (split; [discriminate | reflexivity]);
    try lia; try reflexivity; simpl; auto.
Defined.

(** X16. For every weekday, [this W] is exactly seven days after
    [last W]. *)
Theorem this_is_week_after_last (tz now : Z) (w : Weekday) (W : string) :
  clock_in_range now ->
  toLowerCase W = weekdayName w ->
  exists d,
    parseRelativeDate tz now ("last " ++ W) = canonical d /\
    parseRelativeDate tz now ("this " ++ W) = canonical (d + 7).
Proof.
  intros C HW.
  pose proof (weekday_phrase tz now C "last" W w ltac:(simpl; auto) HW) as L.
  pose proof (weekday_phrase tz now C "this" W w ltac:(simpl; auto) HW) as T.
  cbv zeta in L, T.
  change (String.eqb "last" "last") with true in L.
  change (String.eqb "this" "last") with false in T.
  cbv iota in L, T.
  change ("last" ++ " " ++ W) with ("last " ++ W) in L.
  change ("this" ++ " " ++ W) with ("this " ++ W) in T.
  eexists. split; [exact L|]. rewrite T. f_equal.
  destruct (Z.leb_spec ((localToday tz now + 4) mod 7 - weekdayIndex w) 0),
           (Z.ltb_spec (weekdayIndex w - (localToday tz now + 4) mod 7) 0); lia.
Qed.

Lemma this_is_week_after_last_witness :
  exists d,
    parseRelativeDate 3600000 1770199200000 "last friday" = canonical d /\
    parseRelativeDate 3600000 1770199200000 "this friday" = canonical (d + 7).
Proof.
  apply (this_is_week_after_last 3600000 1770199200000 Friday "friday").
  - unfold clock_in_range. vm_compute. discriminate.
  - reflexivity.
Defined.


Lemma addMonths_midnight tz now k :
  representable (midnight tz now) ->
  addMonths tz (setHours0 tz (Int now)) (Int k) =
  TimeClip (MakeDay (YearFromDay (localToday tz now))
                    (MonthFromDay (localToday tz now) + k)
                    (DateFromDay (localToday tz now)) * msPerDay - tz).
Proof.
  intros R0.
  rewrite setHours0_Int, (TimeClip_in _ R0).
  unfold addMonths, setMonth, getMonth, num_add.
  assert (LocalTime tz (midnight tz now) = localToday tz now * msPerDay) as E
    by (unfold LocalTime, midnight; lia).
  assert (Day (localToday tz now * msPerDay) = localToday tz now) as D
    by (unfold Day; apply Z.div_mul; discriminate).
  assert (TimeWithinDay (localToday tz now * msPerDay) = 0) as T
    by (unfold TimeWithinDay; apply Z.mod_mul; discriminate).
  rewrite E. unfold YearFromTime, MonthFromTime, DateFromTime.
  rewrite D, T. unfold UTC, MakeDate. rewrite Z.add_0_r. reflexivity.
Qed.




Lemma days_phrase tz now N :
  0 <= N ->
  parseRelativeDate tz now (show_Z N ++ " days ago")
  = formatDate tz (addDays tz (setHours0 tz (Int now)) (Int (- N))).
Proof.
  intros HN.
  rewrite (ago_phrase tz now N " days ago" "day");
    [ | assumption | simpl; lia | reflexivity | reflexivity | reflexivity | ].
  - reflexivity.
  - intros ds ? ?.
    exact (agoRe_complete ds " " "day" "s" " " ltac:(assumption)
             ltac:(assumption) ltac:(split; [discriminate | reflexivity])
             ltac:(simpl; auto) ltac:(auto)
             ltac:(split; [discriminate | reflexivity])).
Qed.

(** X18. Beyond the range of [Date] the resolver gives no date: when the
    day N days before the current day cannot be held in a [Date], which is
    so for every N above two hundred million, [N days ago] resolves to the
    text of an invalid date. *)
Theorem resolve_days_ago_out_of_range (tz now N : Z) :
  0 <= N ->
  (~ representable (midnight tz now - N * msPerDay) ->
   parseRelativeDate tz now (show_Z N ++ " days ago") = "NaN-NaN-NaN") /\
  (representable now -> 200000000 < N ->
   parseRelativeDate tz now (show_Z N ++ " days ago") = "NaN-NaN-NaN").
Proof.
  intros HN.
  assert (~ representable (midnight tz now - N * msPerDay) ->
          parseRelativeDate tz now (show_Z N ++ " days ago") = "NaN-NaN-NaN") as A.
  { intros R. rewrite days_phrase by assumption.
    apply formatDate_addDays_out.
    replace (midnight tz now + - N * msPerDay)
      with (midnight tz now - N * msPerDay) by lia. exact R. }
  split; [exact A|].
  intros Rn HN'. apply A. pose proof (midnight_bounds tz now) as B.
  unfold representable, msPerDay, maxTimeValue in *. lia.
Qed.

Lemma resolve_days_ago_out_of_range_witness :
  parseRelativeDate 3600000 1770199200000 "1000000000 days ago" = "NaN-NaN-NaN".
Proof.
  apply (proj2 (resolve_days_ago_out_of_range 3600000 1770199200000
                  1000000000 ltac:(lia))).
  - unfold representable. vm_compute. discriminate.
  - lia.
Defined.

(** ** The handlers beyond the claims *)

Section Handlers.

Context {Json : Type} (W : World Json).

Lemma Legacy_calls name args :
  snd (Legacy.callTool W name args) = [] \/
  exists r, snd (Legacy.callTool W name args) = [r].
Proof.
  unfold Legacy.callTool.
  destruct (negb _ || negb _); [left; reflexivity|].
  unfold Legacy.switch, bind, request, ret, throw.
  repeat match goal with
         | |- context [String.eqb name ?k] => destruct (String.eqb name k)
         end;
    rewrite ?app_nil_l;
    try (right; eexists; destruct (remote W _); reflexivity).
  left. reflexivity.
Qed.

(** X19. No invocation, whatever the tool name and the arguments, makes
    more than one call of the Harvest API, in either revision. *)
Theorem at_most_one_call (name : string) (args : gmap string Value) :
  (length (snd (callTool W name args)) <= 1)%nat /\
  (length (snd (Legacy.callTool W name args)) <= 1)%nat.
Proof.
  split.
  - destruct (in_dec String.eq_dec name registeredTools) as [I|I].
    + destruct (validFor W name args) eqn:V.
      * destruct (resolvedBoth (environ W) args) eqn:C.
        -- destruct (callTool_ok W name args V C) as (r & -> & _). simpl. lia.
        -- rewrite callTool_missing by assumption. simpl. lia.
      * rewrite callTool_invalid by assumption. simpl. lia.
    + rewrite callTool_unknown by assumption. simpl. lia.
  - destruct (Legacy_calls name args) as [-> | [r ->]]; simpl; lia.
Qed.

Lemma callTool_log_time args :
  validFor W "log_time" args = true ->
  resolvedBoth (environ W) args = true ->
  let r :=
    {| client := createClient (resolvedToken (environ W) args)
                              (resolvedAccount (environ W) args);
       method := POST; path := "/time_entries"; params := ∅;
       data :=
         set_prop "project_id" (args !! "project_id")
           (set_prop "task_id" (args !! "task_id")
             (set_prop "spent_date"
                (Some (VStr (dateArg W (args !! "spent_date")
                               (formatDate (zone W) (Int (clock W))))))
               (set_prop "hours" (args !! "hours")
                 (set_prop "notes" (args !! "notes") ∅)))) |} in
  callTool W "log_time" args =
    (match remote W r with
     | inl e => failed (message e)
     | inr res =>
         ok ("Success! Time entry created with ID: " ++ interpolate W res "id")
     end, [r]).
Proof.
  unfold callTool, validFor. rewrite server_lookup. eval_eqb.
  cbn [inputSchema callback]. intros V C. rewrite V.
  pose proof (valid_string args "spent_date" _ V ltac:(simpl; auto 10)) as Vs.
  unfold log_time, bind.
  rewrite getCredentials_ok by assumption. cbn [accessToken accountId].
  rewrite (resolveDate_run W _ _ _ Vs).
  unfold request, ret, newDate. rewrite app_nil_l. cbv zeta.
  destruct (remote W _); reflexivity.
Qed.

Lemma set_prop_lookup k v (m : gmap string Value) j :
  set_prop k v m !! j = if String.eqb j k then
                          (match v with Some _ => v | None => m !! j end)
                        else m !! j.
Proof.
  unfold set_prop. destruct (String.eqb_spec j k) as [->|N]; destruct v;
    rewrite ?lookup_insert_eq, ?lookup_insert_ne by congruence; reflexivity.
Qed.

(** X20. [log_time], with valid arguments and credentials, makes one POST
    to [/time_entries] whose body holds [project_id], [task_id] and
    [hours] as given, [notes] when given, and [spent_date]: the resolved
    argument when one is given, the canonical date of the current local
    day otherwise. The body holds nothing else; in particular it never
    holds the credentials. *)
Theorem log_time_payload (args : gmap string Value) :
  validFor W "log_time" args = true ->
  resolvedBoth (environ W) args = true ->
  exists r,
    snd (callTool W "log_time" args) = [r] /\
    method r = POST /\ path r = "/time_entries" /\ params r = ∅ /\
    (forall k, In k ["project_id"; "task_id"; "hours"; "notes"] ->
       data r !! k = args !! k) /\
    data r !! "spent_date"
      = Some (VStr (dateArg W (args !! "spent_date")
                      (canonical (localToday (zone W) (clock W))))) /\
    (forall k, ~ In k ["project_id"; "task_id"; "spent_date"; "hours"; "notes"] ->
       data r !! k = None).
Proof.
  intros V C. rewrite (callTool_log_time args V C). cbv zeta.
  eexists. split; [reflexivity|]. cbn [method path params data].
  repeat split.
  - intros k Hk. rewrite !set_prop_lookup. simpl in Hk.
    decompose [or] Hk; try contradiction; subst k; eval_eqb;
      rewrite ?lookup_empty;
      repeat match goal with
             | |- context [match ?x with _ => _ end] => destruct x
             end; reflexivity.
  - rewrite !set_prop_lookup. eval_eqb.
    destruct (args !! "project_id"), (args !! "task_id"); reflexivity.
  - intros k Hk. rewrite !set_prop_lookup.
    repeat match goal with
           | |- context [String.eqb k ?j] =>
               destruct (String.eqb_spec k j) as [->|?];
               [destruct Hk; simpl; auto 10|]
           end.
    apply lookup_empty.
Qed.

Lemma valid_number args k schema :
  valid schema args = true -> In (k, required KNumber) schema ->
  exists n, args !! k = Some (VNum n).
Proof.
  unfold valid. rewrite forallb_forall. intros H I.
  specialize (H _ I). simpl in H.
  destruct (args !! k) as [[s|n]|]; eauto; discriminate.
Qed.

Lemma path_inj a b :
  "/time_entries/" ++ show_Z a = "/time_entries/" ++ show_Z b -> a = b.
Proof. intros H. apply String.app_inj in H. apply show_Z_inj, H. Qed.

Lemma callTool_delete_time_entry args :
  validFor W "delete_time_entry" args = true ->
  resolvedBoth (environ W) args = true ->
  let r :=
    {| client := createClient (resolvedToken (environ W) args)
                              (resolvedAccount (environ W) args);
       method := DELETE;
       path := "/time_entries/" ++ show (args !! "time_entry_id");
       params := ∅; data := ∅ |} in
  callTool W "delete_time_entry" args =
    (match remote W r with
     | inl e => failed (message e)
     | inr _ =>
         ok ("Success! Time entry " ++ show (args !! "time_entry_id") ++
             " has been deleted.")
     end, [r]).
Proof.
  unfold callTool, validFor. rewrite server_lookup. eval_eqb.
  cbn [inputSchema callback]. intros V C. rewrite V.
  unfold delete_time_entry, bind.
  rewrite getCredentials_ok by assumption. cbn [accessToken accountId].
  unfold request, ret. rewrite app_nil_l. cbv zeta.
  destruct (remote W _); reflexivity.
Qed.

(** X21. [delete_time_entry], with valid arguments and credentials and an
    identifier that is an integer a JavaScript number holds exactly, makes
    one DELETE, without query or body, to the path of the entry named by
    [time_entry_id], a path no other such identifier gives; when the
    service accepts it the response says that this entry has been
    deleted. *)
Theorem delete_time_entry_call (args : gmap string Value) (id : Z) :
  validFor W "delete_time_entry" args = true ->
  resolvedBoth (environ W) args = true ->
  args !! "time_entry_id" = Some (VNum id) ->
  safeInteger id ->
  exists r,
    snd (callTool W "delete_time_entry" args) = [r] /\
    method r = DELETE /\ path r = "/time_entries/" ++ show_Z id /\
    params r = ∅ /\ data r = ∅ /\
    (forall id', safeInteger id' ->
       path r = "/time_entries/" ++ show_Z id' -> id' = id) /\
    (forall res, remote W r = inr res ->
       fst (callTool W "delete_time_entry" args)
       = ok ("Success! Time entry " ++ show_Z id ++ " has been deleted.")).
Proof.
  intros V C E _. rewrite (callTool_delete_time_entry args V C). cbv zeta.
  rewrite E. cbn [show]. eexists. split; [reflexivity|].
  cbn [snd fst method path params data]. repeat split.
  - intros id' _ H. symmetry. exact (path_inj _ _ H).
  - intros res R. rewrite R. reflexivity.
Qed.

Lemma Legacy_served name args :
  resolvedBoth (environ W) args = true ->
  In name Legacy.tools ->
  exists r, snd (Legacy.callTool W name args) = [r].
Proof.
  unfold resolvedBoth, Legacy.callTool, Legacy.tools.
  fold (resolvedToken (environ W) args) (resolvedAccount (environ W) args).
  intros C I. rewrite <- negb_andb, C. cbn [negb].
  unfold Legacy.switch, bind, request, ret.
  simpl in I. decompose [or] I; try contradiction; subst name; eval_eqb;
    cbv beta; rewrite ?app_nil_l; eexists;
    destruct (remote W _); reflexivity.
Qed.

(** X22. In the earlier revision an announced tool, with credentials at
    hand, makes exactly one call; when that call fails the response is an
    error whose text is [Harvest API Error: ] followed by the message of
    the remote service when it sent a non-empty one and by the message of
    the error otherwise. *)
Theorem Legacy_error_envelope (name : string) (args : gmap string Value) :
  resolvedBoth (environ W) args = true ->
  In name Legacy.tools ->
  exists r,
    snd (Legacy.callTool W name args) = [r] /\
    forall e, remote W r = inl e ->
      fst (Legacy.callTool W name args)
      = failed ("Harvest API Error: " ++
                match response_message e with
                | Some m => if String.eqb m "" then message e else m
                | None => message e
                end).
Proof.
  unfold resolvedBoth, Legacy.callTool, Legacy.tools.
  fold (resolvedToken (environ W) args) (resolvedAccount (environ W) args).
  intros C I. rewrite <- negb_andb, C. cbn [negb].
  unfold Legacy.switch, bind, request, ret.
  simpl in I. decompose [or] I; try contradiction; subst name; eval_eqb;
    cbv beta; rewrite ?app_nil_l; eexists;
    (destruct (remote W _) eqn:R; cbn [snd fst];
     (split; [reflexivity|]); intros e' R'; rewrite R in R';
     [injection R' as <-; reflexivity | discriminate]).
Qed.

(** X23. In the earlier revision the tools announced by the list handler
    are exactly the names its [switch] serves: with credentials at hand a
    call is made if and only if the name is announced, and any other name
    is answered with a tool-not-found error. *)
Theorem Legacy_announced_iff_served (name : string) (args : gmap string Value) :
  resolvedBoth (environ W) args = true ->
  (In name Legacy.tools <-> snd (Legacy.callTool W name args) <> []) /\
  (~ In name Legacy.tools ->
   Legacy.callTool W name args
   = (failed ("Harvest API Error: Tool not found: " ++ name), [])).
Proof.
  intros C. split; [split|].
  - intros I. destruct (Legacy_served name args C I) as (r & ->).
    discriminate.
  - intros N. destruct (in_dec String.eq_dec name Legacy.tools) as [I|I];
      [exact I|].
    rewrite (Legacy_unknown W name args C I) in N. destruct N. reflexivity.
  - apply Legacy_unknown, C.
Qed.

Lemma resolve_not_recognized tz now s :
  ~ Recognized s -> parseRelativeDate tz now s = s.
Proof.
  intros H. rewrite Recognized_iff in H. unfold recognizedb in H.
  cbv zeta in H. apply not_true_is_false in H.
  rewrite !orb_false_iff in H. destruct H as [[[Hi Hk] Ha] Hw].
  apply resolve_unrecognized.
  - exact Hi.
  - unfold KeywordForm. intros K.
    assert (existsb (String.eqb (trim (toLowerCase s)))
              ["today"; "now"; "yesterday"; "tomorrow"] = true) as E.
    { apply existsb_exists. eexists. split; [exact K | apply String.eqb_refl]. }
    congruence.
  - apply bool_decide_eq_false in Ha.
    destruct (agoRe _); [destruct Ha; eauto | reflexivity].
  - apply bool_decide_eq_false in Hw.
    destruct (weekdayRe _); [destruct Hw; eauto | reflexivity].
Qed.

(** X24. [get_time_entries] does not reject a date it cannot resolve: a
    [from] or [to] argument that has none of the recognized forms is sent
    to the service as it was given. *)
Theorem unrecognized_dates_forwarded (args : gmap string Value)
    (k f : string) :
  validFor W "get_time_entries" args = true ->
  resolvedBoth (environ W) args = true ->
  k = "from" \/ k = "to" ->
  args !! k = Some (VStr f) -> f <> "" -> ~ Recognized f ->
  exists r,
    snd (callTool W "get_time_entries" args) = [r] /\
    params r !! k = Some (VStr f).
Proof.
  intros V C Hk E Hf N. exists (timeEntriesQuery W args).
  rewrite callTool_get_time_entries, V, C. cbv zeta.
  split; [reflexivity|].
  destruct (query_params_dates W args) as [Qf Qt].
  destruct Hk as [-> | ->].
  - rewrite Qf. unfold fromDateOf. rewrite E. cbn [dateArg].
    destruct (String.eqb_spec f ""); [contradiction|].
    rewrite resolve_not_recognized by assumption. reflexivity.
  - rewrite Qt. unfold toDateOf. rewrite E. cbn [dateArg].
    destruct (String.eqb_spec f ""); [contradiction|].
    rewrite resolve_not_recognized by assumption. reflexivity.
Qed.

Lemma IsoForm_nonempty f : IsoForm f -> f <> "".
Proof.
  intros (y & m & d & -> & Ly & _). destruct y; [discriminate|].
  rewrite append_cons. discriminate.
Qed.

(** X25. The two revisions agree on canonical dates: for a
    [get_time_entries] invocation whose [from] is a canonical date and
    whose [to] is a canonical date or absent, the current revision makes
    the very calls the earlier one makes. *)
Theorem revisions_agree_on_canonical_dates (args : gmap string Value)
    (f : string) :
  validFor W "get_time_entries" args = true ->
  args !! "from" = Some (VStr f) -> IsoForm f ->
  (args !! "to" = None \/
   exists t, args !! "to" = Some (VStr t) /\ IsoForm t) ->
  snd (callTool W "get_time_entries" args)
  = snd (Legacy.callTool W "get_time_entries" args).
Proof.
  intros V Ef Ff Ht.
  rewrite callTool_get_time_entries, V.
  unfold Legacy.callTool.
  fold (resolvedToken (environ W) args) (resolvedAccount (environ W) args).
  rewrite <- negb_andb. fold (resolvedBoth (environ W) args).
  destruct (resolvedBoth (environ W) args); [|reflexivity].
  cbn [negb]. cbv zeta.
  unfold Legacy.switch, bind, request, ret. eval_eqb. cbv beta.
  rewrite app_nil_l.
  assert (fromDateOf W args = f) as EF.
  { unfold fromDateOf. rewrite Ef. cbn [dateArg].
    destruct (String.eqb_spec f ""); [destruct (IsoForm_nonempty f Ff); auto|].
    apply resolve_iso, isoDateRe_complete, Ff. }
  assert (or_else (args !! "from") (Some (VStr (toISODate (clock W))))
          = Some (VStr f)) as LF.
  { unfold or_else. rewrite Ef. cbn [truthy].
    destruct (String.eqb_spec f ""); [destruct (IsoForm_nonempty f Ff); auto|].
    reflexivity. }
  assert (or_else (args !! "to") (Some (VStr f))
          = Some (VStr (toDateOf W args))) as LT.
  { unfold toDateOf. rewrite EF. unfold or_else.
    destruct Ht as [-> | (t & -> & Ft)]; [reflexivity|]. cbn [truthy dateArg].
    destruct (String.eqb_spec t ""); [destruct (IsoForm_nonempty t Ft); auto|].
    cbn [negb]. rewrite resolve_iso by (apply isoDateRe_complete, Ft).
    reflexivity. }
  rewrite LF, LT. unfold timeEntriesQuery. rewrite EF. cbn [set_prop].
  repeat match goal with
         | |- context [remote W ?r] => destruct (remote W r)
         end; reflexivity.
Qed.

Lemma insert_lookup_str (m : gmap string Value) k v j :
  (<[k := v]> m) !! j = if String.eqb j k then Some v else m !! j.
Proof.
  destruct (String.eqb_spec j k) as [->|N];
    rewrite ?lookup_insert_eq, ?lookup_insert_ne by congruence; reflexivity.
Qed.

(** X26. The credentials travel in the headers only: no call of any tool,
    in either revision, carries [access_token] or [account_id] in its
    query parameters or in its body. *)
Theorem credentials_not_in_query_or_body (name : string)
    (args : gmap string Value) (r : Request) (k : string) :
  In r (snd (callTool W name args)) \/
  In r (snd (Legacy.callTool W name args)) ->
  k = "access_token" \/ k = "account_id" ->
  params r !! k = None /\ data r !! k = None.
Proof.
  intros [H|H] Hk.
  - destruct (in_dec String.eq_dec name registeredTools) as [I|I];
      [| rewrite callTool_unknown in H by assumption; destruct H].
    destruct (validFor W name args) eqn:V;
      [| rewrite callTool_invalid in H by assumption; destruct H].
    destruct (resolvedBoth (environ W) args) eqn:C;
      [| rewrite callTool_missing in H by assumption; destruct H].
    simpl in I. decompose [or] I; try contradiction; subst name.
    + revert H. unfold callTool. revert V. unfold validFor.
      rewrite server_lookup. eval_eqb. cbn [inputSchema callback].
      intros ->. unfold get_my_profile, bind.
      rewrite getCredentials_ok by assumption.
      unfold request, ret. rewrite app_nil_l.
      destruct (remote W _); intros [<-|[]]; cbn [params data];
        rewrite lookup_empty; auto.
    + revert H. unfold callTool. revert V. unfold validFor.
      rewrite server_lookup. eval_eqb. cbn [inputSchema callback].
      intros ->. unfold list_active_projects, bind.
      rewrite getCredentials_ok by assumption.
      unfold request, ret. rewrite app_nil_l.
      destruct (remote W _); intros [<-|[]]; cbn [params data];
        rewrite lookup_empty; auto.
    + rewrite (callTool_log_time args V C) in H. cbv zeta in H.
      destruct H as [<-|[]]. cbn [params data].
      rewrite lookup_empty, !set_prop_lookup.
      destruct Hk as [-> | ->]; eval_eqb; rewrite lookup_empty; auto.
    + rewrite callTool_get_time_entries, V, C in H. cbv zeta in H.
      destruct H as [<-|[]]. unfold timeEntriesQuery. cbn [params data].
      rewrite lookup_empty. split; [|reflexivity].
      destruct (truthy (args !! "project_id")), (truthy (args !! "user_id"));
        rewrite ?set_prop_lookup, !insert_lookup_str, lookup_empty;
        destruct Hk as [-> | ->]; eval_eqb; reflexivity.
    + rewrite (callTool_delete_time_entry args V C) in H. cbv zeta in H.
      destruct H as [<-|[]]. cbn [params data]. rewrite lookup_empty. auto.
  - revert H. unfold Legacy.callTool.
    destruct (negb _ || negb _); [intros []|].
    unfold Legacy.switch, bind, request, ret, throw.
    repeat match goal with
           | |- context [String.eqb name ?j] => destruct (String.eqb name j)
           end;
      rewrite ?app_nil_l; try (intros []);
      (destruct (remote W _); intros [<-|[]]; cbn [params data];
       rewrite ?lookup_empty; split; try reflexivity).
    + rewrite !set_prop_lookup.
      destruct Hk as [-> | ->]; eval_eqb; rewrite lookup_empty; reflexivity.
    + rewrite !set_prop_lookup.
      destruct Hk as [-> | ->]; eval_eqb; rewrite lookup_empty; reflexivity.
    + destruct (truthy (args !! "project_id")), (truthy (args !! "user_id"));
        rewrite !set_prop_lookup;
        destruct Hk as [-> | ->]; eval_eqb; rewrite lookup_empty; reflexivity.
    + destruct (truthy (args !! "project_id")), (truthy (args !! "user_id"));
        rewrite !set_prop_lookup;
        destruct Hk as [-> | ->]; eval_eqb; rewrite lookup_empty; reflexivity.
Qed.

(** X27. In the earlier revision [log_time], with credentials at hand,
    makes one POST to [/time_entries] whose body holds [project_id],
    [task_id], [hours] and [notes] as given and a [spent_date] that is the
    argument as given, unresolved, or the UTC date of the clock when the
    argument is absent or empty. *)
Theorem Legacy_log_time_payload (args : gmap string Value) :
  resolvedBoth (environ W) args = true ->
  exists r,
    snd (Legacy.callTool W "log_time" args) = [r] /\
    method r = POST /\ path r = "/time_entries" /\ params r = ∅ /\
    (forall k, In k ["project_id"; "task_id"; "hours"; "notes"] ->
       data r !! k = args !! k) /\
    data r !! "spent_date"
      = (if truthy (args !! "spent_date") then args !! "spent_date"
         else Some (VStr (toISODate (clock W)))).
Proof.
  unfold resolvedBoth, Legacy.callTool.
  fold (resolvedToken (environ W) args) (resolvedAccount (environ W) args).
  intros C. rewrite <- negb_andb, C. cbn [negb].
  unfold Legacy.switch, bind, request, ret. eval_eqb. cbv beta.
  rewrite app_nil_l. eexists.
  destruct (remote W _); cbn [snd]; (split; [reflexivity|]);
    cbn [method path params data]; repeat split;
    try (intros k Hk; rewrite !set_prop_lookup; simpl in Hk;
         decompose [or] Hk; try contradiction; subst k; eval_eqb;
         rewrite ?lookup_empty;
         repeat match goal with
                | |- context [match ?x with _ => _ end] => destruct x eqn:?
                end; congruence);
    try (rewrite !set_prop_lookup; eval_eqb; unfold or_else;
         destruct (truthy (args !! "spent_date")) eqn:T;
         destruct (args !! "project_id"), (args !! "task_id");
         destruct (args !! "spent_date"); try discriminate; reflexivity).
Qed.

Lemma today_is_default now tz :
  representable (midnight tz now) ->
  parseRelativeDate tz now "today" = formatDate tz (Int now).
Proof.
  intros R. rewrite (resolve_today tz now "today" eq_refl (or_introl eq_refl)).
  rewrite setHours0_Int, (TimeClip_in _ R), !formatDate_Int. f_equal.
  pose proof (Day_midnight tz now 0) as D.
  rewrite Z.mul_0_l, !Z.add_0_r in D. exact D.
Qed.

(** X28. Leaving [from] out of [get_time_entries] is the same as asking
    for [today]: both invocations give the same response and make the same
    call. *)
Theorem omitted_from_is_today (args : gmap string Value) :
  representable (midnight (zone W) (clock W)) ->
  callTool W "get_time_entries" (delete "from" args)
  = callTool W "get_time_entries" (<["from" := VStr "today"]> args).
Proof.
  intros R.
  assert (forall j, j <> "from" ->
            (<["from" := VStr "today"]> args) !! j = (delete "from" args) !! j)
    as Other
    by (intros j Hj; rewrite lookup_insert_ne, lookup_delete_ne by congruence;
        reflexivity).
  assert ((delete "from" args) !! "from" = None) as Dk by apply lookup_delete_eq.
  assert ((<["from" := VStr "today"]> args) !! "from" = Some (VStr "today"))
    as Ik by apply lookup_insert_eq.
  rewrite !callTool_get_time_entries.
  assert (validFor W "get_time_entries" (<["from" := VStr "today"]> args)
          = validFor W "get_time_entries" (delete "from" args)) as ->.
  { unfold validFor. rewrite server_lookup. eval_eqb.
    unfold valid, credentialSchema, optional.
    cbn [inputSchema app forallb fst snd].
    rewrite Ik, Dk, !Other by discriminate. reflexivity. }
  assert (resolvedBoth (environ W) (<["from" := VStr "today"]> args)
          = resolvedBoth (environ W) (delete "from" args)) as ->.
  { unfold resolvedBoth, resolvedToken, resolvedAccount.
    rewrite !Other by discriminate. reflexivity. }
  assert (fromDateOf W (<["from" := VStr "today"]> args)
          = fromDateOf W (delete "from" args)) as F.
  { unfold fromDateOf. rewrite Ik, Dk. cbn [dateArg].
    change (String.eqb "today" "") with false. cbv iota.
    apply today_is_default, R. }
  assert (toDateOf W (<["from" := VStr "today"]> args)
          = toDateOf W (delete "from" args)) as T.
  { unfold toDateOf. rewrite F, !Other by discriminate. reflexivity. }
  assert (timeEntriesQuery W (<["from" := VStr "today"]> args)
          = timeEntriesQuery W (delete "from" args)) as ->.
  { unfold timeEntriesQuery, resolvedToken, resolvedAccount. rewrite F, T.
    rewrite !Other by discriminate. reflexivity. }
  rewrite F, T. reflexivity.
Qed.

End Handlers.

Lemma log_time_payload_witness :
  exists r,
    snd (callTool (sampleWorld fullEnv) "log_time" logTimeArgs) = [r] /\
    data r !! "spent_date" = Some (VStr "2026-02-04") /\
    data r !! "access_token" = None.
Proof.
  destruct (log_time_payload (sampleWorld fullEnv) logTimeArgs)
    as (r & Hr & _ & _ & _ & _ & Hd & Hn); try (vm_compute; reflexivity).
  exists r. split; [exact Hr|]. split; [exact Hd|].
  apply Hn. simpl. intros H. decompose [or] H; try discriminate; contradiction.
Defined.

Lemma delete_time_entry_call_witness :
  exists r,
    snd (callTool (sampleWorld fullEnv) "delete_time_entry" deleteArgs) = [r] /\
    method r = DELETE /\ path r = "/time_entries/42".
Proof.
  destruct (delete_time_entry_call (sampleWorld fullEnv) deleteArgs 42)
    as (r & H1 & H2 & H3 & _).
  - vm_compute. reflexivity.
  - vm_compute. reflexivity.
  - vm_compute. reflexivity.
  - unfold safeInteger. vm_compute. discriminate.
  - exists r. repeat split; assumption.
Defined.

Lemma Legacy_error_envelope_witness :
  exists r,
    snd (Legacy.callTool failingWorld "get_my_profile" ∅) = [r] /\
    fst (Legacy.callTool failingWorld "get_my_profile" ∅)
    = failed "Harvest API Error: Invalid token".
Proof.
  destruct (Legacy_error_envelope failingWorld "get_my_profile" ∅)
    as (r & Hr & He); [vm_compute; reflexivity | simpl; auto |].
  exists r. split; [exact Hr|].
  exact (He _ eq_refl).
Defined.

Lemma Legacy_announced_iff_served_witness :
  Legacy.callTool (sampleWorld fullEnv) "delete_time_entry" deleteArgs
  = (failed "Harvest API Error: Tool not found: delete_time_entry", []).
Proof.
  apply (Legacy_announced_iff_served (sampleWorld fullEnv)
           "delete_time_entry" deleteArgs).
  - vm_compute. reflexivity.
  - simpl. intros H. decompose [or] H; try discriminate; contradiction.
Defined.

Lemma unrecognized_dates_forwarded_witness :
  exists r,
    snd (callTool (sampleWorld fullEnv) "get_time_entries" bananaArgs) = [r] /\
    params r !! "from" = Some (VStr "banana").
Proof.
  apply (unrecognized_dates_forwarded (sampleWorld fullEnv) bananaArgs
           "from" "banana").
  - vm_compute. reflexivity.
  - vm_compute. reflexivity.
  - left. reflexivity.
  - reflexivity.
  - discriminate.
  - rewrite Recognized_iff. vm_compute. discriminate.
Defined.

Lemma revisions_agree_on_canonical_dates_witness :
  snd (callTool (sampleWorld fullEnv) "get_time_entries" rangeArgs)
  = snd (Legacy.callTool (sampleWorld fullEnv) "get_time_entries" rangeArgs).
Proof.
  apply (revisions_agree_on_canonical_dates (sampleWorld fullEnv) rangeArgs
           "2026-02-01").
  - vm_compute. reflexivity.
  - reflexivity.
  - exists "2026", "02", "01". repeat split; reflexivity.
  - right. exists "2026-02-05". split; [reflexivity|].
    exists "2026", "02", "05". repeat split; reflexivity.
Defined.

Lemma credentials_not_in_query_or_body_witness :
  List.Forall (fun r => params r !! "access_token" = None /\
                        data r !! "access_token" = None)
    (snd (callTool (sampleWorld noEnv) "get_time_entries" explicitArgs)).
Proof.
  apply List.Forall_forall. intros r Hr.
  exact (credentials_not_in_query_or_body (sampleWorld noEnv)
           "get_time_entries" explicitArgs r "access_token"
           (or_introl Hr) (or_introl eq_refl)).
Defined.

(** X29. The default date of the earlier revision is the UTC date, that
    of the current revision the local date: in the years 1000 to 9999 the
    earlier default is the canonical date of the UTC day, and the two
    defaults are the same exactly when the local day is the UTC day. *)
Theorem legacy_default_is_utc_date (tz now : Z) :
  1000 <= YearFromTime now <= 9999 ->
  toISODate now = canonical (Day now) /\
  isoDateRe (toISODate now) = true /\
  (toISODate now = formatDate tz (Int now) <-> Day now = localToday tz now).
Proof.
  intros H.
  assert (toISODate now = canonical (Day now)) as E.
  { unfold toISODate, canonical, YearFromTime, MonthFromTime, DateFromTime in *.
    destruct (show_Z_four_digits _ H) as [L _].
    replace ((0 <=? YearFromDay (Day now)) && (YearFromDay (Day now) <=? 9999))
      with true by (symmetry; apply andb_true_iff; lia).
    unfold padStart at 1. rewrite L. reflexivity. }
  split; [exact E|]. split.
  - rewrite E. apply isoDateRe_complete, canonical_IsoForm, H.
  - rewrite E, formatDate_Int. unfold localToday, LocalTime. split.
    + apply canonical_inj.
    + intros ->. reflexivity.
Qed.

Lemma legacy_default_is_utc_date_witness :
  toISODate 1770247800000 = "2026-02-04" /\
  formatDate 3600000 (Int 1770247800000) = "2026-02-05".
Proof.
  destruct (legacy_default_is_utc_date 3600000 1770247800000) as (E & _ & _).
  - vm_compute. split; discriminate.
  - split; [exact E | reflexivity].
Defined.

Lemma Legacy_log_time_payload_witness :
  exists r,
    snd (Legacy.callTool (sampleWorld fullEnv) "log_time" relativeLogArgs) = [r] /\
    data r !! "spent_date" = Some (VStr "yesterday").
Proof.
  destruct (Legacy_log_time_payload (sampleWorld fullEnv) relativeLogArgs)
    as (r & Hr & _ & _ & _ & _ & Hd); [vm_compute; reflexivity|].
  exists r. split; [exact Hr | exact Hd].
Defined.

Lemma omitted_from_is_today_witness :
  callTool (sampleWorld fullEnv) "get_time_entries" (delete "from" rangeArgs)
  = callTool (sampleWorld fullEnv) "get_time_entries"
      (<["from" := VStr "today"]> rangeArgs).
Proof.
  apply omitted_from_is_today. unfold representable. vm_compute. discriminate.
Defined.

(** ** The filters of [get_time_entries] *)

Lemma resolvedBoth_other {Json : Type} (W : World Json)
    (args : gmap string Value) k v :
  k = "project_id" \/ k = "user_id" ->
  resolvedBoth (environ W) (<[k := v]> args) = resolvedBoth (environ W) args.
Proof.
  unfold resolvedBoth, resolvedToken, resolvedAccount.
  intros [-> | ->]; rewrite !lookup_insert_ne by discriminate; reflexivity.
Qed.

Lemma query_params_other {Json : Type} (W : World Json)
    (args : gmap string Value) j :
  ~ In j ["from"; "to"; "project_id"; "user_id"] ->
  params (timeEntriesQuery W args) !! j = None.
Proof.
  intros N. unfold timeEntriesQuery. cbn [params].
  assert (String.eqb j "from" = false /\ String.eqb j "to" = false /\
          String.eqb j "project_id" = false /\ String.eqb j "user_id" = false)
    as (E1 & E2 & E3 & E4)
    by (repeat split; apply String.eqb_neq; intros ->; apply N; simpl; auto).
  destruct (truthy (args !! "project_id")), (truthy (args !! "user_id"));
    rewrite ?set_prop_lookup, ?E3, ?E4, ?set_prop_lookup, ?E3, ?E4,
      !insert_lookup_str, E1, E2;
    apply lookup_empty.
Qed.

(** C10. In [get_time_entries] a [project_id] or [user_id] of 0 gives the
    same response and the same call as leaving the argument out, in both
    revisions; with valid arguments and credentials that call is made,
    one GET of [/time_entries] whose query holds the two dates and not
    the filter. In general the one query carries each of the two filters
    exactly when the value of its argument is truthy, and nothing besides
    the dates and the filters. *)
Theorem C10_falsy_filters {Json : Type} (W : World Json)
    (args : gmap string Value) (k : string) :
  k = "project_id" \/ k = "user_id" ->
  callTool W "get_time_entries" (<[k := VNum 0]> args)
    = callTool W "get_time_entries" (delete k args) /\
  Legacy.callTool W "get_time_entries" (<[k := VNum 0]> args)
    = Legacy.callTool W "get_time_entries" (delete k args) /\
  (validFor W "get_time_entries" (<[k := VNum 0]> args) = true ->
   resolvedBoth (environ W) args = true ->
   exists r,
     snd (callTool W "get_time_entries" (<[k := VNum 0]> args)) = [r] /\
     snd (callTool W "get_time_entries" (delete k args)) = [r] /\
     method r = GET /\ path r = "/time_entries" /\
     params r !! k = None /\
     params r !! "from" = Some (VStr (fromDateOf W (delete k args))) /\
     params r !! "to" = Some (VStr (toDateOf W (delete k args)))) /\
  (validFor W "get_time_entries" args = true ->
   resolvedBoth (environ W) args = true ->
   exists r,
     snd (callTool W "get_time_entries" args) = [r] /\
     method r = GET /\ path r = "/time_entries" /\
     (forall j, j = "project_id" \/ j = "user_id" ->
        params r !! j = if truthy (args !! j) then args !! j else None) /\
     (forall j, ~ In j ["from"; "to"; "project_id"; "user_id"] ->
        params r !! j = None)) /\
  (forall r j,
     In r (snd (callTool W "get_time_entries" args)) ->
     j = "project_id" \/ j = "user_id" ->
     params r !! j = if truthy (args !! j) then args !! j else None) /\
  (resolvedBoth (environ W) args = true ->
   exists r,
     snd (Legacy.callTool W "get_time_entries" args) = [r] /\
     method r = GET /\ path r = "/time_entries" /\
     (forall j, j = "project_id" \/ j = "user_id" ->
        params r !! j = if truthy (args !! j) then args !! j else None)).
Proof.
  intros Hk.
  pose proof (falsy_filter_same W args k Hk) as Same.
  split; [exact Same|].
  split; [apply Legacy_falsy_filter_same, Hk|].
  split; [|split; [|split]].
  - intros V C. rewrite <- Same.
    rewrite <- (resolvedBoth_other W args k (VNum 0) Hk) in C.
    rewrite callTool_get_time_entries, V, C. cbv zeta. cbn [snd].
    eexists. split; [reflexivity|]. split; [reflexivity|].
    split; [reflexivity|]. split; [reflexivity|].
    assert (fromDateOf W (<[k := VNum 0]> args) = fromDateOf W (delete k args))
      as F.
    { unfold fromDateOf.
      destruct Hk as [-> | ->];
        rewrite lookup_insert_ne, lookup_delete_ne by discriminate;
        reflexivity. }
    assert (toDateOf W (<[k := VNum 0]> args) = toDateOf W (delete k args))
      as T.
    { unfold toDateOf. rewrite F.
      destruct Hk as [-> | ->];
        rewrite lookup_insert_ne, lookup_delete_ne by discriminate;
        reflexivity. }
    rewrite <- F, <- T.
    destruct (query_params_dates W (<[k := VNum 0]> args)) as [Qf Qt].
    rewrite (query_params_filter W _ k Hk), lookup_insert_eq.
    repeat split; assumption.
  - intros V C. rewrite callTool_get_time_entries, V, C. cbv zeta. cbn [snd].
    eexists. split; [reflexivity|]. split; [reflexivity|].
    split; [reflexivity|]. split.
    + intros j. apply query_params_filter.
    + intros j. apply query_params_other.
  - intros r j. rewrite callTool_get_time_entries.
    destruct (validFor W "get_time_entries" args); [|intros []].
    destruct (resolvedBoth (environ W) args); [|intros []].
    cbv zeta. intros [<-|[]]. apply query_params_filter.
  - unfold resolvedBoth, Legacy.callTool.
    fold (resolvedToken (environ W) args) (resolvedAccount (environ W) args).
    intros C. rewrite <- negb_andb, C. cbn [negb].
    unfold Legacy.switch, bind, request, ret. eval_eqb. cbv beta zeta.
    rewrite ?app_nil_l. eexists.
    destruct (remote W _); cbn [snd]; (split; [reflexivity|]);
      cbn [method path params]; (split; [reflexivity|]);
      (split; [reflexivity|]);
      intros ? Hj;
      destruct (truthy (args !! "project_id")) eqn:P,
               (truthy (args !! "user_id")) eqn:U;
      rewrite !set_prop_lookup;
      destruct Hj as [-> | ->]; eval_eqb; rewrite ?P, ?U, ?lookup_empty;
      repeat match goal with
             | |- context [match ?x with _ => _ end] => destruct x eqn:?
             end; try reflexivity; try discriminate.
Qed.

Lemma C10_witness :
  exists r,
    snd (callTool (sampleWorld fullEnv) "get_time_entries"
           (<["project_id" := VNum 0]> sinceYesterday)) = [r] /\
    snd (callTool (sampleWorld fullEnv) "get_time_entries"
           (delete "project_id" sinceYesterday)) = [r] /\
    params r !! "project_id" = None /\
    params r !! "from" = Some (VStr "2026-02-03") /\
    params r !! "to" = Some (VStr "2026-02-03").
Proof.
  destruct (C10_falsy_filters (sampleWorld fullEnv) sinceYesterday
              "project_id" (or_introl eq_refl))
    as (_ & _ & H & _).
  destruct H as (r & H1 & H2 & _ & _ & H3 & H4 & H5).
  - vm_compute. reflexivity.
  - vm_compute. reflexivity.
  - exists r. repeat split; assumption.
Defined.

(** ** [N days ago] and [N weeks ago], over every N *)

Lemma representable_dec t : representable t \/ ~ representable t.
Proof. unfold representable. lia. Qed.

Lemma weeks_phrase tz now N :
  0 <= N ->
  parseRelativeDate tz now (show_Z N ++ " weeks ago")
  = formatDate tz (addDays tz (setHours0 tz (Int now)) (Int (- (7 * N)))).
Proof.
  intros HN.
  rewrite (ago_phrase tz now N " weeks ago" "week");
    [ simpl; do 3 f_equal; lia | assumption | simpl; lia | reflexivity
    | reflexivity | reflexivity | ].
  intros ds ? ?.
  exact (agoRe_complete ds " " "week" "s" " " ltac:(assumption)
           ltac:(assumption) ltac:(split; [discriminate | reflexivity])
           ltac:(simpl; auto) ltac:(auto)
           ltac:(split; [discriminate | reflexivity])).
Qed.

Lemma isoDate_canonical d :
  1000 <= YearFromDay d <= 9999 -> isoDate d = canonical d.
Proof.
  intros Hy. unfold isoDate, canonical, padStart.
  destruct (show_Z_four_digits _ Hy) as [-> _]. reflexivity.
Qed.

(** The day [k] days from the current local day, as the resolver prints
    it: its canonical date inside the range of [Date], the text of an
    invalid date outside. *)
Lemma days_from_today tz now k :
  representable now -> k <= 0 ->
  (representable (midnight tz now + k * msPerDay) ->
   formatDate tz (addDays tz (setHours0 tz (Int now)) (Int k))
   = canonical (localToday tz now + k)) /\
  (~ representable (midnight tz now + k * msPerDay) ->
   formatDate tz (addDays tz (setHours0 tz (Int now)) (Int k))
   = "NaN-NaN-NaN").
Proof.
  intros Rn Hk. split.
  - intros R. apply formatDate_addDays; [|exact R].
    pose proof (midnight_bounds tz now) as B.
    unfold representable, msPerDay, maxTimeValue in *. lia.
  - apply formatDate_addDays_out.
Qed.

(** C7, as stated, fails: a thousand million days back is beyond the
    range of [Date] and the result is the text of an invalid date, and
    374778 days before 4 February 2026 the year has three digits and is
    printed with three, where the canonical form of that day has four. *)
Lemma C7_counterexample :
  parseRelativeDate 3600000 1770199200000 "1000000000 days ago"
    = "NaN-NaN-NaN" /\
  isoDateRe "NaN-NaN-NaN" = false /\
  parseRelativeDate 3600000 1770199200000 "374778 days ago" = "999-12-27" /\
  isoDate (localToday 3600000 1770199200000 - 374778) = "0999-12-27" /\
  isoDateRe "999-12-27" = false.
Proof. vm_compute. repeat split. Qed.

(** C7, amended. For every non-negative integer N whose day, N days
    before the current local date, is within the range a [Date] can hold,
    the result for [N days ago] is the date of that day as [formatDate]
    prints it (the year as it is, month and day with two digits), which is
    the canonical [YYYY-MM-DD] date of that day when its year is 1000 to
    9999; for every other N the result is the text [NaN-NaN-NaN]. The same
    holds of [N weeks ago] with the day 7 N days before the current local
    date. *)
Theorem C7_ago_arithmetic (tz now N : Z) :
  0 <= N ->
  representable now ->
  let day := localToday tz now - N in
  let week := localToday tz now - 7 * N in
  (parseRelativeDate tz now (show_Z N ++ " days ago")
     = formatDate tz (addDays tz (setHours0 tz (Int now)) (Int (- N))) /\
   parseRelativeDate tz now (show_Z N ++ " weeks ago")
     = formatDate tz (addDays tz (setHours0 tz (Int now)) (Int (- (7 * N))))) /\
  (representable (midnight tz now - N * msPerDay) ->
   parseRelativeDate tz now (show_Z N ++ " days ago") = canonical day /\
   (1000 <= YearFromDay day <= 9999 ->
    parseRelativeDate tz now (show_Z N ++ " days ago") = isoDate day /\
    IsoForm (isoDate day))) /\
  (~ representable (midnight tz now - N * msPerDay) ->
   parseRelativeDate tz now (show_Z N ++ " days ago") = "NaN-NaN-NaN") /\
  (representable (midnight tz now - 7 * N * msPerDay) ->
   parseRelativeDate tz now (show_Z N ++ " weeks ago") = canonical week /\
   (1000 <= YearFromDay week <= 9999 ->
    parseRelativeDate tz now (show_Z N ++ " weeks ago") = isoDate week /\
    IsoForm (isoDate week))) /\
  (~ representable (midnight tz now - 7 * N * msPerDay) ->
   parseRelativeDate tz now (show_Z N ++ " weeks ago") = "NaN-NaN-NaN").
Proof.
  intros HN Rn day week.
  pose proof (days_phrase tz now N HN) as Ed.
  pose proof (weeks_phrase tz now N HN) as Ew.
  destruct (days_from_today tz now (- N) Rn ltac:(lia)) as [Di Do].
  destruct (days_from_today tz now (- (7 * N)) Rn ltac:(lia)) as [Wi Wo].
  replace (midnight tz now + - N * msPerDay)
    with (midnight tz now - N * msPerDay) in Di, Do by lia.
  replace (midnight tz now + - (7 * N) * msPerDay)
    with (midnight tz now - 7 * N * msPerDay) in Wi, Wo by lia.
  replace (localToday tz now + - N) with day in Di by (subst day; lia).
  replace (localToday tz now + - (7 * N)) with week in Wi by (subst week; lia).
  split; [split; assumption|].
  split; [|split; [|split]].
  - intros R. rewrite Ed, (Di R). split; [reflexivity|].
    intros Hy. rewrite (isoDate_canonical _ Hy).
    split; [reflexivity | apply canonical_IsoForm, Hy].
  - intros R. rewrite Ed. apply Do, R.
  - intros R. rewrite Ew, (Wi R). split; [reflexivity|].
    intros Hy. rewrite (isoDate_canonical _ Hy).
    split; [reflexivity | apply canonical_IsoForm, Hy].
  - intros R. rewrite Ew. apply Wo, R.
Qed.

Lemma C7_witness :
  parseRelativeDate 3600000 1770199200000 "3 days ago" = "2026-02-01" /\
  parseRelativeDate 3600000 1770199200000 "2 weeks ago" = "2026-01-21" /\
  parseRelativeDate 3600000 1770199200000 "1000000000 days ago" = "NaN-NaN-NaN".
Proof.
  assert (representable 1770199200000) as Rn
    by (unfold representable; vm_compute; discriminate).
  destruct (C7_ago_arithmetic 3600000 1770199200000 3 ltac:(lia) Rn)
    as (_ & Hd & _).
  destruct (C7_ago_arithmetic 3600000 1770199200000 2 ltac:(lia) Rn)
    as (_ & _ & _ & Hw & _).
  destruct (C7_ago_arithmetic 3600000 1770199200000 1000000000 ltac:(lia) Rn)
    as (_ & _ & Ho & _).
  split; [|split].
  - apply Hd; [unfold representable; vm_compute; discriminate|].
    vm_compute. split; discriminate.
  - apply Hw; [unfold representable; vm_compute; discriminate|].
    vm_compute. split; discriminate.
  - apply Ho. unfold representable. vm_compute. intros H. apply H. reflexivity.
Defined.

(** ** The resolver as a function of the local day *)

Lemma today_invalid tz now :
  ~ representable (midnight tz now) -> setHours0 tz (Int now) = NaN.
Proof. intros R. rewrite setHours0_Int. apply TimeClip_out, R. Qed.

Lemma today_valid tz now :
  representable (midnight tz now) ->
  setHours0 tz (Int now) = Int (midnight tz now).
Proof. intros R. rewrite setHours0_Int. apply TimeClip_in, R. Qed.

Lemma today_shape tz now :
  formatDate tz (setHours0 tz (Int now)) = "NaN-NaN-NaN" \/
  formatDate tz (setHours0 tz (Int now)) = canonical (localToday tz now).
Proof.
  destruct (representable_dec (midnight tz now)) as [R|R].
  - right. rewrite (today_valid _ _ R), formatDate_Int.
    pose proof (Day_midnight tz now 0) as D.
    rewrite Z.mul_0_l, !Z.add_0_r in D. rewrite D. reflexivity.
  - left. rewrite (today_invalid _ _ R). reflexivity.
Qed.

Lemma day_shape tz now k :
  formatDate tz (addDays tz (setHours0 tz (Int now)) (Int k)) = "NaN-NaN-NaN" \/
  formatDate tz (addDays tz (setHours0 tz (Int now)) (Int k))
  = canonical (localToday tz now + k).
Proof.
  destruct (representable_dec (midnight tz now)) as [R|R].
  - destruct (representable_dec (midnight tz now + k * msPerDay)) as [R'|R'].
    + right. apply formatDate_addDays; assumption.
    + left. apply formatDate_addDays_out, R'.
  - left. rewrite (today_invalid _ _ R). reflexivity.
Qed.

Lemma month_shape tz now k :
  formatDate tz (addMonths tz (setHours0 tz (Int now)) (Int k)) = "NaN-NaN-NaN" \/
  formatDate tz (addMonths tz (setHours0 tz (Int now)) (Int k))
  = canonical (MakeDay (YearFromDay (localToday tz now))
                       (MonthFromDay (localToday tz now) + k)
                       (DateFromDay (localToday tz now))).
Proof.
  destruct (representable_dec (midnight tz now)) as [R|R].
  - rewrite (addMonths_midnight _ _ _ R).
    set (D := MakeDay _ _ _).
    destruct (representable_dec (D * msPerDay - tz)) as [R'|R'].
    + right. rewrite (TimeClip_in _ R'), formatDate_Int. f_equal.
      unfold LocalTime, Day.
      replace (D * msPerDay - tz + tz) with (D * msPerDay) by lia.
      apply Z.div_mul. discriminate.
    + left. rewrite (TimeClip_out _ R'). reflexivity.
  - left. rewrite (today_invalid _ _ R). reflexivity.
Qed.

Lemma weekday_today tz now :
  representable (midnight tz now) ->
  getDay tz (setHours0 tz (Int now)) = Int ((localToday tz now + 4) mod 7).
Proof.
  intros R. rewrite (today_valid _ _ R). unfold getDay, WeekDay.
  pose proof (Day_midnight tz now 0) as D.
  rewrite Z.mul_0_l, !Z.add_0_r in D. rewrite D. reflexivity.
Qed.

(** Every input is either returned as it is, whatever the zone and the
    clock, or resolved to a day that is a function of the current local
    day alone, unless that day or the current one is beyond the range of
    [Date]. *)
Lemma resolve_by_day s :
  (forall tz now, parseRelativeDate tz now s = s) \/
  exists f : Z -> Z,
    forall tz now,
      parseRelativeDate tz now s = "NaN-NaN-NaN" \/
      parseRelativeDate tz now s = canonical (f (localToday tz now)).
Proof.
  destruct (isoDateRe s) eqn:I;
    [left; intros; apply resolve_iso, I|].
  destruct (String.eqb_spec (trim (toLowerCase s)) "today") as [K1|K1];
    [right; exists (fun L => L); intros tz now;
     rewrite (resolve_today tz now s I (or_introl K1)); apply today_shape|].
  destruct (String.eqb_spec (trim (toLowerCase s)) "now") as [K2|K2];
    [right; exists (fun L => L); intros tz now;
     rewrite (resolve_today tz now s I (or_intror K2)); apply today_shape|].
  destruct (String.eqb_spec (trim (toLowerCase s)) "yesterday") as [K3|K3].
  { right. exists (fun L => L + -1). intros tz now.
    unfold parseRelativeDate. rewrite I, K3.
    change (String.eqb "yesterday" "today") with false.
    change (String.eqb "yesterday" "now") with false.
    change (String.eqb "yesterday" "yesterday") with true.
    cbv iota. simpl orb. cbv iota. apply day_shape. }
  destruct (String.eqb_spec (trim (toLowerCase s)) "tomorrow") as [K4|K4].
  { right. exists (fun L => L + 1). intros tz now.
    unfold parseRelativeDate. rewrite I, K4.
    change (String.eqb "tomorrow" "today") with false.
    change (String.eqb "tomorrow" "now") with false.
    change (String.eqb "tomorrow" "yesterday") with false.
    change (String.eqb "tomorrow" "tomorrow") with true.
    cbv iota. simpl orb. cbv iota. apply day_shape. }
  destruct (agoRe (trim (toLowerCase s))) as [[g u]|] eqn:A.
  { right.
    pose proof A as (_ & Hu & Hn & Hd)%agoRe_sound.
    destruct (parseInt_digits g Hn Hd) as (n & _ & En).
    simpl in Hu. destruct Hu as [<-|[<-|[<-|[]]]].
    - exists (fun L => L + - n). intros tz now.
      rewrite (resolve_ago_general tz now s g _ I A), En.
      change (String.eqb "day" "day") with true. cbv iota.
      apply day_shape.
    - exists (fun L => L + - n * 7). intros tz now.
      rewrite (resolve_ago_general tz now s g _ I A), En.
      change (String.eqb "week" "day") with false.
      change (String.eqb "week" "week") with true. cbv iota.
      apply day_shape.
    - exists (fun L => MakeDay (YearFromDay L) (MonthFromDay L + - n)
                         (DateFromDay L)).
      intros tz now.
      rewrite (resolve_ago_general tz now s g _ I A), En.
      change (String.eqb "month" "day") with false.
      change (String.eqb "month" "week") with false. cbv iota.
      apply month_shape. }
  destruct (weekdayRe (trim (toLowerCase s))) as [[m d]|] eqn:Wd.
  { right.
    set (idx := indexOf ["sunday"; "monday"; "tuesday"; "wednesday";
                         "thursday"; "friday"; "saturday"] d).
    exists (fun L =>
              let cur := (L + 4) mod 7 in
              if String.eqb m "last"
              then L + - (if cur - idx <=? 0 then cur - idx + 7 else cur - idx)
              else L + (if idx - cur <? 0 then idx - cur + 7 else idx - cur)).
    intros tz now. rewrite (resolve_weekday tz now s m d I Wd). cbv zeta.
    fold idx.
    destruct (representable_dec (midnight tz now)) as [R|R].
    - rewrite (weekday_today _ _ R).
      destruct (String.eqb m "last"); apply day_shape.
    - rewrite (today_invalid _ _ R). left. reflexivity. }
  left. intros tz now. apply resolve_unrecognized; try assumption.
  unfold KeywordForm. simpl. intros [E|[E|[E|[E|[]]]]]; congruence.
Qed.

(** C9, as stated, fails: on the same local date, 4 February 2026, the
    same input is resolved to a date in a zone on UTC and to the text of
    an invalid date in a zone an hour ahead, where the day asked for is
    just beyond the range of [Date]. *)
Lemma C9_counterexample :
  localToday 0 1770199200000 = localToday 3600000 1770199200000 /\
  parseRelativeDate 0 1770199200000 "100020488 days ago" = "-271821-04-20" /\
  parseRelativeDate 3600000 1770199200000 "100020488 days ago" = "NaN-NaN-NaN".
Proof. vm_compute. repeat split. Qed.

(** C9, amended. The resolver has a string as result for every input (no
    step of it can throw). That result depends on the clock through the
    current local date only, not through the time of day; on the same
    local date two zones give the same result unless one of them gives
    the text of an invalid date, for a day beyond the range of [Date].
    An input that has none of the recognized forms is the result,
    unchanged, whatever the zone and the clock. *)
Theorem C9_total_and_permissive (tz now : Z) (input : string) :
  (forall now',
     localToday tz now' = localToday tz now ->
     parseRelativeDate tz now' input = parseRelativeDate tz now input) /\
  (forall tz' now',
     localToday tz' now' = localToday tz now ->
     parseRelativeDate tz now input <> "NaN-NaN-NaN" ->
     parseRelativeDate tz' now' input <> "NaN-NaN-NaN" ->
     parseRelativeDate tz' now' input = parseRelativeDate tz now input) /\
  (~ Recognized input ->
   forall tz' now', parseRelativeDate tz' now' input = input).
Proof.
  split; [|split].
  - intros now' E.
    assert (setHours0 tz (Int now') = setHours0 tz (Int now)) as T
      by (rewrite !setHours0_Int; unfold midnight; rewrite E; reflexivity).
    unfold parseRelativeDate. rewrite T. reflexivity.
  - intros tz' now' E V V'.
    destruct (resolve_by_day input) as [P|(f & P)].
    + rewrite !P. reflexivity.
    + destruct (P tz now) as [Q|Q]; [contradiction|].
      destruct (P tz' now') as [Q'|Q']; [contradiction|].
      rewrite Q, Q', E. reflexivity.
  - intros H tz' now'. rewrite Recognized_iff in H. unfold recognizedb in H.
    cbv zeta in H. apply not_true_is_false in H.
    rewrite !orb_false_iff in H. destruct H as [[[Hi Hk] Ha] Hw].
    apply resolve_unrecognized.
    + exact Hi.
    + unfold KeywordForm. intros K.
      assert (existsb (String.eqb (trim (toLowerCase input)))
                ["today"; "now"; "yesterday"; "tomorrow"] = true) as E.
      { apply existsb_exists. eexists.
        split; [exact K | apply String.eqb_refl]. }
      congruence.
    + apply bool_decide_eq_false in Ha.
      destruct (agoRe _); [destruct Ha; eauto | reflexivity].
    + apply bool_decide_eq_false in Hw.
      destruct (weekdayRe _); [destruct Hw; eauto | reflexivity].
Qed.

Lemma C9_witness :
  ~ Recognized "banana" /\
  parseRelativeDate 3600000 1770199200000 "banana" = "banana" /\
  parseRelativeDate 0 1770199200000 "last Monday"
  = parseRelativeDate 3600000 1770242400000 "last Monday".
Proof.
  assert (~ Recognized "banana") as H.
  { rewrite Recognized_iff. vm_compute. discriminate. }
  split; [exact H|]. split.
  - exact (proj2 (proj2 (C9_total_and_permissive 3600000 1770199200000
                           "banana")) H 3600000 1770199200000).
  - apply (proj1 (proj2 (C9_total_and_permissive 3600000 1770242400000
                           "last Monday"))).
    + vm_compute. reflexivity.
    + vm_compute. discriminate.
    + vm_compute. discriminate.
Defined.
